(** * Sequence-regression networks (seq_net.py): a shallow embedding

    The repository composes torch layers into three dual-branch networks.
    Scalars are kept abstract (a signature of the floating-point operations
    the layers use); a tensor is a shape together with an indexing function;
    every call that can raise is a partial function into [option]. *)

From Stdlib Require Import List Arith Lia Bool ZArith String.
Import ListNotations.

(** ** Scalars *)

(** The element type of tensors, with the primitive operations the layers
    apply to it.  [f_eps] is the constant 1e-5 that torch's normalization
    layers add to a variance by default. *)
Class Scalar (R : Type) : Type := {
  f_zero : R;
  f_one : R;
  f_add : R -> R -> R;
  f_sub : R -> R -> R;
  f_mul : R -> R -> R;
  f_div : R -> R -> R;
  f_sqrt : R -> R;
  f_of_nat : nat -> R;
  f_eps : R;
  f_gelu : R -> R;
  f_tanh : R -> R;
  f_sigmoid : R -> R;
  f_relu : R -> R
}.

Declare Scope float_scope.
Delimit Scope float_scope with F.
Infix "+" := f_add : float_scope.
Infix "-" := f_sub : float_scope.
Infix "*" := f_mul : float_scope.
Infix "/" := f_div : float_scope.

(** ** Errors *)

(** A Python exception is [None]; [x <- e ;; k] propagates it. *)
Definition bind {A B : Type} (e : option A) (k : A -> option B) : option B :=
  match e with
  | Some x => k x
  | None => None
  end.

Notation "x <- e ;; k" := (bind e (fun x => k))
  (at level 61, e at next level, right associativity).
Notation "' p <- e ;; k" := (bind e (fun x => match x with p => k end))
  (at level 61, p pattern, e at next level, right associativity).

Definition guard (b : bool) : option unit := if b then Some tt else None.

(** ** Rows of features and sums *)

(** A row of features: entry [k] is read for [k] below the row's width. *)
Definition vec (R : Type) : Type := nat -> R.

Section Vectors.
Context {R : Type} {SR : Scalar R}.

(** [veq n u v]: the two rows agree on their first [n] entries. *)
Definition veq (n : nat) (u v : vec R) : Prop := forall k, k < n -> u k = v k.

(** Sum of [f 0 .. f (n-1)], accumulated from the left starting at zero. *)
Fixpoint sum_n (n : nat) (f : nat -> R) : R :=
  match n with
  | 0 => f_zero
  | S n' => (sum_n n' f + f n')%F
  end.

(** The affine map of a linear layer on one row:
    entry [j] is [sum_k x k * w j k + b j]. *)
Definition affine (n_in : nat) (w : nat -> nat -> R) (b : nat -> R)
    (x : vec R) : vec R :=
  fun j => (sum_n n_in (fun k => x k * w j k) + b j)%F.

(** Mean and (biased) variance of the first [n] entries of a row. *)
Definition mean (n : nat) (u : vec R) : R := (sum_n n u / f_of_nat n)%F.

Definition variance (n : nat) (u : vec R) : R :=
  let m := mean n u in
  (sum_n n (fun k => (u k - m) * (u k - m)) / f_of_nat n)%F.

(** The normalization both batch and layer normalization apply to one
    element, given the statistics [m], [v] and the affine pair [w], [b]. *)
Definition normalize (m v w b x : R) : R :=
  ((x - m) / f_sqrt (v + f_eps) * w + b)%F.

End Vectors.

(** ** Tensors *)

Record tensor (R : Type) : Type := Tensor {
  shape : list nat;
  get : list nat -> R
}.
Arguments Tensor {R} shape get.
Arguments shape {R} t.
Arguments get {R} t idx.

(** Number of elements of a shape. *)
Definition numel (s : list nat) : nat := fold_right Nat.mul 1 s.

(** A multi-index lies inside a shape. *)
Fixpoint in_bounds (idx s : list nat) : Prop :=
  match idx, s with
  | [], [] => True
  | i :: idx', n :: s' => i < n /\ in_bounds idx' s'
  | _, _ => False
  end.

(** Two tensors are the same tensor: same shape, same element at every
    index inside it. *)
Definition teq {R : Type} (x y : tensor R) : Prop :=
  shape x = shape y /\
  forall idx, in_bounds idx (shape x) -> get x idx = get y idx.

(** Row-major offset of a multi-index, and its inverse. *)
Fixpoint ravel (s idx : list nat) : nat :=
  match s, idx with
  | _ :: s', i :: idx' => i * numel s' + ravel s' idx'
  | _, _ => 0
  end.

Fixpoint unravel (s : list nat) (k : nat) : list nat :=
  match s with
  | [] => []
  | _ :: s' => (k / numel s') :: unravel s' (k mod numel s')
  end.

(** A Python value that travels as a hidden state: [None], a tensor, or a
    tuple of such values. *)
#[warnings="-register-all"]
Inductive value (R : Type) : Type :=
| VNone
| VTensor (x : tensor R)
| VTuple (vs : list (value R)).
Arguments VNone {R}.
Arguments VTensor {R} x.
Arguments VTuple {R} vs.

(** A requested dimension of [reshape]: a size, or [-1] (to be inferred). *)
Inductive dim : Type :=
| D (n : nat)
| Infer.

(** ** The torch functions the networks call *)

Module th.
Section Functions.
Context {R : Type} {SR : Scalar R}.

Definition zeros (s : list nat) : tensor R := Tensor s (fun _ => f_zero).

(** Product of the given sizes of a requested shape. *)
Definition known (dims : list dim) : nat :=
  fold_right (fun d acc => match d with D n => n * acc | Infer => acc end) 1 dims.

Definition count_infer (dims : list dim) : nat :=
  List.length (filter (fun d => match d with Infer => true | D _ => false end) dims).

(** The shape [reshape] settles on for a tensor of [n] elements: without
    [-1] the sizes must multiply to [n]; with one [-1] the given sizes must
    multiply to a positive divisor of [n] (with 0 elements the inferred
    size is ambiguous and torch raises); with more it raises. *)
Definition infer_size (n : nat) (dims : list dim) : option (list nat) :=
  let k := known dims in
  match count_infer dims with
  | 0 =>
      _ <- guard (n =? k) ;;
      Some (map (fun d => match d with D m => m | Infer => 0 end) dims)
  | 1 =>
      _ <- guard ((0 <? k) && (n mod k =? 0)) ;;
      Some (map (fun d => match d with D m => m | Infer => n / k end) dims)
  | _ => None
  end.

(** [x.reshape(dims)]: the same elements in row-major order. *)
Definition reshape (x : tensor R) (dims : list dim) : option (tensor R) :=
  s <- infer_size (numel (shape x)) dims ;;
  Some (Tensor s (fun idx => get x (unravel (shape x) (ravel s idx)))).

(** Position of [j] in [l]. *)
Fixpoint index_of (j : nat) (l : list nat) : nat :=
  match l with
  | [] => 0
  | a :: l' => if a =? j then 0 else S (index_of j l')
  end.

Definition is_permutation (n : nat) (dims : list nat) : bool :=
  (List.length dims =? n) && forallb (fun j => existsb (Nat.eqb j) dims) (seq 0 n).

(** [x.permute(dims)]: axis [i] of the result is axis [dims[i]] of [x]. *)
Definition permute (x : tensor R) (dims : list nat) : option (tensor R) :=
  _ <- guard (is_permutation (List.length (shape x)) dims) ;;
  Some (Tensor (map (fun d => nth d (shape x) 0) dims)
          (fun idx =>
             get x (map (fun j => nth (index_of j dims) idx 0)
                      (seq 0 (List.length dims))))).

(** Replace entry [d] of a list. *)
Fixpoint set_nth (d v : nat) (l : list nat) : list nat :=
  match l, d with
  | [], _ => []
  | _ :: l', 0 => v :: l'
  | a :: l', S d' => a :: set_nth d' v l'
  end.

Fixpoint cat_get (xs : list (tensor R)) (d : nat) (idx : list nat) : R :=
  match xs with
  | [] => f_zero
  | x :: xs' =>
      let n := nth d (shape x) 0 in
      let i := nth d idx 0 in
      if i <? n then get x idx else cat_get xs' d (set_nth d (i - n) idx)
  end.

(** [th.cat(xs, dim)]: at least one tensor, an axis of theirs, and shapes
    that agree off that axis. *)
Definition cat (xs : list (tensor R)) (d : nat) : option (tensor R) :=
  match xs with
  | [] => None
  | x :: xs' =>
      _ <- guard (d <? List.length (shape x)) ;;
      _ <- guard (forallb (fun y =>
                     if list_eq_dec Nat.eq_dec
                          (set_nth d 0 (shape y)) (set_nth d 0 (shape x))
                     then true else false) xs') ;;
      Some (Tensor
              (set_nth d (list_sum (map (fun y => nth d (shape y) 0) xs)) (shape x))
              (cat_get xs d))
  end.

(** First kept position of the slice [start:] of an axis of length [n]. *)
Definition slice_start (n : nat) (start : Z) : nat :=
  Z.to_nat (Z.min (Z.of_nat n)
              (Z.max 0 (if (start <? 0)%Z then start + Z.of_nat n else start)%Z)).

(** [x[start:, :, :]] *)
Definition getitem_from (x : tensor R) (start : Z) : option (tensor R) :=
  match shape x with
  | d0 :: d1 :: d2 :: s' =>
      let a := slice_start d0 start in
      Some (Tensor ((d0 - a) :: d1 :: d2 :: s')
              (fun idx => get x ((hd 0 idx + a) :: tl idx)))
  | _ => None
  end.



(** A function applied to every element. *)
Definition pointwise (f : R -> R) (x : tensor R) : tensor R :=
  Tensor (shape x) (fun idx => f (get x idx)).

End Functions.
End th.

(** ** Parameters *)

(** A component of a parameter's name: [mlp_inp.mlp.0.weight] is the path
    [Name "mlp_inp"; Name "mlp"; Idx 0; Name "weight"]. *)
Inductive key : Type :=
| Name (s : string)
| Idx (i : nat).

(** The values of all parameters and buffers of a module: a name and an
    index into that parameter give an element. *)
Definition state_dict (R : Type) : Type := list key -> list nat -> R.

(** The parameters of the submodule registered under [k]. *)
Definition sub {R : Type} (params : state_dict R) (k : key) : state_dict R :=
  fun path => params (k :: path).

(** ** torch.nn layers *)

(** [nn.TransformerEncoderLayer] is used as a black box: a constructed
    layer (its weights, and the masks its dropout draws during a call in
    training mode) maps a tensor to a tensor of the same shape, or raises. *)
Class Transformer (R : Type) : Type := {
  TransformerEncoderLayer : Type;
  TransformerEncoderLayer_init :
    forall (d_model nhead dim_feedforward : nat) (dropout : nat * nat)
           (batch_first : bool), state_dict R -> TransformerEncoderLayer;
  TransformerEncoderLayer_forward :
    TransformerEncoderLayer -> bool -> tensor R -> option (tensor R);
  TransformerEncoderLayer_shape :
    forall e training x y,
      TransformerEncoderLayer_forward e training x = Some y -> shape y = shape x
}.

(** The layer classes a [nn.Sequential] of this repository holds.  A
    fraction [(p, q)] stands for the float [p/q]. *)
Inductive module (R : Type) : Type :=
| BatchNorm1d (num_features : nat) (momentum : nat * nat) (params : state_dict R)
| Linear (in_features out_features : nat) (params : state_dict R)
| GELU
| LayerNorm (normalized_shape : nat) (params : state_dict R)
| Tanh.
Arguments BatchNorm1d {R} num_features momentum params.
Arguments Linear {R} in_features out_features params.
Arguments GELU {R}.
Arguments LayerNorm {R} normalized_shape params.
Arguments Tanh {R}.

Module nn.
Section Layers.
Context {R : Type} {SR : Scalar R}.
Local Open Scope string_scope.
Local Open Scope nat_scope.

(** Parameter [name] of a layer as an index function. *)
Definition param (params : state_dict R) (name : string) (idx : list nat) : R :=
  params [Name name] idx.

(** [nn.Linear]: the affine map on the last axis, which must have
    [in_features] entries. *)
Definition Linear_forward (in_features out_features : nat)
    (params : state_dict R) (x : tensor R) : option (tensor R) :=
  match rev (shape x) with
  | n :: pre =>
      _ <- guard (n =? in_features) ;;
      Some (Tensor (rev (out_features :: pre))
              (fun idx =>
                 affine in_features
                   (fun j k => param params "weight" [j; k])
                   (fun j => param params "bias" [j])
                   (fun k => get x (removelast idx ++ [k]))
                   (last idx 0)))
  | [] => None
  end.

(** [nn.LayerNorm(n)]: every row along the last axis, which must have [n]
    entries, is normalized by its own mean and variance. *)
Definition LayerNorm_forward (normalized_shape : nat) (params : state_dict R)
    (x : tensor R) : option (tensor R) :=
  match rev (shape x) with
  | n :: _ =>
      _ <- guard (n =? normalized_shape) ;;
      Some (Tensor (shape x)
              (fun idx =>
                 let u : vec R := fun k => get x (removelast idx ++ [k]) in
                 let j := last idx 0 in
                 normalize (mean n u) (variance n u)
                   (param params "weight" [j]) (param params "bias" [j]) (u j)))
  | [] => None
  end.

(** The values of channel [c] of a [(N, C)] or [(N, C, L)] input, and how
    many there are. *)
Definition channel (x : tensor R) (c : nat) : nat * vec R :=
  match shape x with
  | [n; _] => (n, fun i => get x [i; c])
  | [n; _; l] => (n * l, fun i => get x [i / l; c; i mod l])
  | _ => (0, fun _ => f_zero)
  end.

(** [nn.BatchNorm1d]: input [(N, C)] or [(N, C, L)] with [C = num_features].
    In evaluation mode every element is normalized by the running statistics
    of its channel; in training mode by the statistics of its channel over
    the whole batch, and a batch with exactly one value per channel is
    refused.  (The
    update of the running statistics by a training-mode call is a side
    effect on the layer's buffers and is not part of the returned tensor.) *)
Definition BatchNorm1d_forward (num_features : nat) (params : state_dict R)
    (training : bool) (x : tensor R) : option (tensor R) :=
  _ <- guard (match shape x with
              | [_; c] | [_; c; _] => c =? num_features
              | _ => false
              end) ;;
  if training then
    _ <- guard (negb (fst (channel x 0) =? 1)) ;;
    Some (Tensor (shape x)
            (fun idx =>
               let c := nth 1 idx 0 in
               let '(n, u) := channel x c in
               normalize (mean n u) (variance n u)
                 (param params "weight" [c]) (param params "bias" [c])
                 (get x idx)))
  else
    Some (Tensor (shape x)
            (fun idx =>
               let c := nth 1 idx 0 in
               normalize (param params "running_mean" [c])
                 (param params "running_var" [c])
                 (param params "weight" [c]) (param params "bias" [c])
                 (get x idx))).

(** The call of one layer of a [nn.Sequential]. *)
Definition module_forward (m : module R) (training : bool) (x : tensor R)
    : option (tensor R) :=
  match m with
  | BatchNorm1d num_features _ params =>
      BatchNorm1d_forward num_features params training x
  | Linear in_features out_features params =>
      Linear_forward in_features out_features params x
  | GELU => Some (th.pointwise f_gelu x)
  | LayerNorm normalized_shape params =>
      LayerNorm_forward normalized_shape params x
  | Tanh => Some (th.pointwise f_tanh x)
  end.

(** [nn.Sequential]: the layers in order. *)
Fixpoint Sequential_forward (ms : list (module R)) (training : bool)
    (x : tensor R) : option (tensor R) :=
  match ms with
  | [] => Some x
  | m :: ms' =>
      y <- module_forward m training x ;;
      Sequential_forward ms' training y
  end.

(** [F.relu] *)
Definition relu (x : tensor R) : tensor R := th.pointwise f_relu x.

(** [nn.Conv1d(in_channels, out_channels, kernel_size, dilation=dilation,
    padding='same')] on a [(N, C, L)] input: stride 1, and zero padding of
    [dilation * (kernel_size - 1)] positions in all, the left side getting
    half of them rounded down.  Output position [t] reads the padded input
    at [t + k * dilation] for each tap [k]. *)
Record Conv1d : Type := {
  in_channels : nat;
  out_channels : nat;
  kernel_size : nat;
  dilation : nat;
  conv_params : state_dict R
}.

Definition total_padding (kernel_size dilation : nat) : nat :=
  dilation * (kernel_size - 1).

Definition left_pad (kernel_size dilation : nat) : nat :=
  total_padding kernel_size dilation / 2.

Definition right_pad (kernel_size dilation : nat) : nat :=
  total_padding kernel_size dilation - left_pad kernel_size dilation.

(** Element [j] of the zero-padded time axis of length [l]. *)
Definition padded (left l : nat) (row : nat -> R) (j : nat) : R :=
  if (left <=? j) && (j - left <? l) then row (j - left) else f_zero.

Definition Conv1d_forward (self : Conv1d) (x : tensor R) : option (tensor R) :=
  match shape x with
  | [n; c; l] =>
      _ <- guard (c =? in_channels self) ;;
      let left := left_pad (kernel_size self) (dilation self) in
      Some (Tensor [n; out_channels self; l]
              (fun idx =>
                 let b := nth 0 idx 0 in
                 let co := nth 1 idx 0 in
                 let t := nth 2 idx 0 in
                 (sum_n (in_channels self) (fun ci =>
                    sum_n (kernel_size self) (fun k =>
                      padded left l (fun s => get x [b; ci; s])
                        (t + k * dilation self)
                      * param (conv_params self) "weight" [co; ci; k]))
                  + param (conv_params self) "bias" [co])%F))
  | _ => None
  end.

(** *** Recurrent layers *)

Inductive rnn_mode : Type :=
| LSTM
| GRU.

(** [nn.LSTM(input_size, hidden_size, num_layers=num_layers)] and
    [nn.GRU(...)]: time-major input [(T, B, input_size)], no dropout, one
    direction.  The parameters of layer [l] are [weight_ih_l<l>],
    [weight_hh_l<l>], [bias_ih_l<l>] and [bias_hh_l<l>]. *)
Record RNNBase : Type := {
  mode : rnn_mode;
  input_size : nat;
  hidden_size : nat;
  num_layers : nat;
  rnn_params : state_dict R
}.

Definition rnn_param (self : RNNBase) (name : string) (l : nat)
    (idx : list nat) : R :=
  rnn_params self [Name name; Idx l] idx.

(** Width of the input of layer [l]. *)
Definition in_width (self : RNNBase) (l : nat) : nat :=
  if l =? 0 then input_size self else hidden_size self.

(** Gate pre-activations contributed by the input and by the hidden state. *)
Definition gates_i (self : RNNBase) (l : nat) (x : vec R) : vec R :=
  affine (in_width self l)
    (fun j k => rnn_param self "weight_ih_l" l [j; k])
    (fun j => rnn_param self "bias_ih_l" l [j]) x.

Definition gates_h (self : RNNBase) (l : nat) (h : vec R) : vec R :=
  affine (hidden_size self)
    (fun j k => rnn_param self "weight_hh_l" l [j; k])
    (fun j => rnn_param self "bias_hh_l" l [j]) h.

(** One LSTM step of layer [l]; the state is [(h, c)] and the gates are
    stored in the order input, forget, cell, output. *)
Definition lstm_cell (self : RNNBase) (l : nat) (x : vec R) (s : vec R * vec R)
    : vec R * vec R :=
  let n := hidden_size self in
  let g := fun j => (gates_i self l x j + gates_h self l (fst s) j)%F in
  let c' := fun j =>
    (f_sigmoid (g (n + j)%nat) * snd s j
     + f_sigmoid (g j) * f_tanh (g (2 * n + j)%nat))%F in
  (fun j => (f_sigmoid (g (3 * n + j)%nat) * f_tanh (c' j))%F, c').

(** One GRU step of layer [l]; the gates are stored in the order reset,
    update, new. *)
Definition gru_cell (self : RNNBase) (l : nat) (x : vec R) (h : vec R) : vec R :=
  let n := hidden_size self in
  let gi := gates_i self l x in
  let gh := gates_h self l h in
  fun j =>
    let r := f_sigmoid (gi j + gh j)%F in
    let z := f_sigmoid (gi (n + j)%nat + gh (n + j)%nat)%F in
    let c := f_tanh (gi (2 * n + j)%nat + r * gh (2 * n + j)%nat)%F in
    ((f_one - z) * c + z * h j)%F.

(** State of one layer after [t] steps over the inputs [xs 0 .. xs (t-1)]. *)
Fixpoint run {St : Type} (cell : vec R -> St -> St) (xs : nat -> vec R) (s0 : St)
    (t : nat) : St :=
  match t with
  | 0 => s0
  | S t' => cell (xs t') (run cell xs s0 t')
  end.

(** Input sequence of layer [l] of a stack: the outputs of the layer below. *)
Fixpoint layer_input {St : Type} (cell : nat -> vec R -> St -> St) (out : St -> vec R)
    (init : nat -> St) (xs : nat -> vec R) (l : nat) : nat -> vec R :=
  match l with
  | 0 => xs
  | S l' =>
      fun t => out (run (cell l') (layer_input cell out init xs l') (init l') (S t))
  end.

Definition layer_state {St : Type} (cell : nat -> vec R -> St -> St) (out : St -> vec R)
    (init : nat -> St) (xs : nat -> vec R) (l t : nat) : St :=
  run (cell l) (layer_input cell out init xs l) (init l) t.

(** Row [(l, b)] of a hidden-state tensor of shape [(num_layers, B, H)]. *)
Definition hidden_row (h : tensor R) (l b : nat) : vec R :=
  fun j => get h [l; b; j].

Definition hidden_ok (self : RNNBase) (b : nat) (h : tensor R) : bool :=
  if list_eq_dec Nat.eq_dec (shape h) [num_layers self; b; hidden_size self]
  then true else false.

(** The initial hidden state a call starts from: zeros when [hx] is [None],
    else what [hx] holds, checked against [(num_layers, B, hidden_size)]. *)
Definition LSTM_hx (self : RNNBase) (b_len : nat) (hx : value R)
    : option (tensor R * tensor R) :=
  match hx with
  | VNone =>
      Some (th.zeros [num_layers self; b_len; hidden_size self],
            th.zeros [num_layers self; b_len; hidden_size self])
  | VTuple [VTensor h; VTensor c] =>
      _ <- guard (hidden_ok self b_len h && hidden_ok self b_len c) ;;
      Some (h, c)
  | _ => None
  end.

Definition GRU_hx (self : RNNBase) (b_len : nat) (hx : value R)
    : option (tensor R) :=
  match hx with
  | VNone => Some (th.zeros [num_layers self; b_len; hidden_size self])
  | VTensor h => _ <- guard (hidden_ok self b_len h) ;; Some h
  | _ => None
  end.

Definition LSTM_forward (self : RNNBase) (input : tensor R) (hx : value R)
    : option (tensor R * value R) :=
  match shape input with
  | [t_len; b_len; i_len] =>
      _ <- guard (i_len =? input_size self) ;;
      '(h0, c0) <- LSTM_hx self b_len hx ;;
      let init := fun b l => (hidden_row h0 l b, hidden_row c0 l b) in
      let xs := fun b t => (fun k => get input [t; b; k]) : vec R in
      Some (Tensor [t_len; b_len; hidden_size self]
              (fun idx =>
                 layer_input (lstm_cell self) fst (init (nth 1 idx 0))
                   (xs (nth 1 idx 0)) (num_layers self) (nth 0 idx 0) (nth 2 idx 0)),
            VTuple
              [VTensor (Tensor [num_layers self; b_len; hidden_size self]
                 (fun idx =>
                    fst (layer_state (lstm_cell self) fst (init (nth 1 idx 0))
                           (xs (nth 1 idx 0)) (nth 0 idx 0) t_len) (nth 2 idx 0)));
               VTensor (Tensor [num_layers self; b_len; hidden_size self]
                 (fun idx =>
                    snd (layer_state (lstm_cell self) fst (init (nth 1 idx 0))
                           (xs (nth 1 idx 0)) (nth 0 idx 0) t_len) (nth 2 idx 0)))])
  | _ => None
  end.

Definition GRU_forward (self : RNNBase) (input : tensor R) (hx : value R)
    : option (tensor R * value R) :=
  match shape input with
  | [t_len; b_len; i_len] =>
      _ <- guard (i_len =? input_size self) ;;
      h0 <- GRU_hx self b_len hx ;;
      let init := fun b l => hidden_row h0 l b in
      let xs := fun b t => (fun k => get input [t; b; k]) : vec R in
      Some (Tensor [t_len; b_len; hidden_size self]
              (fun idx =>
                 layer_input (gru_cell self) (fun h => h) (init (nth 1 idx 0))
                   (xs (nth 1 idx 0)) (num_layers self) (nth 0 idx 0) (nth 2 idx 0)),
            VTensor (Tensor [num_layers self; b_len; hidden_size self]
              (fun idx =>
                 layer_state (gru_cell self) (fun h => h) (init (nth 1 idx 0))
                   (xs (nth 1 idx 0)) (nth 0 idx 0) t_len (nth 2 idx 0))))
  | _ => None
  end.

(** The call of a recurrent layer: the output sequence and the new hidden
    state. *)
Definition RNN_forward (self : RNNBase) (input : tensor R) (hx : value R)
    : option (tensor R * value R) :=
  match mode self with
  | LSTM => LSTM_forward self input hx
  | GRU => GRU_forward self input hx
  end.

(** A criterion with [reduction='none']: a scalar loss applied to
    corresponding elements of two tensors of one shape. *)
Definition elementwise (loss : R -> R -> R) (out lab : tensor R)
    : option (tensor R) :=
  _ <- guard (if list_eq_dec Nat.eq_dec (shape out) (shape lab)
              then true else false) ;;
  Some (Tensor (shape out) (fun idx => loss (get out idx) (get lab idx))).

End Layers.
End nn.

(** ** Initializers *)

Module nn_init.
Section Functions.
Context {R : Type} {SR : Scalar R}.

(** Assignment to the parameter [name] of a layer: its other parameters and
    buffers keep their values. *)
Definition assign (params : state_dict R) (name : string) (v : list nat -> R)
    : state_dict R :=
  fun path idx =>
    match path with
    | [Name n] => if String.eqb n name then v idx else params path idx
    | _ => params path idx
    end.

(** [nn.init.orthogonal_(tensor, gain)] overwrites a tensor of two or more
    axes with a random (semi-)orthogonal matrix scaled by [gain]; [q] is the
    matrix drawn. *)
Definition orthogonal_ (q : list nat -> R) (gain : R) : list nat -> R :=
  fun idx => (q idx * gain)%F.

(** [nn.init.constant_(tensor, val)] *)
Definition constant_ (val : R) : list nat -> R := fun _ => val.

End Functions.
End nn_init.

Section LayerInit.
Context {R : Type} {SR : Scalar R}.

(** The float [p / q]. *)
Definition frac (p q : nat) : R := (f_of_nat p / f_of_nat q)%F.

(** [layer_init_with_orthogonal(layer, std, bias_const)].  Of the layers of
    this repository only a linear layer passes: GELU and Tanh have no
    [weight] (AttributeError), and the weight of a normalization has a
    single axis, which [orthogonal_] refuses (ValueError). *)
Definition layer_init_with_orthogonal (layer : module R) (std bias_const : R)
    (q : list nat -> R) : option (module R) :=
  match layer with
  | Linear in_features out_features params =>
      let params :=
        nn_init.assign params "weight"%string (nn_init.orthogonal_ q std) in
      let params :=
        nn_init.assign params "bias"%string (nn_init.constant_ bias_const) in
      Some (Linear in_features out_features params)
  | _ => None
  end.

End LayerInit.

(** [l[-k]] for [k >= 1]: element [len(l) - k], IndexError when there are
    fewer than [k] elements. *)
Definition getitem_neg {A : Type} (l : list A) (k : nat) : option A :=
  _ <- guard (k <=? List.length l) ;;
  nth_error l (List.length l - k).

(** The list with element [n] replaced. *)
Fixpoint update {A : Type} (n : nat) (v : A) (l : list A) : list A :=
  match l, n with
  | [], _ => []
  | _ :: l', 0 => v :: l'
  | a :: l', S n' => a :: update n' v l'
  end.

(** [f] applied to every element together with its position, counted from
    [i]. *)
Fixpoint mapi_from {A B : Type} (f : nat -> A -> B) (i : nat) (l : list A)
    : list B :=
  match l with
  | [] => []
  | a :: l' => f i a :: mapi_from f (S i) l'
  end.

(** ** The classes of seq_net.py *)

(** A module's [training] flag is passed to [forward] as an argument. *)

Module NnSeqBnMLP.
Section Class.
Context {R : Type} {SR : Scalar R}.

Record t : Type := { mlp : list (module R) }.

(** [mlp_list.append(layer)]: the new layer takes the next index of the
    [nn.Sequential] that [mlp_list] becomes, and its parameters live under
    [mlp.<index>]. *)
Definition append (params : state_dict R) (mlp_list : list (module R))
    (layer : state_dict R -> module R) : list (module R) :=
  mlp_list ++ [layer (sub (sub params (Name "mlp")) (Idx (List.length mlp_list)))].

(** Body of [for i in range(1, len(dims) - 1)]. *)
Definition init_step (dims : list nat) (if_layer_norm : bool)
    (params : state_dict R) (acc : option (list (module R))) (i : nat)
    : option (list (module R)) :=
  mlp_list <- acc ;;
  let mlp_list := append params mlp_list (fun _ => GELU) in
  mlp_list <-
    (if if_layer_norm
     then d <- nth_error dims i ;; Some (append params mlp_list (LayerNorm d))
     else Some mlp_list) ;;
  d <- nth_error dims i ;;
  d' <- nth_error dims (i + 1) ;;
  Some (append params mlp_list (Linear d d')).

(** [__init__(dims, if_inp_norm, if_layer_norm, activation)].  The values of
    the weights (set by the initializers, then by training) are those of
    [params]. *)
Definition init (dims : list nat) (if_inp_norm if_layer_norm : bool)
    (activation : option (module R)) (params : state_dict R) : option t :=
  let mlp_list := [] in
  mlp_list <-
    (if if_inp_norm
     then d <- nth_error dims 0 ;;
          Some (append params mlp_list (BatchNorm1d d (9, 10)))
     else Some mlp_list) ;;
  d <- nth_error dims 0 ;;
  d' <- nth_error dims 1 ;;
  let mlp_list := append params mlp_list (Linear d d') in
  mlp_list <-
    fold_left (init_step dims if_layer_norm params)
      (seq 1 (List.length dims - 1 - 1)) (Some mlp_list) ;;
  let mlp_list :=
    match activation with
    | Some a => mlp_list ++ [a]
    | None => mlp_list
    end in
  Some {| mlp := mlp_list |}.

Definition forward (self : t) (training : bool) (seq : tensor R)
    : option (tensor R) :=
  match shape seq with
  | [d0; d1; d2] =>
      inp <- th.reshape seq [D (d0 * d1); Infer] ;;
      out <- nn.Sequential_forward (mlp self) training inp ;;
      th.reshape out [D d0; D d1; Infer]
  | _ => None
  end.

(** The last statement of [__init__]: the layer before the output
    activation (the last layer when there is none) is handed to
    [layer_init_with_orthogonal] with [std=0.1], which overwrites its weight
    and bias in place; [q] is the matrix that [orthogonal_] draws. *)
Definition init_orthogonal (self : t) (activation : option (module R))
    (q : list nat -> R) : option t :=
  let k := match activation with Some _ => 2 | None => 1 end in
  layer <- getitem_neg (mlp self) k ;;
  layer <- layer_init_with_orthogonal layer (frac 1 10) (frac 1 (10 ^ 6)) q ;;
  Some {| mlp := update (List.length (mlp self) - k) layer (mlp self) |}.

(** Body of [for module in self.modules()] in [reset_parameters]; the block
    itself and its [nn.Sequential] are neither linear nor batch
    normalization, so only the layers of the stack are touched.  Every
    linear layer of a block has a bias. *)
Definition reset_module (std bias_const : R) (q : list nat -> R)
    (m : module R) : module R :=
  match m with
  | Linear in_features out_features params =>
      let params :=
        nn_init.assign params "weight"%string (nn_init.orthogonal_ q f_one) in
      let params :=
        nn_init.assign params "bias"%string (nn_init.constant_ bias_const) in
      Linear in_features out_features params
  | BatchNorm1d num_features momentum params =>
      let params :=
        nn_init.assign params "weight"%string (nn_init.constant_ std) in
      let params :=
        nn_init.assign params "bias"%string (nn_init.constant_ f_zero) in
      BatchNorm1d num_features momentum params
  | _ => m
  end.

(** [reset_parameters(std, bias_const)]; [draw i] is the matrix that
    [orthogonal_] draws for layer [i] of the stack. *)
Definition reset_parameters (self : t) (std bias_const : R)
    (draw : nat -> list nat -> R) : t :=
  {| mlp := mapi_from (fun i m => reset_module std bias_const (draw i) m) 0
              (mlp self) |}.

End Class.
End NnSeqBnMLP.

(** Unpacking [a, b = v]: a tuple of two values, or a tensor whose first
    axis has length two. *)
Definition unpack2 {R : Type} (v : value R) : option (value R * value R) :=
  match v with
  | VTuple [a; b] => Some (a, b)
  | VTensor x =>
      match shape x with
      | 2 :: s =>
          Some (VTensor (Tensor s (fun idx => get x (0 :: idx))),
                VTensor (Tensor s (fun idx => get x (1 :: idx))))
      | _ => None
      end
  | _ => None
  end.

Module RnnRegNet.
Section Class.
Context {R : Type} {SR : Scalar R}.

Record t : Type := {
  rnn1 : nn.RNNBase (R := R);
  mlp1 : NnSeqBnMLP.t (R := R);
  rnn2 : nn.RNNBase (R := R);
  mlp2 : NnSeqBnMLP.t (R := R);
  mlp_inp : NnSeqBnMLP.t (R := R);
  mlp_out : NnSeqBnMLP.t (R := R)
}.

Definition init (inp_dim mid_dim out_dim num_layers : nat)
    (params : state_dict R) : option t :=
  let rnn1 := {| nn.mode := nn.LSTM; nn.input_size := mid_dim;
                 nn.hidden_size := mid_dim; nn.num_layers := num_layers;
                 nn.rnn_params := sub params (Name "rnn1") |} in
  mlp1 <- NnSeqBnMLP.init [mid_dim; mid_dim; mid_dim] false false (Some GELU)
            (sub params (Name "mlp1")) ;;
  let rnn2 := {| nn.mode := nn.GRU; nn.input_size := mid_dim;
                 nn.hidden_size := mid_dim; nn.num_layers := num_layers;
                 nn.rnn_params := sub params (Name "rnn2") |} in
  mlp2 <- NnSeqBnMLP.init [mid_dim; mid_dim; mid_dim] false false (Some GELU)
            (sub params (Name "mlp2")) ;;
  mlp_inp <- NnSeqBnMLP.init [inp_dim; mid_dim; mid_dim] false false (Some GELU)
               (sub params (Name "mlp_inp")) ;;
  mlp_out <- NnSeqBnMLP.init [mid_dim * 2; mid_dim * 2; out_dim] false false
               (Some Tanh) (sub params (Name "mlp_out")) ;;
  Some {| rnn1 := rnn1; mlp1 := mlp1; rnn2 := rnn2; mlp2 := mlp2;
          mlp_inp := mlp_inp; mlp_out := mlp_out |}.

Definition forward (self : t) (training : bool) (inp : tensor R)
    (hid : value R) : option (tensor R * value R) :=
  '(hid1, hid2) <-
    match hid with
    | VNone => Some (VNone, VNone)
    | _ => unpack2 hid
    end ;;
  inp <- NnSeqBnMLP.forward (mlp_inp self) training inp ;;
  '(rnn1, hid1) <- nn.RNN_forward (rnn1 self) inp hid1 ;;
  tmp1 <- NnSeqBnMLP.forward (mlp1 self) training rnn1 ;;
  '(rnn2, hid2) <- nn.RNN_forward (rnn2 self) inp hid2 ;;
  tmp2 <- NnSeqBnMLP.forward (mlp2 self) training rnn2 ;;
  tmp <- th.cat [tmp1; tmp2] 2 ;;
  out <- NnSeqBnMLP.forward (mlp_out self) training tmp ;;
  Some (out, VTuple [hid1; hid2]).

Definition get_obj_value
    (criterion : tensor R -> tensor R -> option (tensor R))
    (out lab : tensor R) (wup_dim : Z) : option (tensor R) :=
  c <- criterion out lab ;;
  obj <- th.getitem_from c wup_dim ;;
  Some obj.

End Class.
End RnnRegNet.

Module DilatedCNN.
Section Class.
Context {R : Type} {SR : Scalar R}.

Record t : Type := {
  conv : nn.Conv1d (R := R);
  bn : module R
}.

Definition init (in_channels out_channels kernel_size dilation : nat)
    (params : state_dict R) : t :=
  {| conv := {| nn.in_channels := in_channels; nn.out_channels := out_channels;
                nn.kernel_size := kernel_size; nn.dilation := dilation;
                nn.conv_params := sub params (Name "conv") |};
     bn := BatchNorm1d out_channels (1, 10) (sub params (Name "bn")) |}.

Definition forward (self : t) (training : bool) (x : tensor R)
    : option (tensor R) :=
  x <- nn.Conv1d_forward (conv self) x ;;
  x <- nn.module_forward (bn self) training x ;;
  Some (nn.relu x).

End Class.
End DilatedCNN.

(** [for layer in layers: x = layer(x)] *)
Fixpoint apply_layers {A T : Type} (call : A -> T -> option T) (layers : list A)
    (x : T) : option T :=
  match layers with
  | [] => Some x
  | layer :: layers' => y <- call layer x ;; apply_layers call layers' y
  end.

Module DilatedCNNRegNet.
Section Class.
Context {R : Type} {SR : Scalar R}.

Record t : Type := {
  mlp_inp : NnSeqBnMLP.t (R := R);
  cnn_branch1 : list (DilatedCNN.t (R := R));
  mlp1 : NnSeqBnMLP.t (R := R);
  cnn_branch2 : list (DilatedCNN.t (R := R));
  mlp2 : NnSeqBnMLP.t (R := R);
  mlp_out : NnSeqBnMLP.t (R := R)
}.

Definition init (inp_dim mid_dim out_dim num_layers kernel_size dilation : nat)
    (params : state_dict R) : option t :=
  mlp_inp <- NnSeqBnMLP.init [inp_dim; mid_dim; mid_dim] false true (Some GELU)
               (sub params (Name "mlp_inp")) ;;
  let cnn_branch1 :=
    map (fun i => DilatedCNN.init mid_dim mid_dim kernel_size dilation
                    (sub (sub params (Name "cnn_branch1")) (Idx i)))
      (seq 0 num_layers) in
  mlp1 <- NnSeqBnMLP.init [mid_dim; mid_dim; mid_dim] false true (Some GELU)
            (sub params (Name "mlp1")) ;;
  let cnn_branch2 :=
    map (fun i => DilatedCNN.init mid_dim mid_dim kernel_size dilation
                    (sub (sub params (Name "cnn_branch2")) (Idx i)))
      (seq 0 num_layers) in
  mlp2 <- NnSeqBnMLP.init [mid_dim; mid_dim; mid_dim] false true (Some GELU)
            (sub params (Name "mlp2")) ;;
  mlp_out <- NnSeqBnMLP.init [mid_dim * 2; mid_dim * 2; out_dim] false true
               (Some Tanh) (sub params (Name "mlp_out")) ;;
  Some {| mlp_inp := mlp_inp; cnn_branch1 := cnn_branch1; mlp1 := mlp1;
          cnn_branch2 := cnn_branch2; mlp2 := mlp2; mlp_out := mlp_out |}.

Definition forward {H : Type} (self : t) (training : bool) (inp : tensor R)
    (hid : H) : option (tensor R * value R) :=
  x <- NnSeqBnMLP.forward (mlp_inp self) training inp ;;
  x <- th.permute x [1; 2; 0] ;;
  let out1 := x in
  out1 <- apply_layers (fun layer => DilatedCNN.forward layer training)
            (cnn_branch1 self) out1 ;;
  out1 <- th.permute out1 [2; 0; 1] ;;
  tmp1 <- NnSeqBnMLP.forward (mlp1 self) training out1 ;;
  let out2 := x in
  out2 <- apply_layers (fun layer => DilatedCNN.forward layer training)
            (cnn_branch2 self) out2 ;;
  out2 <- th.permute out2 [2; 0; 1] ;;
  tmp2 <- NnSeqBnMLP.forward (mlp2 self) training out2 ;;
  tmp <- th.cat [tmp1; tmp2] 2 ;;
  out <- NnSeqBnMLP.forward (mlp_out self) training tmp ;;
  Some (out, VNone).

Definition get_obj_value
    (criterion : tensor R -> tensor R -> option (tensor R))
    (out lab : tensor R) (wup_dim : Z) : option (tensor R) :=
  c <- criterion out lab ;;
  obj <- th.getitem_from c wup_dim ;;
  Some obj.

End Class.
End DilatedCNNRegNet.

Module TransformerEncoderBlock.
Section Class.
Context {R : Type} {TR : Transformer R}.

Record t : Type := { encoder : TransformerEncoderLayer }.

Definition init (d_model nhead dim_feedforward : nat) (dropout : nat * nat)
    (params : state_dict R) : t :=
  {| encoder := TransformerEncoderLayer_init d_model nhead dim_feedforward
                  dropout false (sub params (Name "encoder")) |}.

Definition forward (self : t) (training : bool) (x : tensor R)
    : option (tensor R) :=
  TransformerEncoderLayer_forward (encoder self) training x.

End Class.
End TransformerEncoderBlock.

Module TransformerRegNet.
Section Class.
Context {R : Type} {SR : Scalar R} {TR : Transformer R}.

Record t : Type := {
  mlp_inp : NnSeqBnMLP.t (R := R);
  transformer1 : list (TransformerEncoderBlock.t (R := R));
  mlp1 : NnSeqBnMLP.t (R := R);
  transformer2 : list (TransformerEncoderBlock.t (R := R));
  mlp2 : NnSeqBnMLP.t (R := R);
  mlp_out : NnSeqBnMLP.t (R := R)
}.

Definition init (inp_dim mid_dim out_dim num_layers nhead : nat)
    (params : state_dict R) : option t :=
  mlp_inp <- NnSeqBnMLP.init [inp_dim; mid_dim; mid_dim] false true (Some GELU)
               (sub params (Name "mlp_inp")) ;;
  let transformer1 :=
    map (fun i => TransformerEncoderBlock.init mid_dim nhead 2048 (1, 10)
                    (sub (sub params (Name "transformer1")) (Idx i)))
      (seq 0 num_layers) in
  mlp1 <- NnSeqBnMLP.init [mid_dim; mid_dim; mid_dim] false true (Some GELU)
            (sub params (Name "mlp1")) ;;
  let transformer2 :=
    map (fun i => TransformerEncoderBlock.init mid_dim nhead 2048 (1, 10)
                    (sub (sub params (Name "transformer2")) (Idx i)))
      (seq 0 num_layers) in
  mlp2 <- NnSeqBnMLP.init [mid_dim; mid_dim; mid_dim] false true (Some GELU)
            (sub params (Name "mlp2")) ;;
  mlp_out <- NnSeqBnMLP.init [mid_dim * 2; mid_dim * 2; out_dim] false true
               (Some Tanh) (sub params (Name "mlp_out")) ;;
  Some {| mlp_inp := mlp_inp; transformer1 := transformer1; mlp1 := mlp1;
          transformer2 := transformer2; mlp2 := mlp2; mlp_out := mlp_out |}.

Definition forward {H : Type} (self : t) (training : bool) (inp : tensor R)
    (hid : H) : option (tensor R * value R) :=
  x <- NnSeqBnMLP.forward (mlp_inp self) training inp ;;
  tmp1 <- apply_layers (fun block => TransformerEncoderBlock.forward block training)
            (transformer1 self) x ;;
  tmp1 <- NnSeqBnMLP.forward (mlp1 self) training tmp1 ;;
  tmp2 <- apply_layers (fun block => TransformerEncoderBlock.forward block training)
            (transformer2 self) x ;;
  tmp2 <- NnSeqBnMLP.forward (mlp2 self) training tmp2 ;;
  tmp <- th.cat [tmp1; tmp2] 2 ;;
  out <- NnSeqBnMLP.forward (mlp_out self) training tmp ;;
  Some (out, VNone).

Definition get_obj_value
    (criterion : tensor R -> tensor R -> option (tensor R))
    (out lab : tensor R) (wup_dim : Z) : option (tensor R) :=
  c <- criterion out lab ;;
  obj <- th.getitem_from c wup_dim ;;
  Some obj.

End Class.
End TransformerRegNet.

(** ** The self-test [check_rnn_in_real_trading] *)

Section SelfTest.
Context {R : Type} {SR : Scalar R}.




End SelfTest.

(** ** What the specification says of the block's constructor *)

(** A layer without its parameters. *)
Inductive layer_kind : Type :=
| KBatchNorm1d (num_features : nat)
| KLinear (in_features out_features : nat)
| KGELU
| KLayerNorm (normalized_shape : nat)
| KTanh.

Definition kind_of {R : Type} (m : module R) : layer_kind :=
  match m with
  | BatchNorm1d n _ _ => KBatchNorm1d n
  | Linear i o _ => KLinear i o
  | GELU => KGELU
  | LayerNorm n _ => KLayerNorm n
  | Tanh => KTanh
  end.

(** The stack in the specification's words, before the output activation:
    (optional input normalization), linear, then for each [i] from 1 to
    [len(dims) - 2] a nonlinearity, an optional layer normalization over
    [dims[i]] and a linear layer from [dims[i]] to [dims[i+1]]. *)
Definition spec_stack (dims : list nat) (if_inp_norm if_layer_norm : bool)
    : list layer_kind :=
  (if if_inp_norm then [KBatchNorm1d (nth 0 dims 0)] else [])
  ++ [KLinear (nth 0 dims 0) (nth 1 dims 0)]
  ++ flat_map (fun i =>
       [KGELU]
       ++ (if if_layer_norm then [KLayerNorm (nth i dims 0)] else [])
       ++ [KLinear (nth i dims 0) (nth (i + 1) dims 0)])
     (seq 1 (List.length dims - 2)).

(** ** An integer interpretation of the scalars *)

(** Exact ring operations; quotient and square root are the integer ones;
    the constant 1e-5 and the activations are rounded to the nearest
    integer (GELU and the rectifier to [max 0], tanh to the sign, the
    sigmoid to the step at zero). *)
Definition Z_Scalar : Scalar Z := {|
  f_zero := 0%Z;
  f_one := 1%Z;
  f_add := Z.add;
  f_sub := Z.sub;
  f_mul := Z.mul;
  f_div := Z.div;
  f_sqrt := Z.sqrt;
  f_of_nat := Z.of_nat;
  f_eps := 0%Z;
  f_gelu := Z.max 0;
  f_tanh := Z.sgn;
  f_sigmoid := fun x => if (0 <? x)%Z then 1%Z else 0%Z;
  f_relu := Z.max 0
|}.

(** A stand-in encoder layer for running the transformer network: it
    checks that its input is [(S, N, d_model)] and returns it unchanged. *)
Definition Z_encoder_forward (d_model : nat) (training : bool) (x : tensor Z)
    : option (tensor Z) :=
  match shape x with
  | [_; _; e] => if e =? d_model then Some x else None
  | _ => None
  end.

Definition Z_Transformer : Transformer Z.
Proof.
  refine {| TransformerEncoderLayer := nat;
            TransformerEncoderLayer_init := fun d_model _ _ _ _ _ => d_model;
            TransformerEncoderLayer_forward := Z_encoder_forward;
            TransformerEncoderLayer_shape := _ |}.
  intros e training x y Hy. unfold Z_encoder_forward in Hy.
  assert (Hxy : x = y).
  { destruct (shape x) as [|a [|b [|c [|d s]]]]; try discriminate.
    destruct (c =? e); [|discriminate]. inversion Hy. reflexivity. }
  rewrite Hxy. reflexivity.
Defined.

(** * Notions the properties are stated with *)

Section Notions.
Context {R : Type} {SR : Scalar R} {TR : Transformer R}.

(** ** The constructor's layers *)

(** The kinds one round of the constructor's loop appends. *)
Definition spec_round (dims : list nat) (if_layer_norm : bool) (i : nat)
    : list layer_kind :=
  [KGELU]
  ++ (if if_layer_norm then [KLayerNorm (nth i dims 0)] else [])
  ++ [KLinear (nth i dims 0) (nth (i + 1) dims 0)].

(** ** The objective *)

(** What C9 says of one [get_obj_value]. *)
Definition drops_warmup
    (get_obj_value : (tensor R -> tensor R -> option (tensor R)) ->
                     tensor R -> tensor R -> Z -> option (tensor R))
    (loss : R -> R -> R) (out lab : tensor R) (t_len b_len f_len : nat)
    (wup_dim : Z) : Prop :=
  exists obj,
    get_obj_value (nn.elementwise loss) out lab wup_dim = Some obj /\
    shape obj = [Z.to_nat (Z.max (Z.of_nat t_len - wup_dim) 0); b_len; f_len] /\
    (forall t b f,
        in_bounds [t; b; f] (shape obj) ->
        get obj [t; b; f]
          = loss (get out [t + Z.to_nat wup_dim; b; f])
                 (get lab [t + Z.to_nat wup_dim; b; f])) /\
    ((Z.of_nat t_len <= wup_dim)%Z -> numel (shape obj) = 0).

(** ** Dual-branch fusion *)




(** A stack of encoder blocks applied in order. *)
Definition encoder_stack (blocks : list TransformerEncoderBlock.t)
    (training : bool) : tensor R -> option (tensor R) :=
  apply_layers (fun block => TransformerEncoderBlock.forward block training)
    blocks.

(** ** Rows, slices and time steps *)

(** Width of the rows a layer returns for rows of width [c], when it
    accepts them. *)
Definition module_width (m : module R) (c : nat) : option nat :=
  match m with
  | BatchNorm1d n _ _ => _ <- guard (c =? n) ;; Some c
  | Linear i o _ => _ <- guard (c =? i) ;; Some o
  | GELU => Some c
  | LayerNorm n _ => _ <- guard (c =? n) ;; Some c
  | Tanh => Some c
  end.

Fixpoint seq_width (ms : list (module R)) (c : nat) : option nat :=
  match ms with
  | [] => Some c
  | m :: ms' => c' <- module_width m c ;; seq_width ms' c'
  end.

(** What a layer computes on one row when it works row by row (batch
    normalization: with its running statistics). *)
Definition module_row (m : module R) (u : vec R) : vec R :=
  match m with
  | BatchNorm1d _ _ params =>
      fun j => normalize (nn.param params "running_mean" [j])
                 (nn.param params "running_var" [j])
                 (nn.param params "weight" [j]) (nn.param params "bias" [j]) (u j)
  | Linear i _ params =>
      affine i (fun j k => nn.param params "weight" [j; k])
        (fun j => nn.param params "bias" [j]) u
  | GELU => fun j => f_gelu (u j)
  | LayerNorm n params =>
      fun j => normalize (mean n u) (variance n u)
                 (nn.param params "weight" [j]) (nn.param params "bias" [j]) (u j)
  | Tanh => fun j => f_tanh (u j)
  end.

(** The layer stack applied to a single row. *)
Fixpoint seq_row (ms : list (module R)) (u : vec R) : vec R :=
  match ms with
  | [] => u
  | m :: ms' => seq_row ms' (module_row m u)
  end.

Definition is_batch_norm (m : module R) : bool :=
  match m with
  | BatchNorm1d _ _ _ => true
  | _ => false
  end.

(** The stack works row by row: evaluation mode, or no batch normalization
    in it. *)
Definition per_row (training : bool) (ms : list (module R)) : bool :=
  negb training || forallb (fun m => negb (is_batch_norm m)) ms.

(** Row [r] of a 2-D tensor. *)
Definition row (x : tensor R) (r : nat) : vec R := fun k => get x [r; k].

(** The feature slice of a 3-D tensor at time step [t] and batch element [b]. *)
Definition slice (seq : tensor R) (t b : nat) : vec R :=
  fun k => get seq [t; b; k].

(** Time step [s] lies within [left] steps before and [right] steps after
    time step [t]. *)
Definition in_window (left right t s : nat) : Prop :=
  t <= s + left /\ s <= t + right.

(** Two [(B, C, T)] tensors agree at time step [s]. *)
Definition agree_bct (n c : nat) (x x' : tensor R) (s : nat) : Prop :=
  forall b ci, b < n -> ci < c -> get x [b; ci; s] = get x' [b; ci; s].

(** Two [(T, B, F)] tensors agree at time step [s]. *)
Definition agree_tbf (n f : nat) (x x' : tensor R) (s : nat) : Prop :=
  forall b, b < n -> veq f (slice x s b) (slice x' s b).

(** Batch element [b] of [x] and batch element [b'] of [x'], two
    [(B, C, T)] tensors, agree at time step [s]. *)
Definition agree_bct_at (c : nat) (x x' : tensor R) (b b' s : nat) : Prop :=
  forall ci, ci < c -> get x [b; ci; s] = get x' [b'; ci; s].

(** ** States of the recurrent layers *)

(** Two LSTM states hold the same [h] and [c]. *)
Definition same_lstm (n : nat) (s s' : vec R * vec R) : Prop :=
  veq n (fst s) (fst s') /\ veq n (snd s) (snd s').

(** The hidden value [hx] stands for the states [states b l] of batch
    element [b] and layer [l]. *)
Definition lstm_states (self : nn.RNNBase) (b_len : nat) (hx : value R)
    (states : nat -> nat -> vec R * vec R) : Prop :=
  exists h0 c0,
    nn.LSTM_hx self b_len hx = Some (h0, c0) /\
    forall b l, b < b_len ->
      same_lstm (nn.hidden_size self)
        (nn.hidden_row h0 l b, nn.hidden_row c0 l b) (states b l).

Definition gru_states (self : nn.RNNBase) (b_len : nat) (hx : value R)
    (states : nat -> nat -> vec R) : Prop :=
  exists h0,
    nn.GRU_hx self b_len hx = Some h0 /\
    forall b l, b < b_len ->
      veq (nn.hidden_size self) (nn.hidden_row h0 l b) (states b l).

(** ** The recurrent network row by row *)

Section RnnNotions.
Variables mid_dim num_layers : nat.
Variable rnn : RnnRegNet.t (R := R).

(** The concatenation of two rows of width [mid_dim]. *)
Definition fuse (u1 u2 : vec R) : vec R :=
  fun k =>
    if k <? mid_dim then u1 k
    else if k - mid_dim <? mid_dim then u2 (k - mid_dim) else f_zero.

(** The rows the projection block feeds to both encoders. *)
Definition proj_rows (inp : tensor R) (b t : nat) : vec R :=
  seq_row (NnSeqBnMLP.mlp (RnnRegNet.mlp_inp rnn)) (slice inp t b).

(** The output row at time [t] of batch element [b], when the encoders
    start from the states [s1 b] and [s2 b] and read the rows [xs b]. *)
Definition out_rows (s1 : nat -> nat -> vec R * vec R) (s2 : nat -> nat -> vec R)
    (xs : nat -> nat -> vec R) (b t : nat) : vec R :=
  seq_row (NnSeqBnMLP.mlp (RnnRegNet.mlp_out rnn))
    (fuse
       (seq_row (NnSeqBnMLP.mlp (RnnRegNet.mlp1 rnn))
          (nn.layer_input (nn.lstm_cell (RnnRegNet.rnn1 rnn)) fst (s1 b) (xs b)
             num_layers t))
       (seq_row (NnSeqBnMLP.mlp (RnnRegNet.mlp2 rnn))
          (nn.layer_input (nn.gru_cell (RnnRegNet.rnn2 rnn)) (fun h => h) (s2 b)
             (xs b) num_layers t))).

(** The hidden-state argument [hid] stands for the states [s1] of the LSTM
    and [s2] of the GRU. *)
Definition hid_states (b_len : nat) (hid : value R)
    (s1 : nat -> nat -> vec R * vec R) (s2 : nat -> nat -> vec R) : Prop :=
  exists hid1 hid2,
    match hid with
    | VNone => Some (VNone, VNone)
    | _ => unpack2 hid
    end = Some (hid1, hid2) /\
    lstm_states (RnnRegNet.rnn1 rnn) b_len hid1 s1 /\
    gru_states (RnnRegNet.rnn2 rnn) b_len hid2 s2.

Variable input_seq : tensor R.

(** The rows both encoders read in the call on the whole sequence, and the
    states the encoders have reached after [t] time steps of it. *)
Definition xs (b t : nat) : vec R := proj_rows input_seq b t.

Definition lstm_at (t : nat) (b l : nat) : vec R * vec R :=
  nn.layer_state (nn.lstm_cell (RnnRegNet.rnn1 rnn)) fst
    (fun _ => (fun _ => f_zero, fun _ => f_zero)) (xs b) l t.

Definition gru_at (t : nat) (b l : nat) : vec R :=
  nn.layer_state (nn.gru_cell (RnnRegNet.rnn2 rnn)) (fun h => h)
    (fun _ _ => f_zero) (xs b) l t.


End RnnNotions.

(** ** Widths and batch normalization by layer kind *)

Definition kind_width (k : layer_kind) (c : nat) : option nat :=
  match k with
  | KBatchNorm1d n => _ <- guard (c =? n) ;; Some c
  | KLinear i o => _ <- guard (c =? i) ;; Some o
  | KGELU => Some c
  | KLayerNorm n => _ <- guard (c =? n) ;; Some c
  | KTanh => Some c
  end.

Fixpoint kinds_width (ks : list layer_kind) (c : nat) : option nat :=
  match ks with
  | [] => Some c
  | k :: ks' => c' <- kind_width k c ;; kinds_width ks' c'
  end.

Definition kind_is_batch_norm (k : layer_kind) : bool :=
  match k with
  | KBatchNorm1d _ => true
  | _ => false
  end.

(** The output activations the networks of this repository pass to a
    block, or none. *)
Definition plain_activation (activation : option (module R)) : Prop :=
  activation = None \/ activation = Some GELU \/ activation = Some Tanh.

(** ** Hidden states of the recurrent network *)

(** Two hidden-state values hold the same states for a batch of [b_len]
    elements: both are accepted by the recurrent layers and stand for the
    same rows. *)
Definition same_hidden (rnn : RnnRegNet.t) (b_len : nat) (h h' : value R)
    : Prop :=
  exists s1 s2, hid_states rnn b_len h s1 s2 /\ hid_states rnn b_len h' s1 s2.

(** ** The objective with a negative warm-up *)

(** [get_obj_value] with [wup_dim = -k] keeps the last [k] time steps (all
    of them when there are fewer). *)
Definition keeps_tail
    (get_obj_value : (tensor R -> tensor R -> option (tensor R)) ->
                     tensor R -> tensor R -> Z -> option (tensor R))
    (loss : R -> R -> R) (out lab : tensor R) (t_len b_len f_len k : nat)
    : Prop :=
  exists obj,
    get_obj_value (nn.elementwise loss) out lab (- Z.of_nat k)%Z = Some obj /\
    shape obj = [Nat.min k t_len; b_len; f_len] /\
    forall t b f,
      in_bounds [t; b; f] (shape obj) ->
      get obj [t; b; f]
        = loss (get out [t + (t_len - k); b; f])
               (get lab [t + (t_len - k); b; f]).

(** ** The claims that fail, as the specification states them *)

(** C1 as the specification states it: in evaluation mode, inputs that agree
    at every time step up to [t] give outputs that agree at every time step
    up to [t]. *)
Definition causal (self : DilatedCNNRegNet.t) : Prop :=
  forall (inp inp' out out' : tensor R) (h h' : value R) (t_len b_len f c t : nat),
    shape inp = [t_len; b_len; f] ->
    shape inp' = [t_len; b_len; f] ->
    DilatedCNNRegNet.forward self false inp tt = Some (out, h) ->
    DilatedCNNRegNet.forward self false inp' tt = Some (out', h') ->
    shape out = [t_len; b_len; c] ->
    (forall s, s <= t -> s < t_len -> agree_tbf b_len f inp inp' s) ->
    forall s, s <= t -> s < t_len -> agree_tbf b_len c out out' s.

(** C4 as the specification states it: whatever the mode, two inputs of one
    shape with the same slice at [(t, b)] give the same output slice at
    [(t, b)]. *)
Definition position_local (self : NnSeqBnMLP.t)
    (training : bool) : Prop :=
  forall (seq seq' out out' : tensor R) (d0 d1 d2 c t b : nat),
    shape seq = [d0; d1; d2] ->
    shape seq' = [d0; d1; d2] ->
    NnSeqBnMLP.forward self training seq = Some out ->
    NnSeqBnMLP.forward self training seq' = Some out' ->
    shape out = [d0; d1; c] ->
    t < d0 -> b < d1 ->
    veq d2 (slice seq t b) (slice seq' t b) ->
    veq c (slice out t b) (slice out' t b).

End Notions.

(** ** Inputs and probes of the concrete runs *)

(** Parameters for the examples: every linear layer doubles its input
    (twice the identity, no bias), every convolution copies its last tap,
    the normalizations have unit scale and running variance and zero shift
    and running mean, and the recurrent weights are all ones. *)
Definition example_params : state_dict Z :=
  fun path idx =>
    match last path (Idx 0), idx with
    | Name "weight", [j; k] => if j =? k then 2%Z else 0%Z
    | Name "weight", [co; ci; k] => if (k =? 2) && (co =? ci) then 1%Z else 0%Z
    | Name "weight", _ => 1%Z
    | Name "running_var", _ => 1%Z
    | Idx _, [j; k] => 1%Z
    | _, _ => 0%Z
    end.

(** A [(t_len, 1, 1)] input that is [v] at time step [t0] and zero
    elsewhere. *)
Definition pulse (t_len t0 : nat) (v : Z) : tensor Z :=
  Tensor [t_len; 1; 1] (fun idx => if nth 0 idx 0 =? t0 then v else 0%Z).

(** A [(t_len, b_len, 1)] input whose value, at every batch element, is
    the number of the time step. *)
Definition ramp (t_len b_len : nat) : tensor Z :=
  Tensor [t_len; b_len; 1] (fun idx => Z.of_nat (nth 0 idx 0)).

(** Whether a call returned, and element [idx] of the tensor it returned. *)
Definition returned {A : Type} (r : option A) : bool :=
  match r with
  | Some _ => true
  | None => false
  end.

Definition output_at (r : option (tensor Z * value Z)) (idx : list nat)
    : option Z :=
  '(out, _) <- r ;; Some (get out idx).

Definition element_at (r : option (tensor Z)) (idx : list nat) : option Z :=
  out <- r ;; Some (get out idx).

(** * Properties *)

(** ** Errors and guards *)

Lemma bind_Some {A B : Type} (e : option A) (k : A -> option B) (y : B) :
  bind e k = Some y <-> exists x, e = Some x /\ k x = Some y.
Proof.
  destruct e as [x|]; simpl; split.
  - intros H. exists x. split; [reflexivity | exact H].
  - intros (x' & Hx & Hk). inversion Hx. subst. exact Hk.
  - discriminate.
  - intros (x' & Hx & _). discriminate.
Qed.

Lemma guard_Some (b : bool) (u : unit) : guard b = Some u <-> b = true.
Proof. destruct b, u; simpl; split; congruence. Qed.

Lemma guard_true (b : bool) : b = true -> guard b = Some tt.
Proof. intros ->. reflexivity. Qed.

(** Split [x <- e ;; k = Some y] in [H] into [e = Some x] and [k x = Some y]. *)
Ltac bind_inv H :=
  let x := fresh "x" in
  let Hx := fresh "Hx" in
  apply bind_Some in H; destruct H as (x & Hx & H);
  try (apply guard_Some in Hx).

Tactic Notation "bind_open" hyp(H) "as" simple_intropattern(x) ident(Hx) :=
  apply bind_Some in H; destruct H as (x & Hx & H);
  try (apply guard_Some in Hx).

(** ** C3: the layers the constructor builds *)

Section Constructor.
Context {R : Type} {SR : Scalar R}.

Lemma kind_of_append (params : state_dict R) (l : list (module R))
    (layer : state_dict R -> module R) (k : layer_kind) :
  (forall p, kind_of (layer p) = k) ->
  map kind_of (NnSeqBnMLP.append params l layer) = map kind_of l ++ [k].
Proof.
  intros Hk. unfold NnSeqBnMLP.append.
  rewrite map_app. simpl. rewrite Hk. reflexivity.
Qed.

Lemma nth_error_nth_lt (dims : list nat) (i : nat) :
  i < List.length dims -> nth_error dims i = Some (nth i dims 0).
Proof. intros H. apply nth_error_nth'. exact H. Qed.

Lemma init_step_kinds (dims : list nat) (if_layer_norm : bool)
    (params : state_dict R) (l : list (module R)) (i : nat) :
  i + 1 < List.length dims ->
  exists l',
    NnSeqBnMLP.init_step dims if_layer_norm params (Some l) i = Some l' /\
    map kind_of l' = map kind_of l ++ spec_round dims if_layer_norm i.
Proof.
  intros Hi. unfold NnSeqBnMLP.init_step, spec_round. simpl bind.
  rewrite (nth_error_nth_lt dims i) by lia.
  rewrite (nth_error_nth_lt dims (i + 1)) by lia.
  destruct if_layer_norm; simpl bind; eexists; (split; [reflexivity|]).
  - rewrite !kind_of_append with (k := KLinear (nth i dims 0) (nth (i + 1) dims 0))
      by reflexivity.
    rewrite kind_of_append with (k := KLayerNorm (nth i dims 0)) by reflexivity.
    rewrite kind_of_append with (k := KGELU) by reflexivity.
    rewrite <- !app_assoc. reflexivity.
  - rewrite !kind_of_append with (k := KLinear (nth i dims 0) (nth (i + 1) dims 0))
      by reflexivity.
    rewrite kind_of_append with (k := KGELU) by reflexivity.
    rewrite <- !app_assoc. reflexivity.
Qed.

Lemma init_loop_kinds (dims : list nat) (if_layer_norm : bool)
    (params : state_dict R) (rounds : list nat) :
  (forall i, In i rounds -> i + 1 < List.length dims) ->
  forall l,
  exists l',
    fold_left (NnSeqBnMLP.init_step dims if_layer_norm params) rounds (Some l)
      = Some l' /\
    map kind_of l'
      = map kind_of l ++ flat_map (spec_round dims if_layer_norm) rounds.
Proof.
  induction rounds as [|i rounds IH]; intros Hin l.
  - exists l. simpl. rewrite app_nil_r. split; reflexivity.
  - destruct (init_step_kinds dims if_layer_norm params l i) as (l1 & H1 & K1).
    { apply Hin. left. reflexivity. }
    destruct (IH (fun j Hj => Hin j (or_intror Hj)) l1) as (l2 & H2 & K2).
    exists l2. cbn [fold_left]. rewrite H1. split; [exact H2|].
    rewrite K2, K1. simpl flat_map. rewrite <- app_assoc. reflexivity.
Qed.

(** C3.  For every [dims] with at least two entries the constructor
    succeeds, and the [nn.Sequential] it builds is, in order: the stack the
    specification describes (an input batch normalization exactly when
    [if_inp_norm] is set, a linear layer from [dims[0]] to [dims[1]], then
    for each [i] from 1 to [len(dims) - 2] a GELU, a layer normalization
    over [dims[i]] exactly when [if_layer_norm] is set, and a linear layer
    from [dims[i]] to [dims[i+1]]), followed by the supplied activation
    exactly when one is supplied. *)
Theorem C3_init_layer_sequence (dims : list nat)
    (if_inp_norm if_layer_norm : bool) (activation : option (module R))
    (params : state_dict R) :
  2 <= List.length dims ->
  exists self body,
    NnSeqBnMLP.init dims if_inp_norm if_layer_norm activation params = Some self /\
    NnSeqBnMLP.mlp self
      = body ++ (match activation with Some a => [a] | None => [] end) /\
    map kind_of body = spec_stack dims if_inp_norm if_layer_norm.
Proof.
  intros Hlen. unfold NnSeqBnMLP.init.
  rewrite (nth_error_nth_lt dims 0) by lia.
  rewrite (nth_error_nth_lt dims 1) by lia.
  set (head := if if_inp_norm
               then NnSeqBnMLP.append params [] (BatchNorm1d (nth 0 dims 0) (9, 10))
               else []).
  assert (Hhead : (if if_inp_norm
                   then d <- Some (nth 0 dims 0) ;;
                        Some (NnSeqBnMLP.append params []
                                (BatchNorm1d d (9, 10)))
                   else Some []) = Some head).
  { unfold head. destruct if_inp_norm; reflexivity. }
  rewrite Hhead. simpl bind.
  destruct (init_loop_kinds dims if_layer_norm params
              (seq 1 (List.length dims - 1 - 1))) with
      (l := NnSeqBnMLP.append params head
              (Linear (nth 0 dims 0) (nth 1 dims 0))) as (body & Hbody & Kbody).
  { intros i Hi. apply in_seq in Hi. lia. }
  rewrite Hbody. simpl bind.
  exists {| NnSeqBnMLP.mlp :=
              match activation with Some a => body ++ [a] | None => body end |}.
  exists body. split; [reflexivity|]. split.
  - simpl. destruct activation; [reflexivity | rewrite app_nil_r; reflexivity].
  - rewrite Kbody.
    rewrite kind_of_append with (k := KLinear (nth 0 dims 0) (nth 1 dims 0))
      by reflexivity.
    unfold spec_stack, head.
    replace (List.length dims - 1 - 1) with (List.length dims - 2) by lia.
    destruct if_inp_norm; simpl; reflexivity.
Qed.

End Constructor.

(** ** C10: inputs that are not 3-D *)

Section Rank.
Context {R : Type} {SR : Scalar R} {TR : Transformer R}.

Lemma NnSeqBnMLP_forward_rank (self : NnSeqBnMLP.t) (training : bool)
    (seq : tensor R) :
  List.length (shape seq) <> 3 -> NnSeqBnMLP.forward self training seq = None.
Proof.
  intros Hrank. unfold NnSeqBnMLP.forward.
  destruct (shape seq) as [|d0 [|d1 [|d2 [|d3 s]]]]; try reflexivity.
  exfalso. apply Hrank. reflexivity.
Qed.

(** C10.  [NnSeqBnMLP.forward] raises on every input whose number of axes
    is not exactly 3, and so does the [forward] of each of the three
    networks, whatever the hidden-state argument. *)
Theorem C10_forward_needs_three_axes (inp : tensor R) :
  List.length (shape inp) <> 3 ->
  (forall (self : NnSeqBnMLP.t) training,
      NnSeqBnMLP.forward self training inp = None) /\
  (forall (self : RnnRegNet.t) training hid,
      RnnRegNet.forward self training inp hid = None) /\
  (forall (H : Type) (self : DilatedCNNRegNet.t) training (hid : H),
      DilatedCNNRegNet.forward self training inp hid = None) /\
  (forall (H : Type) (self : TransformerRegNet.t) training (hid : H),
      TransformerRegNet.forward self training inp hid = None).
Proof.
  intros Hrank. repeat split.
  - intros self training. apply NnSeqBnMLP_forward_rank. exact Hrank.
  - intros self training hid. unfold RnnRegNet.forward.
    destruct (match hid with VNone => Some (VNone, VNone) | _ => unpack2 hid end)
      as [[hid1 hid2]|]; [|reflexivity].
    simpl bind. rewrite NnSeqBnMLP_forward_rank by exact Hrank. reflexivity.
  - intros H self training hid. unfold DilatedCNNRegNet.forward.
    rewrite NnSeqBnMLP_forward_rank by exact Hrank. reflexivity.
  - intros H self training hid. unfold TransformerRegNet.forward.
    rewrite NnSeqBnMLP_forward_rank by exact Hrank. reflexivity.
Qed.

End Rank.

(** ** C7: no hidden state in the convolutional and transformer networks *)

Section NoHiddenState.
Context {R : Type} {SR : Scalar R} {TR : Transformer R}.

Lemma option_map_bind {A B C : Type} (e : option A) (k : A -> option B)
    (f g : B -> C) :
  (forall x, option_map f (k x) = option_map g (k x)) ->
  option_map f (bind e k) = option_map g (bind e k).
Proof. intros H. destruct e as [x|]; simpl; [apply H | reflexivity]. Qed.

(** C7.  For every input and every value of [hid] (of any type), the second
    component of what [DilatedCNNRegNet.forward] and
    [TransformerRegNet.forward] return is [None], and the call (so also the
    output sequence) is the same for any two values of [hid]. *)
Theorem C7_no_hidden_state (H H' : Type) (hid : H) (hid' : H')
    (training : bool) (inp : tensor R) :
  (forall self : DilatedCNNRegNet.t,
      option_map snd (DilatedCNNRegNet.forward self training inp hid)
        = option_map (fun _ => VNone)
            (DilatedCNNRegNet.forward self training inp hid) /\
      DilatedCNNRegNet.forward self training inp hid
        = DilatedCNNRegNet.forward self training inp hid') /\
  (forall self : TransformerRegNet.t,
      option_map snd (TransformerRegNet.forward self training inp hid)
        = option_map (fun _ => VNone)
            (TransformerRegNet.forward self training inp hid) /\
      TransformerRegNet.forward self training inp hid
        = TransformerRegNet.forward self training inp hid').
Proof.
  split; intros self; (split; [|reflexivity]).
  - unfold DilatedCNNRegNet.forward.
    repeat (apply option_map_bind; intros ?). reflexivity.
  - unfold TransformerRegNet.forward.
    repeat (apply option_map_bind; intros ?). reflexivity.
Qed.

End NoHiddenState.

(** ** C9: the objective after the warm-up *)

Section Objective.
Context {R : Type} {SR : Scalar R} {TR : Transformer R}.

Lemma slice_start_nonneg (n : nat) (start : Z) :
  (0 <= start)%Z -> th.slice_start n start = Nat.min n (Z.to_nat start).
Proof.
  intros H. unfold th.slice_start.
  destruct (start <? 0)%Z eqn:E; [apply Z.ltb_lt in E; lia|]. lia.
Qed.

Lemma objective_after_warmup (loss : R -> R -> R) (out lab : tensor R)
    (t_len b_len f_len : nat) (wup_dim : Z) :
  shape out = [t_len; b_len; f_len] ->
  shape lab = [t_len; b_len; f_len] ->
  (0 <= wup_dim)%Z ->
  exists obj,
    (c <- nn.elementwise loss out lab ;; th.getitem_from c wup_dim) = Some obj /\
    shape obj = [Z.to_nat (Z.max (Z.of_nat t_len - wup_dim) 0); b_len; f_len] /\
    (forall t b f,
        in_bounds [t; b; f] (shape obj) ->
        get obj [t; b; f]
          = loss (get out [t + Z.to_nat wup_dim; b; f])
                 (get lab [t + Z.to_nat wup_dim; b; f])) /\
    ((Z.of_nat t_len <= wup_dim)%Z -> numel (shape obj) = 0).
Proof.
  intros Hout Hlab Hwup. unfold nn.elementwise. rewrite Hout, Hlab.
  destruct (list_eq_dec Nat.eq_dec [t_len; b_len; f_len] [t_len; b_len; f_len])
    as [_|Hne]; [|congruence].
  simpl bind. unfold th.getitem_from. simpl shape. lazy beta iota.
  rewrite slice_start_nonneg by exact Hwup.
  eexists. split; [reflexivity|]. simpl shape. simpl get.
  assert (Hlen : t_len - Nat.min t_len (Z.to_nat wup_dim)
                 = Z.to_nat (Z.max (Z.of_nat t_len - wup_dim) 0)) by lia.
  rewrite Hlen. split; [reflexivity|]. split.
  - intros t b f (Ht & _). rewrite <- Hlen in Ht.
    replace (t + Nat.min t_len (Z.to_nat wup_dim)) with (t + Z.to_nat wup_dim)
      by lia.
    reflexivity.
  - intros Hall. replace (Z.to_nat (Z.max (Z.of_nat t_len - wup_dim) 0)) with 0
      by lia.
    reflexivity.
Qed.

(** C9.  For each of the three networks, [get_obj_value] applied to an
    elementwise criterion, an output and a label tensor of shape
    [(T, B, F)] and a warm-up length [wup_dim >= 0] returns a tensor of shape
    [(max (T - wup_dim) 0, B, F)] whose entry at [(t, b, f)] is the
    criterion's value at [(t + wup_dim, b, f)]; it is empty whenever
    [wup_dim >= T]. *)
Theorem C9_get_obj_value_drops_warmup (loss : R -> R -> R) (out lab : tensor R)
    (t_len b_len f_len : nat) (wup_dim : Z) :
  shape out = [t_len; b_len; f_len] ->
  shape lab = [t_len; b_len; f_len] ->
  (0 <= wup_dim)%Z ->
  drops_warmup RnnRegNet.get_obj_value loss out lab t_len b_len f_len wup_dim /\
  drops_warmup DilatedCNNRegNet.get_obj_value loss out lab t_len b_len f_len
    wup_dim /\
  drops_warmup TransformerRegNet.get_obj_value loss out lab t_len b_len f_len
    wup_dim.
Proof.
  intros Hout Hlab Hwup.
  destruct (objective_after_warmup loss out lab t_len b_len f_len wup_dim
              Hout Hlab Hwup) as (obj & Hobj & Hrest).
  repeat split; exists obj; (split; [|exact Hrest]);
    unfold RnnRegNet.get_obj_value, DilatedCNNRegNet.get_obj_value,
      TransformerRegNet.get_obj_value;
    (destruct (nn.elementwise loss out lab) as [c|]; simpl in *;
     [destruct (th.getitem_from c wup_dim); simpl in *; congruence
     | discriminate]).
Qed.

(** With a negative [wup_dim] the slice counts from the end: [-1] keeps the
    last time step only. *)
Lemma getitem_from_minus_one (x : tensor R) (t_len b_len f_len : nat) :
  shape x = [S t_len; b_len; f_len] ->
  option_map shape (th.getitem_from x (-1)) = Some [1; b_len; f_len].
Proof.
  intros Hx. unfold th.getitem_from. rewrite Hx. lazy beta iota.
  assert (Hs : th.slice_start (S t_len) (-1) = t_len).
  { unfold th.slice_start. change (-1 <? 0)%Z with true. lazy iota. lia. }
  rewrite Hs. unfold option_map, shape.
  replace (S t_len - t_len) with 1 by lia. reflexivity.
Qed.

End Objective.

(** ** C2 and C8: the dual-branch fusion pattern *)

Section Fusion.
Context {R : Type} {SR : Scalar R} {TR : Transformer R}.





End Fusion.

(** ** Reshaping between [(d0, d1, d2)] and [(d0 * d1, d2)] *)

Section Reshape.
Context {R : Type} {SR : Scalar R}.

Lemma ravel_lt (s idx : list nat) :
  in_bounds idx s -> ravel s idx < numel s.
Proof.
  revert idx. induction s as [|n s IH]; intros [|i idx]; simpl; try tauto.
  - lia.
  - intros [Hi Hb]. specialize (IH idx Hb). nia.
Qed.

Lemma unravel_ravel (s idx : list nat) :
  in_bounds idx s -> unravel s (ravel s idx) = idx.
Proof.
  revert idx. induction s as [|n s IH]; intros [|i idx]; simpl; try tauto.
  intros [Hi Hb]. pose proof (ravel_lt s idx Hb) as Hlt.
  assert (Hq : (i * numel s + ravel s idx) / numel s = i).
  { rewrite Nat.div_add_l by lia. rewrite Nat.div_small by lia. lia. }
  assert (Hr : (i * numel s + ravel s idx) mod numel s = ravel s idx).
  { rewrite Nat.add_comm, Nat.Div0.mod_add. apply Nat.mod_small. lia. }
  rewrite Hq, Hr, IH by assumption. reflexivity.
Qed.

(** The offset of [(t, b, k)] in [(d0, d1, d2)] is that of [(t * d1 + b, k)]
    in [(d0 * d1, d2)]. *)
Lemma ravel_flatten (d0 d1 d2 t b k : nat) :
  ravel [d0 * d1; d2] [t * d1 + b; k] = ravel [d0; d1; d2] [t; b; k].
Proof. simpl. nia. Qed.

Lemma infer_flatten (d0 d1 d2 : nat) :
  0 < d0 * d1 ->
  th.infer_size (numel [d0; d1; d2]) [D (d0 * d1); Infer] = Some [d0 * d1; d2].
Proof.
  intros Hpos. unfold th.infer_size. simpl th.count_infer. simpl th.known.
  assert (Hn : numel [d0; d1; d2] = d2 * (d0 * d1 * 1)) by (simpl; nia).
  rewrite Hn, Nat.Div0.mod_mul, Nat.div_mul by lia.
  replace (0 <? d0 * d1 * 1) with true by (symmetry; apply Nat.ltb_lt; lia).
  reflexivity.
Qed.

Lemma infer_unflatten (d0 d1 c : nat) :
  0 < d0 * d1 ->
  th.infer_size (numel [d0 * d1; c]) [D d0; D d1; Infer] = Some [d0; d1; c].
Proof.
  intros Hpos. unfold th.infer_size. simpl th.count_infer. simpl th.known.
  assert (Hn : numel [d0 * d1; c] = c * (d0 * (d1 * 1))) by (simpl; nia).
  rewrite Hn, Nat.Div0.mod_mul, Nat.div_mul by nia.
  replace (0 <? d0 * (d1 * 1)) with true by (symmetry; apply Nat.ltb_lt; nia).
  reflexivity.
Qed.

Lemma infer_flatten_zero (n d0 d1 : nat) :
  d0 * d1 = 0 -> th.infer_size n [D (d0 * d1); Infer] = None.
Proof.
  intros Hz. unfold th.infer_size. simpl th.count_infer. simpl th.known.
  rewrite Hz. reflexivity.
Qed.

(** [seq.reshape(d0 * d1, -1)] on a [(d0, d1, d2)] tensor. *)
Lemma reshape_flatten (x : tensor R) (d0 d1 d2 : nat) :
  shape x = [d0; d1; d2] ->
  0 < d0 * d1 ->
  exists y,
    th.reshape x [D (d0 * d1); Infer] = Some y /\
    shape y = [d0 * d1; d2] /\
    forall t b k, t < d0 -> b < d1 -> k < d2 ->
      get y [t * d1 + b; k] = get x [t; b; k].
Proof.
  intros Hx Hpos. unfold th.reshape. rewrite Hx, infer_flatten by exact Hpos.
  eexists. split; [reflexivity|]. split; [reflexivity|].
  intros t b k Ht Hb Hk. cbn [get].
  rewrite ravel_flatten, unravel_ravel; [reflexivity|].
  simpl. tauto.
Qed.

Lemma reshape_flatten_pos (x y : tensor R) (d0 d1 d2 : nat) :
  shape x = [d0; d1; d2] ->
  th.reshape x [D (d0 * d1); Infer] = Some y ->
  0 < d0 * d1.
Proof.
  intros Hx Hy. destruct (Nat.eq_dec (d0 * d1) 0) as [Hz|Hnz]; [|lia].
  unfold th.reshape in Hy. rewrite infer_flatten_zero in Hy by exact Hz.
  discriminate.
Qed.

(** [out.reshape(d0, d1, -1)] on a [(d0 * d1, c)] tensor. *)
Lemma reshape_unflatten (y : tensor R) (d0 d1 c : nat) :
  shape y = [d0 * d1; c] ->
  0 < d0 * d1 ->
  exists out,
    th.reshape y [D d0; D d1; Infer] = Some out /\
    shape out = [d0; d1; c] /\
    forall t b k, t < d0 -> b < d1 -> k < c ->
      get out [t; b; k] = get y [t * d1 + b; k].
Proof.
  intros Hy Hpos. unfold th.reshape. rewrite Hy, infer_unflatten by exact Hpos.
  eexists. split; [reflexivity|]. split; [reflexivity|].
  intros t b k Ht Hb Hk. cbn [get].
  rewrite <- ravel_flatten, unravel_ravel; [reflexivity|].
  simpl. split; [nia | tauto].
Qed.

End Reshape.

(** ** The layer stack on the rows of a 2-D input *)

Section Rows.
Context {R : Type} {SR : Scalar R}.

Lemma sum_n_ext (n : nat) (f g : nat -> R) :
  (forall k, k < n -> f k = g k) -> sum_n n f = sum_n n g.
Proof.
  induction n as [|n IH]; intros H; simpl.
  - reflexivity.
  - rewrite IH by (intros k Hk; apply H; lia).
    rewrite (H n) by lia. reflexivity.
Qed.

Lemma affine_ext (n_in : nat) (w : nat -> nat -> R) (b : nat -> R)
    (x x' : vec R) (j : nat) :
  veq n_in x x' -> affine n_in w b x j = affine n_in w b x' j.
Proof.
  intros H. unfold affine. f_equal.
  apply sum_n_ext. intros k Hk. rewrite (H k Hk). reflexivity.
Qed.

Lemma mean_ext (n : nat) (u v : vec R) : veq n u v -> mean n u = mean n v.
Proof. intros H. unfold mean. f_equal. apply sum_n_ext. exact H. Qed.

Lemma variance_ext (n : nat) (u v : vec R) :
  veq n u v -> variance n u = variance n v.
Proof.
  intros H. unfold variance. rewrite (mean_ext n u v H). f_equal.
  apply sum_n_ext. intros k Hk. rewrite (H k Hk). reflexivity.
Qed.

Lemma module_row_ext (m : module R) (c c' : nat) (u v : vec R) :
  module_width m c = Some c' -> veq c u v ->
  veq c' (module_row m u) (module_row m v).
Proof.
  intros Hw Huv j Hj. destruct m as [n mo p | i o p | | n p | ]; simpl in *.
  - bind_inv Hw. inversion Hw. subst c'. rewrite (Huv j Hj). reflexivity.
  - bind_inv Hw. apply Nat.eqb_eq in Hx. subst c. apply affine_ext. exact Huv.
  - inversion Hw. subst c'. rewrite (Huv j Hj). reflexivity.
  - bind_inv Hw. apply Nat.eqb_eq in Hx. inversion Hw. subst c c'.
    rewrite (mean_ext _ _ _ Huv), (variance_ext _ _ _ Huv), (Huv j Hj).
    reflexivity.
  - inversion Hw. subst c'. rewrite (Huv j Hj). reflexivity.
Qed.

Lemma seq_row_ext (ms : list (module R)) (c c' : nat) (u v : vec R) :
  seq_width ms c = Some c' -> veq c u v ->
  veq c' (seq_row ms u) (seq_row ms v).
Proof.
  revert c u v. induction ms as [|m ms IH]; intros c u v Hw Huv; simpl in *.
  - inversion Hw. subst c'. exact Huv.
  - bind_inv Hw. apply (IH x); [exact Hw|].
    apply (module_row_ext m c x); assumption.
Qed.

(** A layer on a 2-D input: the shape it returns, and its rows when it
    works row by row. *)
Lemma module_forward_2d (m : module R) (training : bool) (x y : tensor R)
    (n c : nat) :
  shape x = [n; c] ->
  nn.module_forward m training x = Some y ->
  exists c',
    module_width m c = Some c' /\
    shape y = [n; c'] /\
    (per_row training [m] = true ->
     forall r j, get y [r; j] = module_row m (row x r) j).
Proof.
  intros Hx Hy. destruct m as [nf mo p | i o p | | nf p | ]; simpl in Hy.
  - unfold nn.BatchNorm1d_forward in Hy. rewrite Hx in Hy.
    bind_inv Hy. simpl module_width. rewrite Hx0. simpl bind.
    exists c. split; [reflexivity|].
    destruct training.
    + bind_inv Hy. inversion Hy. subst y. split; [reflexivity|].
      unfold per_row. simpl. discriminate.
    + inversion Hy. subst y. split; [reflexivity|].
      intros _ r j. reflexivity.
  - unfold nn.Linear_forward in Hy. rewrite Hx in Hy. simpl rev in Hy.
    bind_inv Hy. simpl module_width. rewrite Hx0. simpl bind.
    exists o. split; [reflexivity|].
    inversion Hy. subst y. split; [reflexivity|].
    intros _ r j. reflexivity.
  - inversion Hy. subst y. exists c. split; [reflexivity|].
    split; [exact Hx|]. intros _ r j. reflexivity.
  - unfold nn.LayerNorm_forward in Hy. rewrite Hx in Hy. simpl rev in Hy.
    bind_inv Hy. simpl module_width. rewrite Hx0. simpl bind.
    exists c. split; [reflexivity|].
    inversion Hy. subst y. split; [reflexivity|].
    intros _ r j. apply Nat.eqb_eq in Hx0. subst nf. reflexivity.
  - inversion Hy. subst y. exists c. split; [reflexivity|].
    split; [exact Hx|]. intros _ r j. reflexivity.
Qed.

(** A layer accepts every 2-D input of a width it fits, except batch
    normalization in training mode on a single row. *)
Lemma module_forward_ok (m : module R) (training : bool) (x : tensor R)
    (n c c' : nat) :
  shape x = [n; c] ->
  module_width m c = Some c' ->
  per_row training [m] = true \/ 1 < n ->
  exists y, nn.module_forward m training x = Some y.
Proof.
  intros Hx Hw Hmode. destruct m as [nf mo p | i o p | | nf p | ];
    simpl in Hw |- *.
  - bind_inv Hw. unfold nn.BatchNorm1d_forward. rewrite Hx, Hx0. simpl bind.
    destruct training; [|eexists; reflexivity].
    unfold nn.channel. rewrite Hx. simpl fst.
    destruct Hmode as [Hmode|Hn]; [unfold per_row in Hmode; discriminate|].
    assert (E : (n =? 1) = false) by (apply Nat.eqb_neq; lia).
    rewrite E. eexists. reflexivity.
  - bind_inv Hw. unfold nn.Linear_forward. rewrite Hx. simpl rev.
    lazy beta iota. rewrite Hx0. eexists. reflexivity.
  - eexists. reflexivity.
  - bind_inv Hw. unfold nn.LayerNorm_forward. rewrite Hx. simpl rev.
    lazy beta iota. rewrite Hx0. eexists. reflexivity.
  - eexists. reflexivity.
Qed.

Lemma per_row_cons (training : bool) (m : module R) (ms : list (module R)) :
  per_row training (m :: ms) = true ->
  per_row training [m] = true /\ per_row training ms = true.
Proof.
  unfold per_row. simpl. destruct training; simpl; [|auto].
  intros H. apply andb_prop in H. destruct H as [Hm Hms].
  rewrite Hm, Hms. auto.
Qed.

(** The stack on a 2-D input. *)
Lemma Sequential_forward_2d (ms : list (module R)) (training : bool)
    (x y : tensor R) (n c : nat) :
  shape x = [n; c] ->
  nn.Sequential_forward ms training x = Some y ->
  exists c',
    seq_width ms c = Some c' /\
    shape y = [n; c'] /\
    (per_row training ms = true ->
     forall r, veq c' (row y r) (seq_row ms (row x r))).
Proof.
  revert x c. induction ms as [|m ms IH]; intros x c Hx Hy; simpl in Hy.
  - inversion Hy. subst y. exists c. split; [reflexivity|].
    split; [exact Hx|]. intros _ r k _. reflexivity.
  - bind_inv Hy. rename x0 into x1.
    destruct (module_forward_2d m training x x1 n c Hx Hx0)
      as (c1 & Hw1 & Hs1 & Hrow1).
    destruct (IH x1 c1 Hs1 Hy) as (c' & Hw & Hs & Hrow).
    exists c'. simpl seq_width. rewrite Hw1. simpl bind.
    split; [exact Hw|]. split; [exact Hs|].
    intros Hmode r. apply per_row_cons in Hmode. destruct Hmode as [Hm Hms].
    intros j Hj. rewrite (Hrow Hms r j Hj). simpl seq_row.
    apply (seq_row_ext ms c1 c'); [exact Hw | | exact Hj].
    intros k _. unfold row at 1. apply Hrow1. exact Hm.
Qed.

Lemma Sequential_forward_ok (ms : list (module R)) (training : bool)
    (x : tensor R) (n c c' : nat) :
  shape x = [n; c] ->
  seq_width ms c = Some c' ->
  per_row training ms = true \/ 1 < n ->
  exists y, nn.Sequential_forward ms training x = Some y.
Proof.
  revert x c. induction ms as [|m ms IH]; intros x c Hx Hw Hmode; simpl.
  - eexists. reflexivity.
  - simpl in Hw. bind_inv Hw. rename x0 into c1.
    destruct (module_forward_ok m training x n c c1 Hx Hx0) as (x1 & Hx1).
    { destruct Hmode as [Hmode|Hn]; [|right; exact Hn].
      left. apply per_row_cons in Hmode. tauto. }
    rewrite Hx1. simpl bind.
    destruct (module_forward_2d m training x x1 n c Hx Hx1)
      as (c1' & Hw1 & Hs1 & _).
    assert (c1' = c1) by congruence. subst c1'.
    apply (IH x1 c1 Hs1 Hw).
    destruct Hmode as [Hmode|Hn]; [|right; exact Hn].
    left. apply per_row_cons in Hmode. tauto.
Qed.

End Rows.

(** ** C4: the block acts on each (time step, batch element) slice *)

Section Block.
Context {R : Type} {SR : Scalar R}.

Lemma NnSeqBnMLP_forward_inv (self : NnSeqBnMLP.t) (training : bool)
    (seq out : tensor R) (d0 d1 d2 : nat) :
  shape seq = [d0; d1; d2] ->
  NnSeqBnMLP.forward self training seq = Some out ->
  0 < d0 * d1 /\
  exists c,
    seq_width (NnSeqBnMLP.mlp self) d2 = Some c /\
    shape out = [d0; d1; c] /\
    (per_row training (NnSeqBnMLP.mlp self) = true ->
     forall t b, t < d0 -> b < d1 ->
       veq c (slice out t b) (seq_row (NnSeqBnMLP.mlp self) (slice seq t b))).
Proof.
  intros Hseq Hout. unfold NnSeqBnMLP.forward in Hout. rewrite Hseq in Hout.
  bind_inv Hout. rename x into inp.
  pose proof (reshape_flatten_pos seq inp d0 d1 d2 Hseq Hx) as Hpos.
  split; [exact Hpos|].
  destruct (reshape_flatten seq d0 d1 d2 Hseq Hpos) as (inp' & Hinp' & Hsi & Hgi).
  assert (inp' = inp) by congruence. subst inp'.
  bind_inv Hout. rename x into y.
  destruct (Sequential_forward_2d (NnSeqBnMLP.mlp self) training inp y
              (d0 * d1) d2 Hsi Hx0) as (c & Hw & Hsy & Hrow).
  destruct (reshape_unflatten y d0 d1 c Hsy Hpos) as (out' & Hout' & Hso & Hgo).
  assert (out' = out) by congruence. subst out'.
  exists c. split; [exact Hw|]. split; [exact Hso|].
  intros Hmode t b Ht Hb k Hk. unfold slice at 1.
  rewrite (Hgo t b k Ht Hb Hk).
  change (get y [t * d1 + b; k]) with (row y (t * d1 + b) k).
  rewrite (Hrow Hmode (t * d1 + b) k Hk).
  apply (seq_row_ext (NnSeqBnMLP.mlp self) d2 c); [exact Hw | | exact Hk].
  intros k' Hk'. unfold row, slice. apply Hgi; assumption.
Qed.

Lemma NnSeqBnMLP_forward_ok (self : NnSeqBnMLP.t) (training : bool)
    (seq : tensor R) (d0 d1 d2 c : nat) :
  shape seq = [d0; d1; d2] ->
  0 < d0 * d1 ->
  seq_width (NnSeqBnMLP.mlp self) d2 = Some c ->
  per_row training (NnSeqBnMLP.mlp self) = true \/ 1 < d0 * d1 ->
  exists out, NnSeqBnMLP.forward self training seq = Some out.
Proof.
  intros Hseq Hpos Hw Hmode. unfold NnSeqBnMLP.forward. rewrite Hseq.
  destruct (reshape_flatten seq d0 d1 d2 Hseq Hpos) as (inp & Hinp & Hsi & _).
  rewrite Hinp. simpl bind.
  destruct (Sequential_forward_ok (NnSeqBnMLP.mlp self) training inp
              (d0 * d1) d2 c Hsi Hw Hmode) as (y & Hy).
  rewrite Hy. simpl bind.
  destruct (Sequential_forward_2d (NnSeqBnMLP.mlp self) training inp y
              (d0 * d1) d2 Hsi Hy) as (c' & Hw' & Hsy & _).
  destruct (reshape_unflatten y d0 d1 c' Hsy Hpos) as (out & Hout & _).
  exists out. exact Hout.
Qed.

(** Two runs of a block that works row by row: equal input slices give
    equal output slices, wherever the slices sit. *)
Lemma NnSeqBnMLP_forward_slices (self : NnSeqBnMLP.t) (training : bool)
    (seq out seq' out' : tensor R) (d0 d1 d0' d1' d2 c t b t' b' : nat) :
  per_row training (NnSeqBnMLP.mlp self) = true ->
  shape seq = [d0; d1; d2] ->
  NnSeqBnMLP.forward self training seq = Some out ->
  shape seq' = [d0'; d1'; d2] ->
  NnSeqBnMLP.forward self training seq' = Some out' ->
  shape out = [d0; d1; c] ->
  t < d0 -> b < d1 -> t' < d0' -> b' < d1' ->
  veq d2 (slice seq t b) (slice seq' t' b') ->
  veq c (slice out t b) (slice out' t' b').
Proof.
  intros Hmode Hseq Hout Hseq' Hout' Hso Ht Hb Ht' Hb' Hsl k Hk.
  destruct (NnSeqBnMLP_forward_inv self training seq out d0 d1 d2 Hseq Hout)
    as (_ & c0 & Hw & Hso0 & Hrow).
  assert (c0 = c) by congruence. subst c0.
  destruct (NnSeqBnMLP_forward_inv self training seq' out' d0' d1' d2 Hseq' Hout')
    as (_ & c' & Hw' & _ & Hrow').
  assert (c' = c) by congruence. subst c'.
  rewrite (Hrow Hmode t b Ht Hb k Hk), (Hrow' Hmode t' b' Ht' Hb' k Hk).
  apply (seq_row_ext (NnSeqBnMLP.mlp self) d2 c); assumption.
Qed.

(** C4, as the code has it.  When the block works row by row (evaluation
    mode, or no batch normalization in the stack), the output slice at
    [(t, b)] is one fixed function, [seq_row] of the layer stack, of the
    input slice at [(t, b)]; so for any other input (of any length and batch
    size) whose slice at some position is the same, the output slice there is
    the same. *)
Theorem C4_forward_per_position (self : NnSeqBnMLP.t) (training : bool)
    (seq out : tensor R) (d0 d1 d2 : nat) :
  per_row training (NnSeqBnMLP.mlp self) = true ->
  shape seq = [d0; d1; d2] ->
  NnSeqBnMLP.forward self training seq = Some out ->
  exists c,
    shape out = [d0; d1; c] /\
    (forall t b, t < d0 -> b < d1 ->
       veq c (slice out t b) (seq_row (NnSeqBnMLP.mlp self) (slice seq t b))) /\
    (forall seq' out' d0' d1' t b t' b',
       shape seq' = [d0'; d1'; d2] ->
       NnSeqBnMLP.forward self training seq' = Some out' ->
       t < d0 -> b < d1 -> t' < d0' -> b' < d1' ->
       veq d2 (slice seq t b) (slice seq' t' b') ->
       veq c (slice out t b) (slice out' t' b')).
Proof.
  intros Hmode Hseq Hout.
  destruct (NnSeqBnMLP_forward_inv self training seq out d0 d1 d2 Hseq Hout)
    as (_ & c & Hw & Hso & Hrow).
  exists c. split; [exact Hso|]. split; [exact (Hrow Hmode)|].
  intros seq' out' d0' d1' t b t' b' Hseq' Hout' Ht Hb Ht' Hb' Hsl.
  apply (NnSeqBnMLP_forward_slices self training seq out seq' out'
           d0 d1 d0' d1' d2 c t b t' b'); assumption.
Qed.

End Block.

(** ** Shapes and elements of the torch calls on 3-D tensors *)

Section Calls.
Context {R : Type} {SR : Scalar R} {TR : Transformer R}.

Lemma list_eq_dec_true (s s' : list nat) :
  (if list_eq_dec Nat.eq_dec s s' then true else false) = true <-> s = s'.
Proof. destruct (list_eq_dec Nat.eq_dec s s'); split; congruence. Qed.

(** [th.cat((x1, x2), dim=2)] *)
Lemma cat2_inv (x1 x2 y : tensor R) (a b c1 a' b' c2 : nat) :
  shape x1 = [a; b; c1] ->
  shape x2 = [a'; b'; c2] ->
  th.cat [x1; x2] 2 = Some y ->
  a' = a /\ b' = b /\
  shape y = [a; b; c1 + c2] /\
  forall t i k,
    get y [t; i; k]
      = if k <? c1 then get x1 [t; i; k]
        else if k - c1 <? c2 then get x2 [t; i; k - c1] else f_zero.
Proof.
  intros H1 H2 Hy. unfold th.cat in Hy. rewrite H1 in Hy.
  bind_inv Hy. bind_inv Hy. simpl in Hx0. rewrite andb_true_r in Hx0.
  apply list_eq_dec_true in Hx0. rewrite H2 in Hx0. simpl in Hx0.
  inversion Hx0. subst a' b'. inversion Hy. subst y.
  split; [reflexivity|]. split; [reflexivity|]. split.
  - simpl. rewrite H1, H2. simpl. rewrite Nat.add_0_r. reflexivity.
  - intros t i k. simpl. rewrite H1, H2. simpl. reflexivity.
Qed.

Lemma cat2_ok (x1 x2 : tensor R) (a b c1 c2 : nat) :
  shape x1 = [a; b; c1] ->
  shape x2 = [a; b; c2] ->
  exists y, th.cat [x1; x2] 2 = Some y.
Proof.
  intros H1 H2. unfold th.cat. rewrite H1.
  change (2 <? List.length [a; b; c1]) with true. cbn [guard bind].
  assert (Hg : forallb (fun y : tensor R =>
                  if list_eq_dec Nat.eq_dec (th.set_nth 2 0 (shape y))
                       (th.set_nth 2 0 [a; b; c1])
                  then true else false) [x2] = true).
  { simpl. rewrite andb_true_r. apply list_eq_dec_true. rewrite H2. reflexivity. }
  rewrite Hg. eexists. reflexivity.
Qed.

(** [x.permute(1, 2, 0)] and [x.permute(2, 0, 1)] *)
Lemma permute_120 (x : tensor R) (a b c : nat) :
  shape x = [a; b; c] ->
  exists y,
    th.permute x [1; 2; 0] = Some y /\
    shape y = [b; c; a] /\
    forall i j k, get y [i; j; k] = get x [k; i; j].
Proof.
  intros Hx. unfold th.permute. rewrite Hx. simpl.
  eexists. split; [reflexivity|]. split; reflexivity.
Qed.

Lemma permute_201 (x : tensor R) (a b c : nat) :
  shape x = [a; b; c] ->
  exists y,
    th.permute x [2; 0; 1] = Some y /\
    shape y = [c; a; b] /\
    forall i j k, get y [i; j; k] = get x [j; k; i].
Proof.
  intros Hx. unfold th.permute. rewrite Hx. simpl.
  eexists. split; [reflexivity|]. split; reflexivity.
Qed.

(** A recurrent layer returns one output row per time step and batch
    element. *)
Lemma RNN_forward_shape (self : nn.RNNBase) (x y : tensor R) (hx h : value R)
    (t_len b_len i_len : nat) :
  shape x = [t_len; b_len; i_len] ->
  nn.RNN_forward self x hx = Some (y, h) ->
  i_len = nn.input_size self /\
  shape y = [t_len; b_len; nn.hidden_size self].
Proof.
  intros Hx Hy. unfold nn.RNN_forward, nn.LSTM_forward, nn.GRU_forward in Hy.
  rewrite Hx in Hy.
  destruct (nn.mode self); bind_inv Hy; apply Nat.eqb_eq in Hx0;
    bind_inv Hy.
  - destruct x1 as [h0 c0]. inversion Hy. split; [exact Hx0 | reflexivity].
  - inversion Hy. split; [exact Hx0 | reflexivity].
Qed.

(** Without a hidden state a recurrent layer accepts every input of its
    width. *)
Lemma RNN_forward_ok (self : nn.RNNBase) (x : tensor R)
    (t_len b_len : nat) :
  shape x = [t_len; b_len; nn.input_size self] ->
  exists y h, nn.RNN_forward self x VNone = Some (y, h).
Proof.
  intros Hx. unfold nn.RNN_forward, nn.LSTM_forward, nn.GRU_forward.
  rewrite Hx, Nat.eqb_refl. destruct (nn.mode self); simpl;
    eexists; eexists; reflexivity.
Qed.

(** The convolution keeps the batch size and the length. *)
Lemma Conv1d_forward_shape (self : nn.Conv1d) (x y : tensor R) (n c l : nat) :
  shape x = [n; c; l] ->
  nn.Conv1d_forward self x = Some y ->
  c = nn.in_channels self /\ shape y = [n; nn.out_channels self; l].
Proof.
  intros Hx Hy. unfold nn.Conv1d_forward in Hy. rewrite Hx in Hy.
  bind_inv Hy. apply Nat.eqb_eq in Hx0. inversion Hy.
  split; [exact Hx0 | reflexivity].
Qed.

Lemma BatchNorm1d_forward_shape (nf : nat) (p : state_dict R) (training : bool)
    (x y : tensor R) :
  nn.BatchNorm1d_forward nf p training x = Some y -> shape y = shape x.
Proof.
  intros Hy. unfold nn.BatchNorm1d_forward in Hy. bind_inv Hy.
  destruct training.
  - bind_inv Hy. inversion Hy. reflexivity.
  - inversion Hy. reflexivity.
Qed.

Lemma DilatedCNN_forward_shape (mid kernel_size dilation : nat)
    (p : state_dict R) (training : bool) (x y : tensor R) (n c l : nat) :
  shape x = [n; c; l] ->
  DilatedCNN.forward (DilatedCNN.init mid mid kernel_size dilation p) training x
    = Some y ->
  c = mid /\ shape y = [n; mid; l].
Proof.
  intros Hx Hy. unfold DilatedCNN.forward in Hy.
  bind_inv Hy. bind_inv Hy. inversion Hy. subst y.
  destruct (Conv1d_forward_shape _ x x0 n c l Hx Hx0) as (Hc & Hs0).
  simpl in Hx1. apply BatchNorm1d_forward_shape in Hx1.
  split; [exact Hc|]. simpl. rewrite Hx1. exact Hs0.
Qed.

(** A loop over layers that keep a shape keeps it. *)
Lemma apply_layers_shape {A : Type} (call : A -> tensor R -> option (tensor R))
    (good : list nat -> Prop) (layers : list A) :
  (forall layer x y, In layer layers -> good (shape x) -> call layer x = Some y ->
                     shape y = shape x) ->
  forall x y, good (shape x) -> apply_layers call layers x = Some y ->
              shape y = shape x.
Proof.
  induction layers as [|layer layers IH]; intros Hcall x y Hgood Hy; simpl in Hy.
  - inversion Hy. reflexivity.
  - bind_inv Hy. rename x0 into x1.
    assert (H1 : shape x1 = shape x).
    { apply (Hcall layer); [left; reflexivity | exact Hgood | exact Hx]. }
    rewrite <- H1. apply IH; [| rewrite H1; exact Hgood | exact Hy].
    intros l' x' y' Hin. apply Hcall. right. exact Hin.
Qed.

End Calls.

(** ** C6: the time and batch axes are preserved *)

Section Shapes.
Context {R : Type} {SR : Scalar R} {TR : Transformer R}.

(** The blocks of the three networks: dims of length three, no input
    normalization, GELU or Tanh as output activation. *)
Lemma init3_widths (a b c : nat) (if_layer_norm : bool) (act : module R)
    (params : state_dict R) (self : NnSeqBnMLP.t) :
  NnSeqBnMLP.init [a; b; c] false if_layer_norm (Some act) params = Some self ->
  act = GELU \/ act = Tanh ->
  seq_width (NnSeqBnMLP.mlp self) a = Some c /\
  (forall w w', seq_width (NnSeqBnMLP.mlp self) w = Some w' -> w = a /\ w' = c) /\
  (forall training, per_row training (NnSeqBnMLP.mlp self) = true).
Proof.
  intros Hinit Hact.
  assert (Hmlp : exists p0 p2 p3,
             NnSeqBnMLP.mlp self
             = [Linear a b p0; GELU]
               ++ (if if_layer_norm then [LayerNorm b p2] else [])
               ++ [Linear b c p3; act]).
  { destruct if_layer_norm; cbn in Hinit; inversion Hinit;
      cbn [NnSeqBnMLP.mlp].
    - exists (sub (sub params (Name "mlp")) (Idx 0)),
        (sub (sub params (Name "mlp")) (Idx 2)),
        (sub (sub params (Name "mlp")) (Idx 3)).
      reflexivity.
    - exists (sub (sub params (Name "mlp")) (Idx 0)), params,
        (sub (sub params (Name "mlp")) (Idx 2)).
      reflexivity. }
  destruct Hmlp as (p0 & p2 & p3 & ->). clear Hinit.
  split; [|split].
  - destruct Hact as [-> | ->]; destruct if_layer_norm; simpl;
      repeat (rewrite Nat.eqb_refl; simpl); reflexivity.
  - intros w w' Hw.
    destruct Hact as [-> | ->]; destruct if_layer_norm; simpl in Hw;
      (destruct (w =? a) eqn:E; [|discriminate]);
      simpl in Hw; repeat (rewrite Nat.eqb_refl in Hw; simpl in Hw);
      inversion Hw; apply Nat.eqb_eq in E; tauto.
  - intros training. unfold per_row. apply orb_true_iff. right.
    destruct Hact as [-> | ->]; destruct if_layer_norm; reflexivity.
Qed.

(** Such a block maps [(T, B, a)] to [(T, B, c)] and rejects other widths. *)
Lemma block_forward_shape (a b c : nat) (if_layer_norm : bool) (act : module R)
    (params : state_dict R) (self : NnSeqBnMLP.t) (training : bool)
    (seq out : tensor R) (t_len b_len w : nat) :
  NnSeqBnMLP.init [a; b; c] false if_layer_norm (Some act) params = Some self ->
  act = GELU \/ act = Tanh ->
  shape seq = [t_len; b_len; w] ->
  NnSeqBnMLP.forward self training seq = Some out ->
  w = a /\ shape out = [t_len; b_len; c] /\ 0 < t_len * b_len.
Proof.
  intros Hinit Hact Hseq Hout.
  destruct (init3_widths a b c if_layer_norm act params self Hinit Hact)
    as (_ & Hw & _).
  destruct (NnSeqBnMLP_forward_inv self training seq out t_len b_len w Hseq Hout)
    as (Hpos & c' & Hw' & Hso & _).
  destruct (Hw w c' Hw') as (-> & ->). tauto.
Qed.

Lemma block_forward_ok (a b c : nat) (if_layer_norm : bool) (act : module R)
    (params : state_dict R) (self : NnSeqBnMLP.t) (training : bool)
    (seq : tensor R) (t_len b_len : nat) :
  NnSeqBnMLP.init [a; b; c] false if_layer_norm (Some act) params = Some self ->
  act = GELU \/ act = Tanh ->
  shape seq = [t_len; b_len; a] ->
  0 < t_len * b_len ->
  exists out, NnSeqBnMLP.forward self training seq = Some out.
Proof.
  intros Hinit Hact Hseq Hpos.
  destruct (init3_widths a b c if_layer_norm act params self Hinit Hact)
    as (Hw & _ & Hrow).
  apply (NnSeqBnMLP_forward_ok self training seq t_len b_len a c Hseq Hpos Hw).
  left. apply Hrow.
Qed.

Lemma RnnRegNet_forward_shape (inp_dim mid_dim out_dim num_layers : nat)
    (params : state_dict R) (self : RnnRegNet.t) (training : bool)
    (inp out : tensor R) (hid h : value R) (t_len b_len w : nat) :
  RnnRegNet.init inp_dim mid_dim out_dim num_layers params = Some self ->
  shape inp = [t_len; b_len; w] ->
  RnnRegNet.forward self training inp hid = Some (out, h) ->
  shape out = [t_len; b_len; out_dim].
Proof.
  intros Hinit Hinp Hfw. unfold RnnRegNet.init in Hinit.
  bind_open Hinit as m1 Hm1. bind_open Hinit as m2 Hm2.
  bind_open Hinit as mi Hmi. bind_open Hinit as mo Hmo.
  inversion Hinit. subst self. clear Hinit.
  unfold RnnRegNet.forward in Hfw. cbn [RnnRegNet.rnn1 RnnRegNet.rnn2
    RnnRegNet.mlp1 RnnRegNet.mlp2 RnnRegNet.mlp_inp RnnRegNet.mlp_out] in Hfw.
  bind_open Hfw as [hid1 hid2] Hhid.
  bind_open Hfw as xi Hxi.
  destruct (block_forward_shape _ _ _ _ _ _ _ _ _ _ _ _ _ Hmi (or_introl eq_refl)
              Hinp Hxi) as (_ & Sxi & _).
  bind_open Hfw as [r1 h1] Hr1.
  destruct (RNN_forward_shape _ _ _ _ _ _ _ _ Sxi Hr1) as (_ & Sr1).
  cbn [nn.hidden_size] in Sr1.
  bind_open Hfw as tmp1 Ht1.
  destruct (block_forward_shape _ _ _ _ _ _ _ _ _ _ _ _ _ Hm1 (or_introl eq_refl)
              Sr1 Ht1) as (_ & St1 & _).
  bind_open Hfw as [r2 h2] Hr2.
  destruct (RNN_forward_shape _ _ _ _ _ _ _ _ Sxi Hr2) as (_ & Sr2).
  cbn [nn.hidden_size] in Sr2.
  bind_open Hfw as tmp2 Ht2.
  destruct (block_forward_shape _ _ _ _ _ _ _ _ _ _ _ _ _ Hm2 (or_introl eq_refl)
              Sr2 Ht2) as (_ & St2 & _).
  bind_open Hfw as tmp Htmp.
  destruct (cat2_inv tmp1 tmp2 tmp _ _ _ _ _ _ St1 St2 Htmp) as (_ & _ & Stmp & _).
  bind_open Hfw as out' Hout'. inversion Hfw. subst out' h.
  destruct (block_forward_shape _ _ _ _ _ _ _ _ _ _ _ _ _ Hmo (or_intror eq_refl)
              Stmp Hout') as (_ & Sout & _).
  exact Sout.
Qed.

(** A branch of convolution layers keeps the shape [(B, mid, T)]. *)
Lemma cnn_branch_shape (mid kernel_size dilation num_layers : nat)
    (params : state_dict R) (training : bool) (x y : tensor R) (n l : nat) :
  shape x = [n; mid; l] ->
  apply_layers (fun layer => DilatedCNN.forward layer training)
    (map (fun i => DilatedCNN.init mid mid kernel_size dilation
                     (sub params (Idx i))) (seq 0 num_layers)) x = Some y ->
  shape y = [n; mid; l].
Proof.
  intros Hx Hy. rewrite <- Hx.
  apply (apply_layers_shape
           (fun layer => DilatedCNN.forward layer training)
           (fun s => exists n' l', s = [n'; mid; l'])) with (3 := Hy).
  - intros layer x' y' Hin (n' & l' & Hs') Hcall.
    apply in_map_iff in Hin. destruct Hin as (i & <- & _).
    destruct (DilatedCNN_forward_shape mid kernel_size dilation _ training
                x' y' n' mid l' Hs' Hcall) as (_ & Hy').
    rewrite Hy', Hs'. reflexivity.
  - exists n, l. exact Hx.
Qed.

Lemma encoder_stack_shape (blocks : list TransformerEncoderBlock.t)
    (training : bool) (x y : tensor R) :
  apply_layers (fun block => TransformerEncoderBlock.forward block training)
    blocks x = Some y ->
  shape y = shape x.
Proof.
  intros Hy.
  apply (apply_layers_shape
           (fun block => TransformerEncoderBlock.forward block training)
           (fun _ => True)) with (3 := Hy); [|exact I].
  intros block x' y' _ _ Hcall.
  apply (TransformerEncoderLayer_shape _ _ _ _ Hcall).
Qed.

Lemma DilatedCNNRegNet_forward_shape
    (inp_dim mid_dim out_dim num_layers kernel_size dilation : nat)
    (params : state_dict R) (self : DilatedCNNRegNet.t) (training : bool)
    (H : Type) (inp out : tensor R) (hid : H) (h : value R)
    (t_len b_len w : nat) :
  DilatedCNNRegNet.init inp_dim mid_dim out_dim num_layers kernel_size dilation
    params = Some self ->
  shape inp = [t_len; b_len; w] ->
  DilatedCNNRegNet.forward self training inp hid = Some (out, h) ->
  shape out = [t_len; b_len; out_dim].
Proof.
  intros Hinit Hinp Hfw. unfold DilatedCNNRegNet.init in Hinit.
  bind_open Hinit as mi Hmi. bind_open Hinit as m1 Hm1.
  bind_open Hinit as m2 Hm2. bind_open Hinit as mo Hmo.
  inversion Hinit. subst self. clear Hinit.
  unfold DilatedCNNRegNet.forward in Hfw.
  cbn [DilatedCNNRegNet.mlp_inp DilatedCNNRegNet.cnn_branch1
       DilatedCNNRegNet.cnn_branch2 DilatedCNNRegNet.mlp1
       DilatedCNNRegNet.mlp2 DilatedCNNRegNet.mlp_out] in Hfw.
  bind_open Hfw as x Hx.
  destruct (block_forward_shape _ _ _ _ _ _ _ _ _ _ _ _ _ Hmi (or_introl eq_refl)
              Hinp Hx) as (_ & Sx & _).
  bind_open Hfw as xp Hxp.
  destruct (permute_120 x _ _ _ Sx) as (xp' & Hxp' & Sxp & _).
  assert (xp' = xp) by congruence. subst xp'.
  bind_open Hfw as o1 Ho1.
  pose proof (cnn_branch_shape _ _ _ _ _ _ _ _ _ _ Sxp Ho1) as So1.
  bind_open Hfw as o1p Ho1p.
  destruct (permute_201 o1 _ _ _ So1) as (o1p' & Ho1p' & So1p & _).
  assert (o1p' = o1p) by congruence. subst o1p'.
  bind_open Hfw as tmp1 Ht1.
  destruct (block_forward_shape _ _ _ _ _ _ _ _ _ _ _ _ _ Hm1 (or_introl eq_refl)
              So1p Ht1) as (_ & St1 & _).
  bind_open Hfw as o2 Ho2.
  pose proof (cnn_branch_shape _ _ _ _ _ _ _ _ _ _ Sxp Ho2) as So2.
  bind_open Hfw as o2p Ho2p.
  destruct (permute_201 o2 _ _ _ So2) as (o2p' & Ho2p' & So2p & _).
  assert (o2p' = o2p) by congruence. subst o2p'.
  bind_open Hfw as tmp2 Ht2.
  destruct (block_forward_shape _ _ _ _ _ _ _ _ _ _ _ _ _ Hm2 (or_introl eq_refl)
              So2p Ht2) as (_ & St2 & _).
  bind_open Hfw as tmp Htmp.
  destruct (cat2_inv tmp1 tmp2 tmp _ _ _ _ _ _ St1 St2 Htmp) as (_ & _ & Stmp & _).
  bind_open Hfw as out' Hout'. inversion Hfw. subst out' h.
  destruct (block_forward_shape _ _ _ _ _ _ _ _ _ _ _ _ _ Hmo (or_intror eq_refl)
              Stmp Hout') as (_ & Sout & _).
  exact Sout.
Qed.

Lemma TransformerRegNet_forward_shape
    (inp_dim mid_dim out_dim num_layers nhead : nat)
    (params : state_dict R) (self : TransformerRegNet.t) (training : bool)
    (H : Type) (inp out : tensor R) (hid : H) (h : value R)
    (t_len b_len w : nat) :
  TransformerRegNet.init inp_dim mid_dim out_dim num_layers nhead params
    = Some self ->
  shape inp = [t_len; b_len; w] ->
  TransformerRegNet.forward self training inp hid = Some (out, h) ->
  shape out = [t_len; b_len; out_dim].
Proof.
  intros Hinit Hinp Hfw. unfold TransformerRegNet.init in Hinit.
  bind_open Hinit as mi Hmi. bind_open Hinit as m1 Hm1.
  bind_open Hinit as m2 Hm2. bind_open Hinit as mo Hmo.
  inversion Hinit. subst self. clear Hinit.
  unfold TransformerRegNet.forward in Hfw.
  cbn [TransformerRegNet.mlp_inp TransformerRegNet.transformer1
       TransformerRegNet.transformer2 TransformerRegNet.mlp1
       TransformerRegNet.mlp2 TransformerRegNet.mlp_out] in Hfw.
  bind_open Hfw as x Hx.
  destruct (block_forward_shape _ _ _ _ _ _ _ _ _ _ _ _ _ Hmi (or_introl eq_refl)
              Hinp Hx) as (_ & Sx & _).
  bind_open Hfw as e1 He1.
  pose proof (encoder_stack_shape _ _ _ _ He1) as Se1. rewrite Sx in Se1.
  bind_open Hfw as tmp1 Ht1.
  destruct (block_forward_shape _ _ _ _ _ _ _ _ _ _ _ _ _ Hm1 (or_introl eq_refl)
              Se1 Ht1) as (_ & St1 & _).
  bind_open Hfw as e2 He2.
  pose proof (encoder_stack_shape _ _ _ _ He2) as Se2. rewrite Sx in Se2.
  bind_open Hfw as tmp2 Ht2.
  destruct (block_forward_shape _ _ _ _ _ _ _ _ _ _ _ _ _ Hm2 (or_introl eq_refl)
              Se2 Ht2) as (_ & St2 & _).
  bind_open Hfw as tmp Htmp.
  destruct (cat2_inv tmp1 tmp2 tmp _ _ _ _ _ _ St1 St2 Htmp) as (_ & _ & Stmp & _).
  bind_open Hfw as out' Hout'. inversion Hfw. subst out' h.
  destruct (block_forward_shape _ _ _ _ _ _ _ _ _ _ _ _ _ Hmo (or_intror eq_refl)
              Stmp Hout') as (_ & Sout & _).
  exact Sout.
Qed.

(** C6.  Each of the three networks, as built by its constructor, preserves
    the time and batch axes: whenever [forward] succeeds on an input of shape
    [(T, B, inp_dim)], the output sequence has shape [(T, B, out_dim)]. *)
Theorem C6_forward_preserves_time_and_batch
    (inp_dim mid_dim out_dim num_layers kernel_size dilation nhead : nat)
    (params : state_dict R) (training : bool) (inp : tensor R)
    (t_len b_len : nat) :
  shape inp = [t_len; b_len; inp_dim] ->
  (forall self hid out h,
      RnnRegNet.init inp_dim mid_dim out_dim num_layers params = Some self ->
      RnnRegNet.forward self training inp hid = Some (out, h) ->
      shape out = [t_len; b_len; out_dim]) /\
  (forall self (H : Type) (hid : H) out h,
      DilatedCNNRegNet.init inp_dim mid_dim out_dim num_layers kernel_size
        dilation params = Some self ->
      DilatedCNNRegNet.forward self training inp hid = Some (out, h) ->
      shape out = [t_len; b_len; out_dim]) /\
  (forall self (H : Type) (hid : H) out h,
      TransformerRegNet.init inp_dim mid_dim out_dim num_layers nhead params
        = Some self ->
      TransformerRegNet.forward self training inp hid = Some (out, h) ->
      shape out = [t_len; b_len; out_dim]).
Proof.
  intros Hinp. split; [|split].
  - intros self hid out h Hinit Hfw.
    exact (RnnRegNet_forward_shape _ _ _ _ _ _ _ _ _ _ _ _ _ _ Hinit Hinp Hfw).
  - intros self H hid out h Hinit Hfw.
    exact (DilatedCNNRegNet_forward_shape _ _ _ _ _ _ _ _ _ _ _ _ _ _ _ _ _
             Hinit Hinp Hfw).
  - intros self H hid out h Hinit Hfw.
    exact (TransformerRegNet_forward_shape _ _ _ _ _ _ _ _ _ _ _ _ _ _ _ _
             Hinit Hinp Hfw).
Qed.

End Shapes.

(** ** C1: which input time steps an output time step of the convolutional
    network reads *)

Section Receptive.
Context {R : Type} {SR : Scalar R}.

Lemma pad_split (kernel_size dilation : nat) :
  nn.left_pad kernel_size dilation + nn.right_pad kernel_size dilation
  = dilation * (kernel_size - 1).
Proof.
  unfold nn.right_pad, nn.left_pad, nn.total_padding.
  pose proof (Nat.Div0.mul_div_le (dilation * (kernel_size - 1)) 2) as Hle.
  lia.
Qed.

(** The convolution at output time [t] reads the input within the window
    of its padding. *)
Lemma Conv1d_forward_local (self : nn.Conv1d) (x x' y y' : tensor R)
    (n c l t : nat) :
  shape x = [n; c; l] ->
  shape x' = [n; c; l] ->
  nn.Conv1d_forward self x = Some y ->
  nn.Conv1d_forward self x' = Some y' ->
  (forall s, s < l ->
     in_window (nn.left_pad (nn.kernel_size self) (nn.dilation self))
       (nn.right_pad (nn.kernel_size self) (nn.dilation self)) t s ->
     agree_bct n c x x' s) ->
  forall b co, b < n -> get y [b; co; t] = get y' [b; co; t].
Proof.
  intros Hx Hx' Hy Hy' Hwin b co Hb.
  unfold nn.Conv1d_forward in Hy, Hy'. rewrite Hx in Hy. rewrite Hx' in Hy'.
  bind_open Hy as u Hc. bind_open Hy' as u' Hc'. apply Nat.eqb_eq in Hc.
  inversion Hy. inversion Hy'. cbn [get nth]. f_equal.
  apply sum_n_ext. intros ci Hci. apply sum_n_ext. intros k Hk. f_equal.
  unfold nn.padded.
  destruct ((nn.left_pad (nn.kernel_size self) (nn.dilation self)
               <=? t + k * nn.dilation self)
            && (t + k * nn.dilation self
                - nn.left_pad (nn.kernel_size self) (nn.dilation self) <? l))
    eqn:E; [|reflexivity].
  apply andb_prop in E. destruct E as [E1 E2].
  apply Nat.leb_le in E1. apply Nat.ltb_lt in E2.
  apply Hwin; [exact E2 | | exact Hb | lia].
  pose proof (pad_split (nn.kernel_size self) (nn.dilation self)) as Hsplit.
  unfold in_window. split; [lia|].
  assert (k * nn.dilation self <= nn.dilation self * (nn.kernel_size self - 1))
    by nia.
  lia.
Qed.

(** In evaluation mode a [DilatedCNN] layer reads the same window. *)
Lemma DilatedCNN_forward_local (mid kernel_size dilation : nat)
    (p : state_dict R) (x x' y y' : tensor R) (n l t : nat) :
  shape x = [n; mid; l] ->
  shape x' = [n; mid; l] ->
  DilatedCNN.forward (DilatedCNN.init mid mid kernel_size dilation p) false x
    = Some y ->
  DilatedCNN.forward (DilatedCNN.init mid mid kernel_size dilation p) false x'
    = Some y' ->
  (forall s, s < l ->
     in_window (nn.left_pad kernel_size dilation)
       (nn.right_pad kernel_size dilation) t s ->
     agree_bct n mid x x' s) ->
  agree_bct n mid y y' t.
Proof.
  intros Hx Hx' Hy Hy' Hwin b co Hb Hco.
  unfold DilatedCNN.forward in Hy, Hy'.
  bind_open Hy as u Hu. bind_open Hy as v Hv. inversion Hy.
  bind_open Hy' as u' Hu'. bind_open Hy' as v' Hv'. inversion Hy'.
  cbn [DilatedCNN.conv DilatedCNN.bn DilatedCNN.init] in *.
  pose proof (Conv1d_forward_local _ x x' u u' n mid l t Hx Hx' Hu Hu' Hwin
                b co Hb) as Huu.
  unfold nn.module_forward, nn.BatchNorm1d_forward in Hv, Hv'.
  bind_open Hv as g Hg. bind_open Hv' as g' Hg'.
  inversion Hv. inversion Hv'.
  unfold nn.relu, th.pointwise. cbn [get nth]. rewrite Huu. reflexivity.
Qed.

(** A branch of [length layers] layers reads the window widened that many
    times. *)
Lemma cnn_branch_local (mid kernel_size dilation : nat)
    (layers : list DilatedCNN.t) :
  Forall (fun layer =>
            exists p, layer = DilatedCNN.init mid mid kernel_size dilation p)
    layers ->
  forall (x x' y y' : tensor R) (n l t : nat),
    shape x = [n; mid; l] ->
    shape x' = [n; mid; l] ->
    apply_layers (fun layer => DilatedCNN.forward layer false) layers x = Some y ->
    apply_layers (fun layer => DilatedCNN.forward layer false) layers x' = Some y' ->
    (forall s, s < l ->
       in_window (List.length layers * nn.left_pad kernel_size dilation)
         (List.length layers * nn.right_pad kernel_size dilation) t s ->
       agree_bct n mid x x' s) ->
    t < l ->
    agree_bct n mid y y' t.
Proof.
  induction layers as [|layer layers IH];
    intros Hall x x' y y' n l t Hx Hx' Hy Hy' Hwin Ht.
  - simpl in Hy, Hy'. inversion Hy. inversion Hy'. subst y y'.
    apply Hwin; [exact Ht|]. unfold in_window. simpl. lia.
  - simpl in Hy, Hy'. bind_open Hy as x1 H1. bind_open Hy' as x1' H1'.
    inversion Hall as [|layer0 layers0 (p & Hp) Hrest]. subst layer0 layers0 layer.
    destruct (DilatedCNN_forward_shape mid kernel_size dilation p false x x1
                n mid l Hx H1) as (_ & Hs1).
    destruct (DilatedCNN_forward_shape mid kernel_size dilation p false x' x1'
                n mid l Hx' H1') as (_ & Hs1').
    apply (IH Hrest x1 x1' y y' n l t Hs1 Hs1' Hy Hy'); [|exact Ht].
    intros s Hs (Hlo & Hhi).
    apply (DilatedCNN_forward_local mid kernel_size dilation p x x' x1 x1' n l s
             Hx Hx' H1 H1').
    intros s' Hs' (Hlo' & Hhi'). apply Hwin; [exact Hs'|].
    unfold in_window. simpl List.length. split; lia.
Qed.

End Receptive.

Section Window.
Context {R : Type} {SR : Scalar R}.

(** A block of the networks carries agreement at a time step from its
    inputs to its outputs. *)
Lemma block_agree (a b c : nat) (if_layer_norm : bool) (act : module R)
    (params : state_dict R) (self : NnSeqBnMLP.t) (training : bool)
    (seq seq' out out' : tensor R) (t_len b_len w s : nat) :
  NnSeqBnMLP.init [a; b; c] false if_layer_norm (Some act) params = Some self ->
  act = GELU \/ act = Tanh ->
  shape seq = [t_len; b_len; w] ->
  shape seq' = [t_len; b_len; w] ->
  NnSeqBnMLP.forward self training seq = Some out ->
  NnSeqBnMLP.forward self training seq' = Some out' ->
  s < t_len ->
  agree_tbf b_len w seq seq' s ->
  agree_tbf b_len c out out' s.
Proof.
  intros Hinit Hact Hseq Hseq' Hout Hout' Hs Hag i Hi.
  destruct (init3_widths a b c if_layer_norm act params self Hinit Hact)
    as (_ & _ & Hrow).
  destruct (block_forward_shape a b c if_layer_norm act params self training
              seq out t_len b_len w Hinit Hact Hseq Hout) as (_ & Hso & _).
  apply (NnSeqBnMLP_forward_slices self training seq out seq' out'
           t_len b_len t_len b_len w c s i s i (Hrow training) Hseq Hout
           Hseq' Hout' Hso Hs Hi Hs Hi).
  apply Hag. exact Hi.
Qed.

(** C1, as the code has it.  In evaluation mode the output of the
    convolutional network at time step [t] depends only on the input time
    steps within [num_layers * left_pad] steps before and
    [num_layers * right_pad] steps after [t], the two sides of the 'same'
    padding of one convolution: two inputs that agree on that window give
    outputs that agree at [t]. *)
Theorem C1_forward_reads_padding_window
    (inp_dim mid_dim out_dim num_layers kernel_size dilation : nat)
    (params : state_dict R) (self : DilatedCNNRegNet.t)
    (H H' : Type) (hid : H) (hid' : H') (inp inp' out out' : tensor R)
    (h h' : value R) (t_len b_len t : nat) :
  DilatedCNNRegNet.init inp_dim mid_dim out_dim num_layers kernel_size dilation
    params = Some self ->
  shape inp = [t_len; b_len; inp_dim] ->
  shape inp' = [t_len; b_len; inp_dim] ->
  DilatedCNNRegNet.forward self false inp hid = Some (out, h) ->
  DilatedCNNRegNet.forward self false inp' hid' = Some (out', h') ->
  t < t_len ->
  (forall s, s < t_len ->
     in_window (num_layers * nn.left_pad kernel_size dilation)
       (num_layers * nn.right_pad kernel_size dilation) t s ->
     agree_tbf b_len inp_dim inp inp' s) ->
  agree_tbf b_len out_dim out out' t.
Proof.
  intros Hinit Hinp Hinp' Hfw Hfw' Ht Hwin.
  unfold DilatedCNNRegNet.init in Hinit.
  bind_open Hinit as mi Hmi. bind_open Hinit as m1 Hm1.
  bind_open Hinit as m2 Hm2. bind_open Hinit as mo Hmo.
  inversion Hinit. subst self. clear Hinit.
  unfold DilatedCNNRegNet.forward in Hfw, Hfw'.
  cbn [DilatedCNNRegNet.mlp_inp DilatedCNNRegNet.cnn_branch1
       DilatedCNNRegNet.cnn_branch2 DilatedCNNRegNet.mlp1
       DilatedCNNRegNet.mlp2 DilatedCNNRegNet.mlp_out] in Hfw, Hfw'.
  (* the projected inputs *)
  bind_open Hfw as x Hx. bind_open Hfw' as x' Hx'.
  destruct (block_forward_shape _ _ _ _ _ _ _ _ _ _ _ _ _ Hmi (or_introl eq_refl)
              Hinp Hx) as (_ & Sx & _).
  destruct (block_forward_shape _ _ _ _ _ _ _ _ _ _ _ _ _ Hmi (or_introl eq_refl)
              Hinp' Hx') as (_ & Sx' & _).
  assert (Ax : forall s, s < t_len ->
             in_window (num_layers * nn.left_pad kernel_size dilation)
               (num_layers * nn.right_pad kernel_size dilation) t s ->
             agree_tbf b_len mid_dim x x' s).
  { intros s Hs Hw.
    apply (block_agree _ _ _ _ _ _ _ _ _ _ _ _ _ _ _ _ Hmi (or_introl eq_refl)
             Hinp Hinp' Hx Hx' Hs). apply Hwin; assumption. }
  bind_open Hfw as xp Hxp. bind_open Hfw' as xp' Hxp'.
  destruct (permute_120 x _ _ _ Sx) as (xq & Hxq & Sxp & Gxp).
  assert (xq = xp) by congruence. subst xq.
  destruct (permute_120 x' _ _ _ Sx') as (xq' & Hxq' & Sxp' & Gxp').
  assert (xq' = xp') by congruence. subst xq'.
  assert (Axp : forall s, s < t_len ->
             in_window (num_layers * nn.left_pad kernel_size dilation)
               (num_layers * nn.right_pad kernel_size dilation) t s ->
             agree_bct b_len mid_dim xp xp' s).
  { intros s Hs Hw b c Hb Hc. rewrite Gxp, Gxp'. apply (Ax s Hs Hw b Hb c Hc). }
  (* the two branches *)
  assert (Hbranch : forall (name : string) (o o' op op' : tensor R),
             apply_layers (fun layer => DilatedCNN.forward layer false)
               (map (fun i => DilatedCNN.init mid_dim mid_dim kernel_size dilation
                                (sub (sub params (Name name)) (Idx i)))
                  (seq 0 num_layers)) xp = Some o ->
             apply_layers (fun layer => DilatedCNN.forward layer false)
               (map (fun i => DilatedCNN.init mid_dim mid_dim kernel_size dilation
                                (sub (sub params (Name name)) (Idx i)))
                  (seq 0 num_layers)) xp' = Some o' ->
             th.permute o [2; 0; 1] = Some op ->
             th.permute o' [2; 0; 1] = Some op' ->
             shape op = [t_len; b_len; mid_dim] /\
             shape op' = [t_len; b_len; mid_dim] /\
             agree_tbf b_len mid_dim op op' t).
  { intros name o o' op op' Ho Ho' Hop Hop'.
    pose proof (cnn_branch_shape _ _ _ _ _ _ _ _ _ _ Sxp Ho) as So.
    pose proof (cnn_branch_shape _ _ _ _ _ _ _ _ _ _ Sxp' Ho') as So'.
    destruct (permute_201 o _ _ _ So) as (oq & Hoq & Sop & Gop).
    assert (oq = op) by congruence. subst oq.
    destruct (permute_201 o' _ _ _ So') as (oq' & Hoq' & Sop' & Gop').
    assert (oq' = op') by congruence. subst oq'.
    split; [exact Sop|]. split; [exact Sop'|].
    intros b Hb c Hc. unfold slice. rewrite Gop, Gop'.
    eapply (cnn_branch_local mid_dim kernel_size dilation);
      [ | exact Sxp | exact Sxp' | exact Ho | exact Ho' | | exact Ht
        | exact Hb | exact Hc ].
    - apply Forall_forall. intros layer Hin. apply in_map_iff in Hin.
      destruct Hin as (i & <- & _). eexists. reflexivity.
    - rewrite length_map, length_seq. exact Axp. }
  bind_open Hfw as o1 Ho1. bind_open Hfw as o1p Ho1p.
  bind_open Hfw' as o1' Ho1'. bind_open Hfw' as o1p' Ho1p'.
  destruct (Hbranch _ _ _ _ _ Ho1 Ho1' Ho1p Ho1p') as (S1 & S1' & A1).
  bind_open Hfw as tmp1 Ht1. bind_open Hfw' as tmp1' Ht1'.
  destruct (block_forward_shape _ _ _ _ _ _ _ _ _ _ _ _ _ Hm1 (or_introl eq_refl)
              S1 Ht1) as (_ & St1 & _).
  destruct (block_forward_shape _ _ _ _ _ _ _ _ _ _ _ _ _ Hm1 (or_introl eq_refl)
              S1' Ht1') as (_ & St1' & _).
  pose proof (block_agree _ _ _ _ _ _ _ _ _ _ _ _ _ _ _ _ Hm1 (or_introl eq_refl)
                S1 S1' Ht1 Ht1' Ht A1) as At1.
  bind_open Hfw as o2 Ho2. bind_open Hfw as o2p Ho2p.
  bind_open Hfw' as o2' Ho2'. bind_open Hfw' as o2p' Ho2p'.
  destruct (Hbranch _ _ _ _ _ Ho2 Ho2' Ho2p Ho2p') as (S2 & S2' & A2).
  bind_open Hfw as tmp2 Ht2. bind_open Hfw' as tmp2' Ht2'.
  destruct (block_forward_shape _ _ _ _ _ _ _ _ _ _ _ _ _ Hm2 (or_introl eq_refl)
              S2 Ht2) as (_ & St2 & _).
  destruct (block_forward_shape _ _ _ _ _ _ _ _ _ _ _ _ _ Hm2 (or_introl eq_refl)
              S2' Ht2') as (_ & St2' & _).
  pose proof (block_agree _ _ _ _ _ _ _ _ _ _ _ _ _ _ _ _ Hm2 (or_introl eq_refl)
                S2 S2' Ht2 Ht2' Ht A2) as At2.
  (* the concatenation and the final block *)
  bind_open Hfw as tmp Htmp. bind_open Hfw' as tmp' Htmp'.
  destruct (cat2_inv tmp1 tmp2 tmp _ _ _ _ _ _ St1 St2 Htmp)
    as (_ & _ & Stmp & Gtmp).
  destruct (cat2_inv tmp1' tmp2' tmp' _ _ _ _ _ _ St1' St2' Htmp')
    as (_ & _ & Stmp' & Gtmp').
  assert (Atmp : agree_tbf b_len (mid_dim + mid_dim) tmp tmp' t).
  { intros b Hb k Hk. unfold slice. rewrite Gtmp, Gtmp'.
    destruct (k <? mid_dim) eqn:E1.
    - apply Nat.ltb_lt in E1. apply (At1 b Hb k E1).
    - apply Nat.ltb_ge in E1.
      destruct (k - mid_dim <? mid_dim) eqn:E2; [|reflexivity].
      apply Nat.ltb_lt in E2. apply (At2 b Hb (k - mid_dim) E2). }
  bind_open Hfw as o Ho. bind_open Hfw' as o' Ho'.
  inversion Hfw. inversion Hfw'. subst o o' h h'.
  apply (block_agree _ _ _ _ _ _ _ _ _ _ _ _ _ _ _ _ Hmo (or_intror eq_refl)
           Stmp Stmp' Ho Ho' Ht Atmp).
Qed.

End Window.

(** ** C5: one time step at a time against one call on the sequence *)

(** *** A stack of recurrent layers, one batch element *)

Section Stack.
Context {R : Type} {SR : Scalar R}.
Variable St : Type.
Variable cell : nat -> vec R -> St -> St.
Variable out : St -> vec R.
(** [same s s']: two states hold the same hidden values. *)
Variable same : St -> St -> Prop.
(** Width of the rows layer [l] reads, and of the rows every layer returns. *)
Variable width : nat -> nat.
Variable hidden : nat.
Hypothesis width_S : forall l, width (S l) = hidden.
Hypothesis cell_ext :
  forall l x x' s s', veq (width l) x x' -> same s s' ->
                      same (cell l x s) (cell l x' s').
Hypothesis out_ext : forall s s', same s s' -> veq hidden (out s) (out s').


(** Equal inputs and equal initial states give equal inputs of every layer
    and equal states. *)
Lemma stack_ext (init init' : nat -> St) (xs xs' : nat -> vec R) (n : nat) :
  (forall l, same (init l) (init' l)) ->
  (forall t, t < n -> veq (width 0) (xs t) (xs' t)) ->
  forall l,
    (forall t, t < n ->
       veq (width l) (nn.layer_input cell out init xs l t)
         (nn.layer_input cell out init' xs' l t)) /\
    (forall t, t <= n ->
       same (nn.layer_state cell out init xs l t)
         (nn.layer_state cell out init' xs' l t)).
Proof.
  intros Hinit Hxs. induction l as [|l [IHi IHs]].
  - split; [exact Hxs|].
    induction t as [|t IHt]; intros Ht.
    + apply Hinit.
    + unfold nn.layer_state. cbn [nn.run nn.layer_input].
      apply cell_ext; [apply Hxs; lia | apply IHt; lia].
  - assert (Hi : forall t, t < n ->
               veq (width (S l)) (nn.layer_input cell out init xs (S l) t)
                 (nn.layer_input cell out init' xs' (S l) t)).
    { intros t Ht. rewrite width_S. cbn [nn.layer_input].
      apply out_ext. apply (IHs (S t)). lia. }
    split; [exact Hi|].
    induction t as [|t IHt]; intros Ht.
    + apply Hinit.
    + unfold nn.layer_state. cbn [nn.run].
      apply cell_ext; [apply Hi; lia | apply IHt; lia].
Qed.

End Stack.

(** *** The recurrent layers on tensors *)

Section Recurrent.
Context {R : Type} {SR : Scalar R}.

Lemma gates_i_ext (self : nn.RNNBase) (l : nat) (x x' : vec R) (j : nat) :
  veq (nn.in_width self l) x x' -> nn.gates_i self l x j = nn.gates_i self l x' j.
Proof. intros H. unfold nn.gates_i. apply affine_ext. exact H. Qed.

Lemma gates_h_ext (self : nn.RNNBase) (l : nat) (h h' : vec R) (j : nat) :
  veq (nn.hidden_size self) h h' -> nn.gates_h self l h j = nn.gates_h self l h' j.
Proof. intros H. unfold nn.gates_h. apply affine_ext. exact H. Qed.

Lemma lstm_cell_ext (self : nn.RNNBase) (l : nat) (x x' : vec R)
    (s s' : vec R * vec R) :
  veq (nn.in_width self l) x x' ->
  same_lstm (nn.hidden_size self) s s' ->
  same_lstm (nn.hidden_size self) (nn.lstm_cell self l x s)
    (nn.lstm_cell self l x' s').
Proof.
  intros Hx [Hh Hc].
  assert (Hc' : veq (nn.hidden_size self) (snd (nn.lstm_cell self l x s))
                  (snd (nn.lstm_cell self l x' s'))).
  { intros j Hj. unfold nn.lstm_cell. cbn [snd].
    rewrite !(gates_i_ext self l x x' _ Hx),
      !(gates_h_ext self l (fst s) (fst s') _ Hh), (Hc j Hj).
    reflexivity. }
  split; [|exact Hc'].
  intros j Hj. specialize (Hc' j Hj).
  unfold nn.lstm_cell in Hc' |- *. cbn [fst snd] in Hc' |- *.
  rewrite Hc'.
  rewrite !(gates_i_ext self l x x' _ Hx),
    !(gates_h_ext self l (fst s) (fst s') _ Hh).
  reflexivity.
Qed.

Lemma gru_cell_ext (self : nn.RNNBase) (l : nat) (x x' h h' : vec R) :
  veq (nn.in_width self l) x x' ->
  veq (nn.hidden_size self) h h' ->
  veq (nn.hidden_size self) (nn.gru_cell self l x h) (nn.gru_cell self l x' h').
Proof.
  intros Hx Hh j Hj. unfold nn.gru_cell.
  rewrite !(gates_i_ext self l x x' _ Hx), !(gates_h_ext self l h h' _ Hh),
    (Hh j Hj).
  reflexivity.
Qed.

Lemma in_width_S (self : nn.RNNBase (R := R)) (l : nat) :
  nn.in_width self (S l) = nn.hidden_size self.
Proof. reflexivity. Qed.

Lemma hidden_ok_refl (self : nn.RNNBase) (b_len : nat) (f : list nat -> R) :
  nn.hidden_ok self b_len
    (Tensor [nn.num_layers self; b_len; nn.hidden_size self] f) = true.
Proof. unfold nn.hidden_ok. apply list_eq_dec_true. reflexivity. Qed.

(** A call of the LSTM on [t_len] time steps, from states [states], on rows
    [u b t]. *)
Lemma LSTM_forward_states (self : nn.RNNBase) (x : tensor R) (hx : value R)
    (t_len b_len : nat) (states : nat -> nat -> vec R * vec R)
    (u : nat -> nat -> vec R) :
  shape x = [t_len; b_len; nn.input_size self] ->
  lstm_states self b_len hx states ->
  (forall t b, t < t_len -> b < b_len ->
     veq (nn.input_size self) (slice x t b) (u b t)) ->
  exists y hx',
    nn.LSTM_forward self x hx = Some (y, hx') /\
    shape y = [t_len; b_len; nn.hidden_size self] /\
    (forall t b, t < t_len -> b < b_len ->
       veq (nn.in_width self (nn.num_layers self)) (slice y t b)
         (nn.layer_input (nn.lstm_cell self) fst (states b) (u b)
            (nn.num_layers self) t)) /\
    lstm_states self b_len hx'
      (fun b l => nn.layer_state (nn.lstm_cell self) fst (states b) (u b) l t_len).
Proof.
  intros Hx (h0 & c0 & Hhx & Hst) Hu.
  unfold nn.LSTM_forward. rewrite Hx, Nat.eqb_refl, Hhx. cbn [guard bind].
  eexists. eexists. split; [reflexivity|]. split; [reflexivity|].
  assert (Hext : forall b, b < b_len -> forall l,
             (forall t, t < t_len ->
                veq (nn.in_width self l)
                  (nn.layer_input (nn.lstm_cell self) fst
                     (fun l' => (nn.hidden_row h0 l' b, nn.hidden_row c0 l' b))
                     (fun t' k => get x [t'; b; k]) l t)
                  (nn.layer_input (nn.lstm_cell self) fst (states b) (u b) l t)) /\
             (forall t, t <= t_len ->
                same_lstm (nn.hidden_size self)
                  (nn.layer_state (nn.lstm_cell self) fst
                     (fun l' => (nn.hidden_row h0 l' b, nn.hidden_row c0 l' b))
                     (fun t' k => get x [t'; b; k]) l t)
                  (nn.layer_state (nn.lstm_cell self) fst (states b) (u b) l t))).
  { intros b Hb.
    apply (stack_ext (vec R * vec R) (nn.lstm_cell self) fst
             (same_lstm (nn.hidden_size self)) (nn.in_width self)
             (nn.hidden_size self) (in_width_S self) (lstm_cell_ext self)
             (fun s s' H => proj1 H)).
    - intros l. apply Hst. exact Hb.
    - intros t Ht. apply (Hu t b Ht Hb). }
  split.
  - intros t b Ht Hb. apply (proj1 (Hext b Hb (nn.num_layers self)) t Ht).
  - eexists. eexists. split.
    + cbn [nn.LSTM_hx]. rewrite !hidden_ok_refl. reflexivity.
    + intros b l Hb. apply (proj2 (Hext b Hb l) t_len). lia.
Qed.

(** The same for the GRU. *)
Lemma GRU_forward_states (self : nn.RNNBase) (x : tensor R) (hx : value R)
    (t_len b_len : nat) (states : nat -> nat -> vec R)
    (u : nat -> nat -> vec R) :
  shape x = [t_len; b_len; nn.input_size self] ->
  gru_states self b_len hx states ->
  (forall t b, t < t_len -> b < b_len ->
     veq (nn.input_size self) (slice x t b) (u b t)) ->
  exists y hx',
    nn.GRU_forward self x hx = Some (y, hx') /\
    shape y = [t_len; b_len; nn.hidden_size self] /\
    (forall t b, t < t_len -> b < b_len ->
       veq (nn.in_width self (nn.num_layers self)) (slice y t b)
         (nn.layer_input (nn.gru_cell self) (fun h => h) (states b) (u b)
            (nn.num_layers self) t)) /\
    gru_states self b_len hx'
      (fun b l => nn.layer_state (nn.gru_cell self) (fun h => h) (states b)
                    (u b) l t_len).
Proof.
  intros Hx (h0 & Hhx & Hst) Hu.
  unfold nn.GRU_forward. rewrite Hx, Nat.eqb_refl, Hhx. cbn [guard bind].
  eexists. eexists. split; [reflexivity|]. split; [reflexivity|].
  assert (Hext : forall b, b < b_len -> forall l,
             (forall t, t < t_len ->
                veq (nn.in_width self l)
                  (nn.layer_input (nn.gru_cell self) (fun h => h)
                     (fun l' => nn.hidden_row h0 l' b)
                     (fun t' k => get x [t'; b; k]) l t)
                  (nn.layer_input (nn.gru_cell self) (fun h => h) (states b)
                     (u b) l t)) /\
             (forall t, t <= t_len ->
                veq (nn.hidden_size self)
                  (nn.layer_state (nn.gru_cell self) (fun h => h)
                     (fun l' => nn.hidden_row h0 l' b)
                     (fun t' k => get x [t'; b; k]) l t)
                  (nn.layer_state (nn.gru_cell self) (fun h => h) (states b)
                     (u b) l t))).
  { intros b Hb.
    apply (stack_ext (vec R) (nn.gru_cell self) (fun h => h)
             (veq (nn.hidden_size self)) (nn.in_width self)
             (nn.hidden_size self) (in_width_S self) (gru_cell_ext self)
             (fun s s' H => H)).
    - intros l. apply Hst. exact Hb.
    - intros t Ht. apply (Hu t b Ht Hb). }
  split.
  - intros t b Ht Hb. apply (proj1 (Hext b Hb (nn.num_layers self)) t Ht).
  - eexists. split.
    + cbn [nn.GRU_hx]. rewrite hidden_ok_refl. reflexivity.
    + intros b l Hb. apply (proj2 (Hext b Hb l) t_len). lia.
Qed.

End Recurrent.

(** *** One call of the recurrent network, row by row *)

Section RnnRows.
Context {R : Type} {SR : Scalar R}.
Variables inp_dim mid_dim out_dim num_layers : nat.
Variable params : state_dict R.
Variable rnn : RnnRegNet.t (R := R).
Hypothesis rnn_built :
  RnnRegNet.init inp_dim mid_dim out_dim num_layers params = Some rnn.

Lemma rnn_fields :
  exists m1 m2 mi mo,
    NnSeqBnMLP.init [mid_dim; mid_dim; mid_dim] false false (Some GELU)
      (sub params (Name "mlp1")) = Some m1 /\
    NnSeqBnMLP.init [mid_dim; mid_dim; mid_dim] false false (Some GELU)
      (sub params (Name "mlp2")) = Some m2 /\
    NnSeqBnMLP.init [inp_dim; mid_dim; mid_dim] false false (Some GELU)
      (sub params (Name "mlp_inp")) = Some mi /\
    NnSeqBnMLP.init [mid_dim * 2; mid_dim * 2; out_dim] false false (Some Tanh)
      (sub params (Name "mlp_out")) = Some mo /\
    RnnRegNet.mlp1 rnn = m1 /\ RnnRegNet.mlp2 rnn = m2 /\
    RnnRegNet.mlp_inp rnn = mi /\ RnnRegNet.mlp_out rnn = mo /\
    nn.input_size (RnnRegNet.rnn1 rnn) = mid_dim /\
    nn.hidden_size (RnnRegNet.rnn1 rnn) = mid_dim /\
    nn.num_layers (RnnRegNet.rnn1 rnn) = num_layers /\
    nn.input_size (RnnRegNet.rnn2 rnn) = mid_dim /\
    nn.hidden_size (RnnRegNet.rnn2 rnn) = mid_dim /\
    nn.num_layers (RnnRegNet.rnn2 rnn) = num_layers /\
    nn.mode (RnnRegNet.rnn1 rnn) = nn.LSTM /\
    nn.mode (RnnRegNet.rnn2 rnn) = nn.GRU.
Proof.
  pose proof rnn_built as Hinit. unfold RnnRegNet.init in Hinit.
  bind_open Hinit as m1 Hm1. bind_open Hinit as m2 Hm2.
  bind_open Hinit as mi Hmi. bind_open Hinit as mo Hmo.
  inversion Hinit. exists m1, m2, mi, mo. cbn. tauto.
Qed.

Lemma rnn_in_width (self : nn.RNNBase (R := R)) (l : nat) :
  nn.input_size self = mid_dim -> nn.hidden_size self = mid_dim ->
  nn.in_width self l = mid_dim.
Proof. intros Hi Hh. unfold nn.in_width. destruct (l =? 0); assumption. Qed.

(** The slices of what a block of the network returns are [seq_row] of
    rows that agree with its input slices. *)
Lemma block_rows (a b c : nat) (act : module R) (p : state_dict R)
    (self : NnSeqBnMLP.t) (training : bool) (seq : tensor R)
    (t_len b_len : nat) (u : nat -> nat -> vec R) :
  NnSeqBnMLP.init [a; b; c] false false (Some act) p = Some self ->
  act = GELU \/ act = Tanh ->
  shape seq = [t_len; b_len; a] ->
  0 < t_len * b_len ->
  (forall t i, t < t_len -> i < b_len -> veq a (slice seq t i) (u i t)) ->
  exists out,
    NnSeqBnMLP.forward self training seq = Some out /\
    shape out = [t_len; b_len; c] /\
    forall t i, t < t_len -> i < b_len ->
      veq c (slice out t i) (seq_row (NnSeqBnMLP.mlp self) (u i t)).
Proof.
  intros Hinit Hact Hseq Hpos Hu.
  destruct (block_forward_ok a b c false act p self training seq t_len b_len
              Hinit Hact Hseq Hpos) as (out & Hout).
  destruct (init3_widths a b c false act p self Hinit Hact) as (Hw & _ & Hrow).
  destruct (NnSeqBnMLP_forward_inv self training seq out t_len b_len a Hseq Hout)
    as (_ & c' & Hw' & Hso & Hsl).
  assert (c' = c) by congruence. subst c'.
  exists out. split; [exact Hout|]. split; [exact Hso|].
  intros t i Ht Hi k Hk. rewrite (Hsl (Hrow training) t i Ht Hi k Hk).
  apply (seq_row_ext (NnSeqBnMLP.mlp self) a c); [exact Hw | | exact Hk].
  apply Hu; assumption.
Qed.

(** One call of the network from the states [s1], [s2]. *)
Lemma RnnRegNet_forward_rows (training : bool) (inp : tensor R) (hid : value R)
    (t_len b_len : nat) (s1 : nat -> nat -> vec R * vec R)
    (s2 : nat -> nat -> vec R) :
  shape inp = [t_len; b_len; inp_dim] ->
  0 < t_len * b_len ->
  hid_states rnn b_len hid s1 s2 ->
  exists out hid',
    RnnRegNet.forward rnn training inp hid = Some (out, hid') /\
    shape out = [t_len; b_len; out_dim] /\
    (forall t b, t < t_len -> b < b_len ->
       veq out_dim (slice out t b)
         (out_rows mid_dim num_layers rnn s1 s2 (proj_rows rnn inp) b t)) /\
    hid_states rnn b_len hid'
      (fun b l => nn.layer_state (nn.lstm_cell (RnnRegNet.rnn1 rnn)) fst (s1 b)
                    (proj_rows rnn inp b) l t_len)
      (fun b l => nn.layer_state (nn.gru_cell (RnnRegNet.rnn2 rnn)) (fun h => h)
                    (s2 b) (proj_rows rnn inp b) l t_len).
Proof.
  intros Hinp Hpos (hid1 & hid2 & Hhid & Hs1 & Hs2).
  destruct rnn_fields as (m1 & m2 & mi & mo & Hm1 & Hm2 & Hmi & Hmo &
    E1 & E2 & Ei & Eo & I1 & H1 & L1 & I2 & H2 & L2 & M1 & M2).
  unfold RnnRegNet.forward, nn.RNN_forward. rewrite Hhid, M1, M2.
  cbn [bind].
  (* the projection *)
  destruct (block_rows inp_dim mid_dim mid_dim GELU _ mi training inp t_len b_len
              (fun b t => slice inp t b) Hmi (or_introl eq_refl) Hinp Hpos)
    as (x & Hx & Sx & Rx).
  { intros t i Ht Hi k Hk. reflexivity. }
  rewrite Ei, Hx. cbn [bind].
  (* the LSTM branch *)
  destruct (LSTM_forward_states (RnnRegNet.rnn1 rnn) x hid1 t_len b_len s1
              (proj_rows rnn inp)) as (r1 & h1 & Hr1 & Sr1 & Rr1 & Hh1).
  { rewrite I1. exact Sx. }
  { exact Hs1. }
  { intros t b Ht Hb. rewrite I1. unfold proj_rows. rewrite Ei.
    apply (Rx t b Ht Hb). }
  rewrite Hr1. cbn [bind]. rewrite H1 in Sr1.
  rewrite (rnn_in_width _ _ I1 H1) in Rr1. rewrite L1 in Rr1.
  destruct (block_rows mid_dim mid_dim mid_dim GELU _ m1 training r1 t_len b_len
              (fun b t => nn.layer_input (nn.lstm_cell (RnnRegNet.rnn1 rnn)) fst
                            (s1 b) (proj_rows rnn inp b) num_layers t)
              Hm1 (or_introl eq_refl) Sr1 Hpos Rr1) as (tmp1 & Ht1 & St1 & Rt1).
  rewrite E1, Ht1. cbn [bind].
  (* the GRU branch *)
  destruct (GRU_forward_states (RnnRegNet.rnn2 rnn) x hid2 t_len b_len s2
              (proj_rows rnn inp)) as (r2 & h2 & Hr2 & Sr2 & Rr2 & Hh2).
  { rewrite I2. exact Sx. }
  { exact Hs2. }
  { intros t b Ht Hb. rewrite I2. unfold proj_rows. rewrite Ei.
    apply (Rx t b Ht Hb). }
  rewrite Hr2. cbn [bind]. rewrite H2 in Sr2.
  rewrite (rnn_in_width _ _ I2 H2) in Rr2. rewrite L2 in Rr2.
  destruct (block_rows mid_dim mid_dim mid_dim GELU _ m2 training r2 t_len b_len
              (fun b t => nn.layer_input (nn.gru_cell (RnnRegNet.rnn2 rnn))
                            (fun h => h) (s2 b) (proj_rows rnn inp b) num_layers t)
              Hm2 (or_introl eq_refl) Sr2 Hpos Rr2) as (tmp2 & Ht2 & St2 & Rt2).
  rewrite E2, Ht2. cbn [bind].
  (* the concatenation and the final block *)
  destruct (cat2_ok tmp1 tmp2 t_len b_len mid_dim mid_dim St1 St2) as (tmp & Htmp).
  destruct (cat2_inv tmp1 tmp2 tmp _ _ _ _ _ _ St1 St2 Htmp)
    as (_ & _ & Stmp & Gtmp).
  rewrite Htmp. cbn [bind].
  replace (mid_dim + mid_dim) with (mid_dim * 2) in Stmp by lia.
  destruct (block_rows (mid_dim * 2) (mid_dim * 2) out_dim Tanh _ mo training tmp
              t_len b_len
              (fun b t =>
                 fuse mid_dim
                   (seq_row (NnSeqBnMLP.mlp m1)
                      (nn.layer_input (nn.lstm_cell (RnnRegNet.rnn1 rnn)) fst
                         (s1 b) (proj_rows rnn inp b) num_layers t))
                   (seq_row (NnSeqBnMLP.mlp m2)
                      (nn.layer_input (nn.gru_cell (RnnRegNet.rnn2 rnn))
                         (fun h => h) (s2 b) (proj_rows rnn inp b) num_layers t)))
              Hmo (or_intror eq_refl) Stmp Hpos) as (out & Hout & Sout & Rout).
  { intros t i Ht Hi k Hk. unfold slice at 1. rewrite Gtmp. unfold fuse.
    destruct (k <? mid_dim) eqn:Ek.
    - apply Nat.ltb_lt in Ek. apply (Rt1 t i Ht Hi k Ek).
    - destruct (k - mid_dim <? mid_dim) eqn:Ek'; [|reflexivity].
      apply Nat.ltb_lt in Ek'. apply (Rt2 t i Ht Hi (k - mid_dim) Ek'). }
  rewrite Eo, Hout. cbn [bind].
  exists out, (VTuple [h1; h2]). split; [reflexivity|]. split; [exact Sout|].
  split.
  - intros t b Ht Hb. unfold out_rows. rewrite E1, E2, Eo.
    apply (Rout t b Ht Hb).
  - exists h1, h2. split; [reflexivity|]. split; assumption.
Qed.

End RnnRows.

(** *** Concatenating single time steps along the time axis *)

Section CatTime.
Context {R : Type} {SR : Scalar R}.




End CatTime.

(** *** The loop of the self-test *)

Section StepByStep.
Context {R : Type} {SR : Scalar R}.
Variables inp_dim mid_dim out_dim num_layers : nat.
Variable params : state_dict R.
Variable rnn : RnnRegNet.t (R := R).
Hypothesis rnn_built :
  RnnRegNet.init inp_dim mid_dim out_dim num_layers params = Some rnn.
Variable training : bool.
Variable input_seq : tensor R.
Variables seq_length b_len : nat.
Hypothesis input_shape : shape input_seq = [seq_length; b_len; inp_dim].
Hypothesis batch_pos : 0 < b_len.

Lemma same_lstm_trans (n : nat) (s s' s'' : vec R * vec R) :
  same_lstm n s s' -> same_lstm n s' s'' -> same_lstm n s s''.
Proof.
  intros [H1 H2] [H1' H2']. split; intros k Hk.
  - rewrite (H1 k Hk). apply H1'. exact Hk.
  - rewrite (H2 k Hk). apply H2'. exact Hk.
Qed.

Lemma hid_states_same (hid : value R)
    (s1 s1' : nat -> nat -> vec R * vec R) (s2 s2' : nat -> nat -> vec R) :
  hid_states rnn b_len hid s1 s2 ->
  (forall b l, b < b_len ->
     same_lstm (nn.hidden_size (RnnRegNet.rnn1 rnn)) (s1 b l) (s1' b l)) ->
  (forall b l, b < b_len ->
     veq (nn.hidden_size (RnnRegNet.rnn2 rnn)) (s2 b l) (s2' b l)) ->
  hid_states rnn b_len hid s1' s2'.
Proof.
  intros (hid1 & hid2 & Hhid & (h0 & c0 & Hhx & Hs1) & (g0 & Hgx & Hs2)) H1 H2.
  exists hid1, hid2. split; [exact Hhid|]. split.
  - exists h0, c0. split; [exact Hhx|]. intros b l Hb.
    apply (same_lstm_trans _ _ (s1 b l)); [apply Hs1 | apply H1]; exact Hb.
  - exists g0. split; [exact Hgx|]. intros b l Hb k Hk.
    rewrite (Hs2 b l Hb k Hk). apply H2; assumption.
Qed.

Lemma hid_states_None :
  hid_states rnn b_len VNone (lstm_at rnn input_seq 0) (gru_at rnn input_seq 0).
Proof.
  exists VNone, VNone. split; [reflexivity|]. split.
  - eexists. eexists. split; [reflexivity|].
    intros b l Hb. split; intros k Hk; reflexivity.
  - eexists. split; [reflexivity|]. intros b l Hb k Hk. reflexivity.
Qed.





End StepByStep.

(** ** The convolutional network accepts every well-shaped input *)

Section Success.
Context {R : Type} {SR : Scalar R}.

Lemma DilatedCNN_forward_ok (mid kernel_size dilation : nat) (p : state_dict R)
    (training : bool) (x : tensor R) (n l : nat) :
  shape x = [n; mid; l] ->
  training = false \/ 1 < n * l ->
  exists y,
    DilatedCNN.forward (DilatedCNN.init mid mid kernel_size dilation p) training x
      = Some y.
Proof.
  intros Hx Hmode. unfold DilatedCNN.forward, nn.Conv1d_forward.
  cbn [DilatedCNN.conv DilatedCNN.bn DilatedCNN.init nn.in_channels
       nn.out_channels nn.kernel_size nn.dilation nn.conv_params].
  rewrite Hx, Nat.eqb_refl. cbn [guard bind].
  unfold nn.module_forward, nn.BatchNorm1d_forward. cbn [shape].
  rewrite Nat.eqb_refl. cbn [guard bind].
  destruct training; [|eexists; reflexivity].
  unfold nn.channel. cbn [shape fst].
  destruct Hmode as [Hf|Hn]; [discriminate|].
  assert (E : (n * l =? 1) = false) by (apply Nat.eqb_neq; lia).
  rewrite E. eexists. reflexivity.
Qed.

Lemma cnn_branch_ok (mid kernel_size dilation : nat) (training : bool)
    (ps : list (state_dict R)) :
  forall (x : tensor R) (n l : nat),
    shape x = [n; mid; l] ->
    training = false \/ 1 < n * l ->
    exists y,
      apply_layers (fun layer => DilatedCNN.forward layer training)
        (map (DilatedCNN.init mid mid kernel_size dilation) ps) x = Some y.
Proof.
  induction ps as [|p ps IH]; intros x n l Hx Hmode; cbn [map apply_layers].
  - eexists. reflexivity.
  - destruct (DilatedCNN_forward_ok mid kernel_size dilation p training x n l
                Hx Hmode) as (x1 & H1).
    rewrite H1. cbn [bind].
    destruct (DilatedCNN_forward_shape mid kernel_size dilation p training
                x x1 n mid l Hx H1) as (_ & Hs1).
    apply (IH x1 n l Hs1 Hmode).
Qed.

(** The convolutional network succeeds on every [(T, B, inp_dim)] input with
    [T, B >= 1], in evaluation mode or when a channel has more than one
    value. *)
Lemma DilatedCNNRegNet_forward_ok
    (inp_dim mid_dim out_dim num_layers kernel_size dilation : nat)
    (params : state_dict R) (self : DilatedCNNRegNet.t) (training : bool)
    (H : Type) (inp : tensor R) (hid : H) (t_len b_len : nat) :
  DilatedCNNRegNet.init inp_dim mid_dim out_dim num_layers kernel_size dilation
    params = Some self ->
  shape inp = [t_len; b_len; inp_dim] ->
  0 < t_len * b_len ->
  training = false \/ 1 < b_len * t_len ->
  exists out, DilatedCNNRegNet.forward self training inp hid = Some (out, VNone).
Proof.
  intros Hinit Hinp Hpos Hmode. unfold DilatedCNNRegNet.init in Hinit.
  bind_open Hinit as mi Hmi. bind_open Hinit as m1 Hm1.
  bind_open Hinit as m2 Hm2. bind_open Hinit as mo Hmo.
  inversion Hinit. subst self. clear Hinit.
  unfold DilatedCNNRegNet.forward.
  cbn [DilatedCNNRegNet.mlp_inp DilatedCNNRegNet.cnn_branch1
       DilatedCNNRegNet.cnn_branch2 DilatedCNNRegNet.mlp1
       DilatedCNNRegNet.mlp2 DilatedCNNRegNet.mlp_out].
  destruct (block_forward_ok _ _ _ _ _ _ _ training inp _ _ Hmi
              (or_introl eq_refl) Hinp Hpos) as (x & Hx).
  destruct (block_forward_shape _ _ _ _ _ _ _ _ _ _ _ _ _ Hmi (or_introl eq_refl)
              Hinp Hx) as (_ & Sx & _).
  rewrite Hx. cbn [bind].
  destruct (permute_120 x _ _ _ Sx) as (xp & Hxp & Sxp & _).
  rewrite Hxp. cbn [bind].
  assert (Hbranch : forall name : string,
            exists o op,
              apply_layers (fun layer => DilatedCNN.forward layer training)
                (map (fun i => DilatedCNN.init mid_dim mid_dim kernel_size dilation
                                 (sub (sub params (Name name)) (Idx i)))
                   (seq 0 num_layers)) xp = Some o /\
              th.permute o [2; 0; 1] = Some op /\
              shape op = [t_len; b_len; mid_dim]).
  { intros name.
    destruct (cnn_branch_ok mid_dim kernel_size dilation training
                (map (fun i => sub (sub params (Name name)) (Idx i))
                   (seq 0 num_layers)) xp b_len t_len Sxp Hmode) as (o & Ho).
    rewrite map_map in Ho.
    pose proof (cnn_branch_shape _ _ _ _ _ _ _ _ _ _ Sxp Ho) as So.
    destruct (permute_201 o _ _ _ So) as (op & Hop & Sop & _).
    exists o, op. tauto. }
  destruct (Hbranch "cnn_branch1"%string) as (o1 & o1p & Ho1 & Ho1p & S1).
  rewrite Ho1. cbn [bind]. rewrite Ho1p. cbn [bind].
  destruct (block_forward_ok _ _ _ _ _ _ _ training o1p _ _ Hm1
              (or_introl eq_refl) S1 Hpos) as (tmp1 & Ht1).
  destruct (block_forward_shape _ _ _ _ _ _ _ _ _ _ _ _ _ Hm1 (or_introl eq_refl)
              S1 Ht1) as (_ & St1 & _).
  rewrite Ht1. cbn [bind].
  destruct (Hbranch "cnn_branch2"%string) as (o2 & o2p & Ho2 & Ho2p & S2).
  rewrite Ho2. cbn [bind]. rewrite Ho2p. cbn [bind].
  destruct (block_forward_ok _ _ _ _ _ _ _ training o2p _ _ Hm2
              (or_introl eq_refl) S2 Hpos) as (tmp2 & Ht2).
  destruct (block_forward_shape _ _ _ _ _ _ _ _ _ _ _ _ _ Hm2 (or_introl eq_refl)
              S2 Ht2) as (_ & St2 & _).
  rewrite Ht2. cbn [bind].
  destruct (cat2_ok tmp1 tmp2 t_len b_len mid_dim mid_dim St1 St2) as (tmp & Htmp).
  destruct (cat2_inv tmp1 tmp2 tmp _ _ _ _ _ _ St1 St2 Htmp) as (_ & _ & Stmp & _).
  rewrite Htmp. cbn [bind].
  replace (mid_dim + mid_dim) with (mid_dim * 2) in Stmp by lia.
  destruct (block_forward_ok _ _ _ _ _ _ _ training tmp _ _ Hmo
              (or_intror eq_refl) Stmp Hpos) as (out & Hout).
  rewrite Hout. cbn [bind]. exists out. reflexivity.
Qed.

End Success.

(** * Further properties of the code *)

(** ** Which inputs a block accepts *)

Section Acceptance.
Context {R : Type} {SR : Scalar R}.

Lemma module_width_kind (m : module R) (c : nat) :
  module_width m c = kind_width (kind_of m) c.
Proof. destruct m; reflexivity. Qed.

Lemma seq_width_kinds (ms : list (module R)) :
  forall c, seq_width ms c = kinds_width (map kind_of ms) c.
Proof.
  induction ms as [|m ms IH]; intros c; simpl; [reflexivity|].
  rewrite module_width_kind. destruct (kind_width (kind_of m) c); simpl;
    [apply IH | reflexivity].
Qed.

Lemma kinds_width_app (ks ks' : list layer_kind) :
  forall c, kinds_width (ks ++ ks') c = (c' <- kinds_width ks c ;; kinds_width ks' c').
Proof.
  induction ks as [|k ks IH]; intros c; simpl; [reflexivity|].
  destruct (kind_width k c); simpl; [apply IH | reflexivity].
Qed.

Lemma round_width (dims : list nat) (if_layer_norm : bool) (i : nat) :
  kinds_width (spec_round dims if_layer_norm i) (nth i dims 0)
    = Some (nth (i + 1) dims 0).
Proof.
  unfold spec_round.
  destruct if_layer_norm; cbn [app kinds_width kind_width guard bind];
    repeat (rewrite Nat.eqb_refl; cbn [guard bind]); reflexivity.
Qed.

Lemma rounds_width (dims : list nat) (if_layer_norm : bool) (n : nat) :
  forall i,
    kinds_width (flat_map (spec_round dims if_layer_norm) (seq i n))
      (nth i dims 0) = Some (nth (i + n) dims 0).
Proof.
  induction n as [|n IH]; intros i.
  - simpl. rewrite Nat.add_0_r. reflexivity.
  - cbn [seq flat_map]. rewrite kinds_width_app, round_width. cbn [bind].
    replace (i + 1) with (S i) by lia. rewrite IH.
    replace (S i + n) with (i + S n) by lia. reflexivity.
Qed.

Lemma last_is_nth (dims : list nat) :
  last dims 0 = nth (List.length dims - 1) dims 0.
Proof.
  induction dims as [|a [|b l] IH]; try reflexivity.
  change (last (a :: b :: l) 0) with (last (b :: l) 0). rewrite IH.
  simpl. rewrite Nat.sub_0_r. reflexivity.
Qed.

Lemma spec_stack_rounds (dims : list nat) (if_inp_norm if_layer_norm : bool) :
  spec_stack dims if_inp_norm if_layer_norm
    = (if if_inp_norm then [KBatchNorm1d (nth 0 dims 0)] else [])
      ++ [KLinear (nth 0 dims 0) (nth 1 dims 0)]
      ++ flat_map (spec_round dims if_layer_norm)
           (seq 1 (List.length dims - 2)).
Proof. reflexivity. Qed.

(** The widths the stack of the constructor takes and returns. *)
Lemma spec_stack_width (dims : list nat) (if_inp_norm if_layer_norm : bool)
    (w w' : nat) :
  2 <= List.length dims ->
  kinds_width (spec_stack dims if_inp_norm if_layer_norm) w = Some w' <->
  w = nth 0 dims 0 /\ w' = last dims 0.
Proof.
  intros Hlen.
  assert (Hok : kinds_width (spec_stack dims if_inp_norm if_layer_norm)
                  (nth 0 dims 0) = Some (last dims 0)).
  { rewrite spec_stack_rounds, kinds_width_app.
    assert (H0 : kinds_width
                   (if if_inp_norm then [KBatchNorm1d (nth 0 dims 0)] else [])
                   (nth 0 dims 0) = Some (nth 0 dims 0)).
    { destruct if_inp_norm; simpl; [rewrite Nat.eqb_refl|]; reflexivity. }
    rewrite H0. cbn [bind app kinds_width kind_width].
    rewrite Nat.eqb_refl. cbn [guard bind].
    rewrite rounds_width, last_is_nth.
    replace (1 + (List.length dims - 2)) with (List.length dims - 1) by lia.
    reflexivity. }
  split.
  - intros H.
    assert (Hw : w = nth 0 dims 0).
    { rewrite spec_stack_rounds in H.
      destruct if_inp_norm; cbn [app kinds_width kind_width] in H.
      - destruct (w =? nth 0 dims 0) eqn:E; [|discriminate].
        apply Nat.eqb_eq in E. exact E.
      - destruct (w =? nth 0 dims 0) eqn:E; [|discriminate].
        apply Nat.eqb_eq in E. exact E. }
    subst w. split; [reflexivity|]. congruence.
  - intros [-> ->]. exact Hok.
Qed.

Lemma rounds_no_batch_norm (dims : list nat) (if_layer_norm : bool)
    (rounds : list nat) :
  forallb (fun k => negb (kind_is_batch_norm k))
    (flat_map (spec_round dims if_layer_norm) rounds) = true.
Proof.
  induction rounds as [|i rounds IH]; [reflexivity|].
  cbn [flat_map]. rewrite forallb_app, IH.
  unfold spec_round. destruct if_layer_norm; reflexivity.
Qed.

Lemma spec_stack_batch_norm (dims : list nat) (if_inp_norm if_layer_norm : bool) :
  forallb (fun k => negb (kind_is_batch_norm k))
    (spec_stack dims if_inp_norm if_layer_norm) = negb if_inp_norm.
Proof.
  rewrite spec_stack_rounds, forallb_app. cbn [app forallb].
  rewrite rounds_no_batch_norm.
  destruct if_inp_norm; reflexivity.
Qed.

Lemma per_row_kinds (training : bool) (ms : list (module R)) :
  per_row training ms
    = negb training
      || forallb (fun k => negb (kind_is_batch_norm k)) (map kind_of ms).
Proof.
  unfold per_row. f_equal. induction ms as [|m ms IH]; [reflexivity|].
  simpl. rewrite IH. destruct m; reflexivity.
Qed.

(** What the constructor builds, for every [dims] it accepts. *)
Lemma init_builds (dims : list nat) (if_inp_norm if_layer_norm : bool)
    (activation : option (module R)) (params : state_dict R) :
  2 <= List.length dims ->
  exists self body,
    NnSeqBnMLP.init dims if_inp_norm if_layer_norm activation params = Some self /\
    NnSeqBnMLP.mlp self
      = body ++ (match activation with Some a => [a] | None => [] end) /\
    map kind_of body = spec_stack dims if_inp_norm if_layer_norm.
Proof.
  intros Hlen. unfold NnSeqBnMLP.init.
  rewrite (nth_error_nth_lt dims 0), (nth_error_nth_lt dims 1) by lia.
  destruct (init_loop_kinds dims if_layer_norm params
              (seq 1 (List.length dims - 1 - 1))
              (fun i Hi => ltac:(apply in_seq in Hi; lia))
              (NnSeqBnMLP.append params
                 (if if_inp_norm
                  then NnSeqBnMLP.append params []
                         (BatchNorm1d (nth 0 dims 0) (9, 10))
                  else [])
                 (Linear (nth 0 dims 0) (nth 1 dims 0))))
    as (body & Hbody & Kbody).
  exists {| NnSeqBnMLP.mlp :=
              match activation with Some a => body ++ [a] | None => body end |}.
  exists body. split; [|split].
  - destruct if_inp_norm; cbn [bind]; rewrite Hbody; reflexivity.
  - simpl. destruct activation; [reflexivity | rewrite app_nil_r; reflexivity].
  - rewrite Kbody.
    rewrite kind_of_append with (k := KLinear (nth 0 dims 0) (nth 1 dims 0))
      by reflexivity.
    unfold spec_stack.
    replace (List.length dims - 1 - 1) with (List.length dims - 2) by lia.
    destruct if_inp_norm; reflexivity.
Qed.

Lemma init_short (dims : list nat) (if_inp_norm if_layer_norm : bool)
    (activation : option (module R)) (params : state_dict R) :
  List.length dims < 2 ->
  NnSeqBnMLP.init dims if_inp_norm if_layer_norm activation params = None.
Proof.
  intros Hlen. destruct dims as [|a [|b l]]; [| |simpl in Hlen; lia];
    unfold NnSeqBnMLP.init; destruct if_inp_norm; reflexivity.
Qed.

(** In training mode a stack that holds a batch normalization refuses a
    single row. *)
Lemma Sequential_forward_single_row (ms : list (module R)) :
  forall (x : tensor R) (c c' : nat),
    shape x = [1; c] ->
    seq_width ms c = Some c' ->
    per_row true ms = false ->
    nn.Sequential_forward ms true x = None.
Proof.
  induction ms as [|m ms IH]; intros x c c' Hx Hw Hbn.
  - discriminate.
  - cbn [seq_width] in Hw. bind_open Hw as c1 Hc1.
    cbn [nn.Sequential_forward].
    destruct (nn.module_forward m true x) as [y|] eqn:Hy; [|reflexivity].
    cbn [bind].
    destruct (module_forward_2d m true x y 1 c Hx Hy) as (c1' & Hc1' & Sy & _).
    assert (c1' = c1) by congruence. subst c1'.
    destruct (is_batch_norm m) eqn:Em.
    + destruct m; try discriminate.
      cbn [nn.module_forward] in Hy. unfold nn.BatchNorm1d_forward in Hy.
      bind_inv Hy. unfold nn.channel in Hy. rewrite Hx in Hy.
      discriminate.
    + apply (IH y c1 c' Sy Hw).
      unfold per_row in Hbn |- *. cbn [negb orb forallb] in Hbn |- *.
      rewrite Em in Hbn. exact Hbn.
Qed.

(** Which 3-D inputs a block accepts. *)
Lemma NnSeqBnMLP_forward_iff (self : NnSeqBnMLP.t) (training : bool)
    (seq : tensor R) (d0 d1 d2 : nat) :
  shape seq = [d0; d1; d2] ->
  (exists out, NnSeqBnMLP.forward self training seq = Some out) <->
  0 < d0 * d1 /\
  (exists c, seq_width (NnSeqBnMLP.mlp self) d2 = Some c) /\
  (per_row training (NnSeqBnMLP.mlp self) = true \/ d0 * d1 <> 1).
Proof.
  intros Hseq. split.
  - intros (out & Hout).
    destruct (NnSeqBnMLP_forward_inv self training seq out d0 d1 d2 Hseq Hout)
      as (Hpos & c & Hw & _).
    split; [exact Hpos|]. split; [exists c; exact Hw|].
    destruct (per_row training (NnSeqBnMLP.mlp self)) eqn:Hrow;
      [left; reflexivity | right].
    intros Hone.
    assert (training = true).
    { destruct training; [reflexivity | discriminate]. }
    subst training.
    unfold NnSeqBnMLP.forward in Hout. rewrite Hseq in Hout.
    bind_open Hout as inp Hinp.
    destruct (reshape_flatten seq d0 d1 d2 Hseq Hpos) as (inp' & Hinp' & Si & _).
    assert (inp' = inp) by congruence. subst inp'.
    rewrite Hone in Si.
    rewrite (Sequential_forward_single_row _ inp d2 c Si Hw Hrow) in Hout.
    discriminate.
  - intros (Hpos & (c & Hw) & Hmode).
    apply (NnSeqBnMLP_forward_ok self training seq d0 d1 d2 c Hseq Hpos Hw).
    destruct Hmode as [Hmode|Hmode]; [left; exact Hmode | right; lia].
Qed.

(** A block built by the constructor with a plain output activation: the
    widths it maps, and when it works row by row. *)
Lemma init_widths (dims : list nat) (if_inp_norm if_layer_norm : bool)
    (activation : option (module R)) (params : state_dict R)
    (self : NnSeqBnMLP.t) :
  NnSeqBnMLP.init dims if_inp_norm if_layer_norm activation params = Some self ->
  plain_activation activation ->
  2 <= List.length dims /\
  (forall w w', seq_width (NnSeqBnMLP.mlp self) w = Some w' <->
                w = nth 0 dims 0 /\ w' = last dims 0) /\
  (forall training,
      per_row training (NnSeqBnMLP.mlp self) = negb (training && if_inp_norm)).
Proof.
  intros Hinit Hact.
  assert (Hlen : 2 <= List.length dims).
  { destruct (le_lt_dec 2 (List.length dims)) as [H|H]; [exact H|].
    rewrite init_short in Hinit by exact H. discriminate. }
  split; [exact Hlen|].
  destruct (init_builds dims if_inp_norm if_layer_norm activation params Hlen)
    as (self' & body & Hinit' & Hmlp & Kbody).
  assert (self' = self) by congruence. subst self'.
  assert (Hkinds : exists tail,
             map kind_of (NnSeqBnMLP.mlp self)
               = spec_stack dims if_inp_norm if_layer_norm ++ tail /\
             (forall c, kinds_width tail c = Some c) /\
             forallb (fun k => negb (kind_is_batch_norm k)) tail = true).
  { rewrite Hmlp, map_app, Kbody.
    destruct Hact as [-> | [-> | ->]]; eexists; (split; [reflexivity|]);
      split; try reflexivity; intros c; reflexivity. }
  destruct Hkinds as (tail & Hk & Htail & Hbn).
  split.
  - intros w w'. rewrite seq_width_kinds, Hk, kinds_width_app.
    rewrite <- (spec_stack_width dims if_inp_norm if_layer_norm w w' Hlen).
    destruct (kinds_width (spec_stack dims if_inp_norm if_layer_norm) w)
      as [c|]; cbn [bind]; [rewrite Htail|]; reflexivity.
  - intros training. rewrite per_row_kinds, Hk, forallb_app.
    rewrite spec_stack_batch_norm, Hbn.
    destruct training, if_inp_norm; reflexivity.
Qed.

End Acceptance.

Section BlockInputs.
Context {R : Type} {SR : Scalar R} {TR : Transformer R}.

(** X1.  The constructor of the block raises (the IndexError of [dims[0]]
    or [dims[1]]) exactly when [dims] has fewer than two entries, whatever
    the flags and the activation. *)
Theorem X1_init_fails_on_short_dims (dims : list nat)
    (if_inp_norm if_layer_norm : bool) (activation : option (module R))
    (params : state_dict R) :
  NnSeqBnMLP.init dims if_inp_norm if_layer_norm activation params = None <->
  List.length dims < 2.
Proof.
  split.
  - intros Hnone. destruct (le_lt_dec 2 (List.length dims)) as [H|H]; [|exact H].
    destruct (init_builds dims if_inp_norm if_layer_norm activation params H)
      as (self & _ & Hself & _).
    congruence.
  - apply init_short.
Qed.

(** X4.  A block built from positive [dims] (with no output activation,
    GELU or Tanh) accepts a [(d0, d1, d2)] input exactly when the input is
    not empty along its first two axes, [d2] is [dims[0]], and, when the
    block normalizes its input and is in training mode, there is more than
    one row; what it returns then has shape [(d0, d1, dims[-1])]. *)
Theorem X4_block_accepts (dims : list nat) (if_inp_norm if_layer_norm : bool)
    (activation : option (module R)) (params : state_dict R)
    (self : NnSeqBnMLP.t) (training : bool) (seq : tensor R) (d0 d1 d2 : nat) :
  NnSeqBnMLP.init dims if_inp_norm if_layer_norm activation params = Some self ->
  Forall (fun d => 1 <= d) dims ->
  plain_activation activation ->
  shape seq = [d0; d1; d2] ->
  ((exists out, NnSeqBnMLP.forward self training seq = Some out) <->
   0 < d0 * d1 /\ d2 = nth 0 dims 0 /\
   (training && if_inp_norm = true -> d0 * d1 <> 1)) /\
  (forall out, NnSeqBnMLP.forward self training seq = Some out ->
               shape out = [d0; d1; last dims 0]).
Proof.
  intros Hinit _ Hact Hseq.
  destruct (init_widths dims if_inp_norm if_layer_norm activation params self
              Hinit Hact) as (_ & Hw & Hrow).
  split.
  - rewrite (NnSeqBnMLP_forward_iff self training seq d0 d1 d2 Hseq), Hrow.
    split.
    + intros (Hpos & (c & Hc) & Hmode). apply Hw in Hc. destruct Hc as [Hd _].
      split; [exact Hpos|]. split; [exact Hd|].
      intros Hbn. rewrite Hbn in Hmode.
      destruct Hmode as [Hmode|Hmode]; [discriminate | exact Hmode].
    + intros (Hpos & Hd & Hmode). split; [exact Hpos|]. split.
      * exists (last dims 0). apply Hw. split; [exact Hd | reflexivity].
      * destruct (training && if_inp_norm); [right; auto | left; reflexivity].
  - intros out Hout.
    destruct (NnSeqBnMLP_forward_inv self training seq out d0 d1 d2 Hseq Hout)
      as (_ & c & Hc & So & _).
    apply Hw in Hc. destruct Hc as [_ ->]. exact So.
Qed.

Lemma NnSeqBnMLP_forward_empty (self : NnSeqBnMLP.t) (training : bool)
    (seq : tensor R) (d0 d1 d2 : nat) :
  shape seq = [d0; d1; d2] ->
  d0 * d1 = 0 ->
  NnSeqBnMLP.forward self training seq = None.
Proof.
  intros Hseq Hz. unfold NnSeqBnMLP.forward, th.reshape. rewrite Hseq.
  rewrite infer_flatten_zero by exact Hz. reflexivity.
Qed.

(** X8.  On a 3-D input with no time step or no batch element the block
    raises ([reshape(0, -1)] cannot infer the second size), and so does the
    [forward] of each of the three networks, whatever the mode and the
    hidden state. *)
Theorem X8_forward_raises_on_empty_sequence (inp : tensor R) (d0 d1 d2 : nat) :
  shape inp = [d0; d1; d2] ->
  d0 * d1 = 0 ->
  (forall (self : NnSeqBnMLP.t) training,
      NnSeqBnMLP.forward self training inp = None) /\
  (forall (self : RnnRegNet.t) training hid,
      RnnRegNet.forward self training inp hid = None) /\
  (forall (H : Type) (self : DilatedCNNRegNet.t) training (hid : H),
      DilatedCNNRegNet.forward self training inp hid = None) /\
  (forall (H : Type) (self : TransformerRegNet.t) training (hid : H),
      TransformerRegNet.forward self training inp hid = None).
Proof.
  intros Hinp Hz.
  assert (E : forall (self : NnSeqBnMLP.t) training,
             NnSeqBnMLP.forward self training inp = None).
  { intros self training.
    apply (NnSeqBnMLP_forward_empty self training inp d0 d1 d2 Hinp Hz). }
  split; [exact E|]. split; [|split].
  - intros self training hid. unfold RnnRegNet.forward.
    destruct (match hid with VNone => Some (VNone, VNone) | _ => unpack2 hid end)
      as [[hid1 hid2]|]; [|reflexivity].
    cbn [bind]. rewrite E. reflexivity.
  - intros H self training hid. unfold DilatedCNNRegNet.forward.
    rewrite E. reflexivity.
  - intros H self training hid. unfold TransformerRegNet.forward.
    rewrite E. reflexivity.
Qed.

(** X5.  The two reshapes of [NnSeqBnMLP.forward] are a round trip: a
    [(d0, d1, d2)] tensor flattened to [(d0 * d1, d2)], row [t * d1 + b]
    being the slice at [(t, b)], and reshaped back to [(d0, d1, -1)] is the
    tensor itself. *)
Theorem X5_flatten_unflatten_round_trip (seq : tensor R) (d0 d1 d2 : nat) :
  shape seq = [d0; d1; d2] ->
  0 < d0 * d1 ->
  exists inp out,
    th.reshape seq [D (d0 * d1); Infer] = Some inp /\
    shape inp = [d0 * d1; d2] /\
    (forall t b, t < d0 -> b < d1 -> veq d2 (row inp (t * d1 + b)) (slice seq t b)) /\
    th.reshape inp [D d0; D d1; Infer] = Some out /\
    teq out seq.
Proof.
  intros Hseq Hpos.
  destruct (reshape_flatten seq d0 d1 d2 Hseq Hpos) as (inp & Hinp & Si & Gi).
  destruct (reshape_unflatten inp d0 d1 d2 Si Hpos) as (out & Hout & So & Go).
  exists inp, out. split; [exact Hinp|]. split; [exact Si|]. split.
  - intros t b Ht Hb k Hk. apply Gi; assumption.
  - split; [exact Hout|]. split; [congruence|].
    intros idx Hidx. rewrite So in Hidx.
    destruct idx as [|t [|b [|k [|]]]]; simpl in Hidx; try tauto.
    destruct Hidx as (Ht & Hb & Hk & _).
    rewrite Go, Gi by assumption. reflexivity.
Qed.

(** X6.  A block built without input normalization (as every block of the
    three networks is) behaves the same in training and in evaluation mode:
    a call in one mode succeeds exactly when the call in the other does, and
    returns the same tensor. *)
Theorem X6_block_without_input_norm_ignores_mode (dims : list nat)
    (if_layer_norm : bool) (activation : option (module R))
    (params : state_dict R) (self : NnSeqBnMLP.t) (training : bool)
    (seq out : tensor R) (d0 d1 d2 : nat) :
  NnSeqBnMLP.init dims false if_layer_norm activation params = Some self ->
  plain_activation activation ->
  shape seq = [d0; d1; d2] ->
  NnSeqBnMLP.forward self training seq = Some out ->
  exists out',
    NnSeqBnMLP.forward self (negb training) seq = Some out' /\ teq out out'.
Proof.
  intros Hinit Hact Hseq Hout.
  destruct (init_widths dims false if_layer_norm activation params self
              Hinit Hact) as (_ & _ & Hrow).
  assert (Hrows : forall mode, per_row mode (NnSeqBnMLP.mlp self) = true).
  { intros mode. rewrite Hrow. destruct mode; reflexivity. }
  destruct (NnSeqBnMLP_forward_inv self training seq out d0 d1 d2 Hseq Hout)
    as (Hpos & c & Hc & So & Hsl).
  destruct (NnSeqBnMLP_forward_ok self (negb training) seq d0 d1 d2 c Hseq Hpos
              Hc (or_introl (Hrows _))) as (out' & Hout').
  destruct (NnSeqBnMLP_forward_inv self (negb training) seq out' d0 d1 d2 Hseq
              Hout') as (_ & c' & Hc' & So' & Hsl').
  assert (c' = c) by congruence. subst c'.
  exists out'. split; [exact Hout'|].
  split; [congruence|].
  intros idx Hidx. rewrite So in Hidx.
  destruct idx as [|t [|b [|k [|]]]]; simpl in Hidx; try tauto.
  destruct Hidx as (Ht & Hb & Hk & _).
  change (slice out t b k = slice out' t b k).
  rewrite (Hsl (Hrows _) t b Ht Hb k Hk), (Hsl' (Hrows _) t b Ht Hb k Hk).
  reflexivity.
Qed.

End BlockInputs.

(** ** The constructor's layers and the initializers *)

Section Initialization.
Context {R : Type} {SR : Scalar R}.

Lemma spec_stack_last (dims : list nat) (if_inp_norm if_layer_norm : bool) :
  2 <= List.length dims ->
  exists front,
    spec_stack dims if_inp_norm if_layer_norm
      = front ++ [KLinear (nth (List.length dims - 2) dims 0) (last dims 0)].
Proof.
  intros Hlen. rewrite spec_stack_rounds, last_is_nth.
  destruct (List.length dims - 2) as [|n] eqn:En.
  - exists (if if_inp_norm then [KBatchNorm1d (nth 0 dims 0)] else []).
    replace (List.length dims - 1) with 1 by lia. reflexivity.
  - exists ((if if_inp_norm then [KBatchNorm1d (nth 0 dims 0)] else [])
            ++ [KLinear (nth 0 dims 0) (nth 1 dims 0)]
            ++ flat_map (spec_round dims if_layer_norm) (seq 1 n)
            ++ [KGELU]
            ++ (if if_layer_norm then [KLayerNorm (nth (S n) dims 0)] else [])).
    rewrite seq_S, flat_map_app. cbn [flat_map]. rewrite app_nil_r.
    unfold spec_round at 2.
    replace (1 + n) with (S n) by lia.
    replace (S n + 1) with (List.length dims - 1) by lia.
    rewrite <- !app_assoc. reflexivity.
Qed.

Lemma kinds_last_linear (ms : list (module R)) (front : list layer_kind)
    (a b : nat) :
  map kind_of ms = front ++ [KLinear a b] ->
  exists pre p, ms = pre ++ [Linear a b p] /\ map kind_of pre = front.
Proof.
  intros H. apply map_eq_app in H. destruct H as (pre & tl & -> & Hpre & Htl).
  destruct tl as [|m [|m' tl]]; try discriminate.
  destruct m; try discriminate. injection Htl as <- <-.
  exists pre, params. split; [reflexivity | exact Hpre].
Qed.

Lemma nth_error_middle {A : Type} (pre : list A) (x : A) (tl : list A) :
  nth_error (pre ++ x :: tl) (List.length pre) = Some x.
Proof. induction pre as [|a pre IH]; [reflexivity | exact IH]. Qed.

Lemma update_middle {A : Type} (pre : list A) (x y : A) (tl : list A) :
  update (List.length pre) y (pre ++ x :: tl) = pre ++ y :: tl.
Proof.
  induction pre as [|a pre IH]; [reflexivity|].
  cbn [List.length app update]. rewrite IH. reflexivity.
Qed.

(** X3.  The layer the constructor hands to
    [layer_init_with_orthogonal] ([mlp[-2]] with an output activation,
    [mlp[-1]] without) is, for every [dims] and flags, the last linear
    layer, from [dims[-2]] to [dims[-1]]: the call never raises, and it
    overwrites that layer's weight (the drawn matrix times 0.1) and bias
    (1e-6) and nothing else. *)
Theorem X3_init_orthogonal_hits_last_linear (dims : list nat)
    (if_inp_norm if_layer_norm : bool) (activation : option (module R))
    (params : state_dict R) (self : NnSeqBnMLP.t) (q : list nat -> R) :
  NnSeqBnMLP.init dims if_inp_norm if_layer_norm activation params = Some self ->
  exists pre p self',
    let tail := match activation with Some a => [a] | None => [] end in
    let d := nth (List.length dims - 2) dims 0 in
    NnSeqBnMLP.mlp self = pre ++ Linear d (last dims 0) p :: tail /\
    NnSeqBnMLP.init_orthogonal self activation q = Some self' /\
    NnSeqBnMLP.mlp self'
      = pre ++ Linear d (last dims 0)
                 (nn_init.assign
                    (nn_init.assign p "weight"
                       (nn_init.orthogonal_ q (frac 1 10)))
                    "bias" (nn_init.constant_ (frac 1 (10 ^ 6))))
               :: tail.
Proof.
  intros Hinit.
  assert (Hlen : 2 <= List.length dims).
  { destruct (le_lt_dec 2 (List.length dims)) as [H|H]; [exact H|].
    rewrite init_short in Hinit by exact H. discriminate. }
  destruct (init_builds dims if_inp_norm if_layer_norm activation params Hlen)
    as (self0 & body & Hinit0 & Hmlp & Kbody).
  assert (self0 = self) by congruence. subst self0.
  destruct (spec_stack_last dims if_inp_norm if_layer_norm Hlen)
    as (front & Hfront).
  rewrite Hfront in Kbody.
  destruct (kinds_last_linear body front _ _ Kbody) as (pre & p & -> & _).
  rewrite <- app_assoc in Hmlp. cbn [app] in Hmlp.
  exists pre, p. eexists. cbn zeta. split; [exact Hmlp|].
  unfold NnSeqBnMLP.init_orthogonal, getitem_neg. rewrite Hmlp.
  assert (Hk : List.length
                 (pre ++ Linear (nth (List.length dims - 2) dims 0)
                           (last dims 0) p
                         :: match activation with Some a => [a] | None => [] end)
               - match activation with Some _ => 2 | None => 1 end
               = List.length pre).
  { rewrite length_app. destruct activation; cbn [List.length]; lia. }
  assert (Hg : (match activation with Some _ => 2 | None => 1 end
                <=? List.length
                      (pre ++ Linear (nth (List.length dims - 2) dims 0)
                                (last dims 0) p
                              :: match activation with
                                 | Some a => [a]
                                 | None => []
                                 end)) = true).
  { apply Nat.leb_le. rewrite length_app.
    destruct activation; cbn [List.length]; lia. }
  rewrite Hg, Hk. cbn [guard bind]. rewrite nth_error_middle.
  cbn [bind layer_init_with_orthogonal]. rewrite update_middle.
  split; reflexivity.
Qed.

Lemma mapi_from_nth {A B : Type} (f : nat -> A -> B) (l : list A) :
  forall i n a,
    nth_error l n = Some a ->
    nth_error (mapi_from f i l) n = Some (f (i + n) a).
Proof.
  induction l as [|x l IH]; intros i n a Hn.
  - destruct n; discriminate.
  - destruct n as [|n]; cbn [mapi_from nth_error] in *.
    + injection Hn as <-. rewrite Nat.add_0_r. reflexivity.
    + rewrite (IH (S i) n a Hn). f_equal. f_equal. lia.
Qed.

Lemma reset_kinds (std bias_const : R) (draw : nat -> list nat -> R)
    (ms : list (module R)) :
  forall i,
    map kind_of
      (mapi_from (fun i m => NnSeqBnMLP.reset_module std bias_const (draw i) m)
         i ms)
    = map kind_of ms.
Proof.
  induction ms as [|m ms IH]; intros i; [reflexivity|].
  cbn [mapi_from map]. rewrite IH. f_equal. destruct m; reflexivity.
Qed.

(** X7.  [reset_parameters] changes values only.  Layer [i] of the stack
    becomes [reset_module] of itself (a linear layer gets the matrix drawn
    for it and the bias [bias_const], a batch normalization the weight
    [std] and the bias 0 with its running statistics kept, any other layer
    is unchanged); the kinds and sizes of the layers stay, so the block
    accepts exactly the inputs it accepted before, in either mode, and
    returns the same shape. *)
Theorem X7_reset_parameters_keeps_the_architecture (self : NnSeqBnMLP.t)
    (std bias_const : R) (draw : nat -> list nat -> R) :
  let self' := NnSeqBnMLP.reset_parameters self std bias_const draw in
  (forall i m,
      nth_error (NnSeqBnMLP.mlp self) i = Some m ->
      nth_error (NnSeqBnMLP.mlp self') i
        = Some (NnSeqBnMLP.reset_module std bias_const (draw i) m)) /\
  map kind_of (NnSeqBnMLP.mlp self') = map kind_of (NnSeqBnMLP.mlp self) /\
  (forall training seq d0 d1 d2,
      shape seq = [d0; d1; d2] ->
      ((exists out', NnSeqBnMLP.forward self' training seq = Some out') <->
       (exists out, NnSeqBnMLP.forward self training seq = Some out)) /\
      (forall out out',
          NnSeqBnMLP.forward self training seq = Some out ->
          NnSeqBnMLP.forward self' training seq = Some out' ->
          shape out' = shape out)).
Proof.
  intros self'.
  assert (Hk : map kind_of (NnSeqBnMLP.mlp self')
               = map kind_of (NnSeqBnMLP.mlp self)).
  { apply reset_kinds. }
  split; [|split; [exact Hk|]].
  - intros i m Hm. unfold self', NnSeqBnMLP.reset_parameters.
    cbn [NnSeqBnMLP.mlp].
    apply (mapi_from_nth
             (fun i m => NnSeqBnMLP.reset_module std bias_const (draw i) m)
             _ 0 i m Hm).
  - intros training seq d0 d1 d2 Hseq. split.
    + rewrite !(NnSeqBnMLP_forward_iff _ training seq d0 d1 d2 Hseq).
      rewrite !per_row_kinds, Hk.
      assert (Hw : forall c, seq_width (NnSeqBnMLP.mlp self') d2 = Some c <->
                             seq_width (NnSeqBnMLP.mlp self) d2 = Some c).
      { intros c. rewrite !seq_width_kinds, Hk. reflexivity. }
      split; intros (Hpos & (c & Hc) & Hmode);
        (split; [exact Hpos|]; split; [exists c; apply Hw; exact Hc | exact Hmode]).
    + intros out out' Hout Hout'.
      destruct (NnSeqBnMLP_forward_inv self training seq out d0 d1 d2 Hseq Hout)
        as (_ & c & Hc & So & _).
      destruct (NnSeqBnMLP_forward_inv self' training seq out' d0 d1 d2 Hseq
                  Hout') as (_ & c' & Hc' & So' & _).
      rewrite seq_width_kinds, Hk, <- seq_width_kinds in Hc'.
      assert (c' = c) by congruence. subst c'. congruence.
Qed.

Lemma init_step_layers (dims : list nat) (if_layer_norm : bool)
    (params : state_dict R) (l : list (module R)) (i : nat) :
  i + 1 < List.length dims ->
  let key := fun n => sub (sub params (Name "mlp")) (Idx n) in
  NnSeqBnMLP.init_step dims if_layer_norm params (Some l) i
    = Some (l ++ [GELU]
              ++ (if if_layer_norm
                  then [LayerNorm (nth i dims 0) (key (List.length l + 1))]
                  else [])
              ++ [Linear (nth i dims 0) (nth (i + 1) dims 0)
                    (key (List.length l + 1 + Nat.b2n if_layer_norm))]).
Proof.
  intros Hi key. unfold NnSeqBnMLP.init_step. cbn [bind].
  rewrite (nth_error_nth_lt dims i), (nth_error_nth_lt dims (i + 1)) by lia.
  unfold NnSeqBnMLP.append.
  destruct if_layer_norm; cbn [bind Nat.b2n]; rewrite !length_app;
    cbn [List.length]; rewrite <- !app_assoc; cbn [app]; unfold key;
    rewrite ?Nat.add_0_r; reflexivity.
Qed.

(** Where the rounds of the constructor's loop put their linear layers. *)
Lemma init_rounds_layers (dims : list nat) (if_layer_norm : bool)
    (params : state_dict R) (l0 : list (module R)) :
  1 <= List.length l0 ->
  forall n,
    n + 1 < List.length dims ->
    exists l',
      fold_left (NnSeqBnMLP.init_step dims if_layer_norm params) (seq 1 n)
        (Some l0) = Some l' /\
      List.length l' = List.length l0 + n * (2 + Nat.b2n if_layer_norm) /\
      (forall i, i < List.length l0 -> nth_error l' i = nth_error l0 i) /\
      (forall j, 1 <= j <= n ->
         nth_error l' (List.length l0 - 1 + j * (2 + Nat.b2n if_layer_norm))
           = Some (Linear (nth j dims 0) (nth (j + 1) dims 0)
                     (sub (sub params (Name "mlp"))
                        (Idx (List.length l0 - 1
                              + j * (2 + Nat.b2n if_layer_norm)))))).
Proof.
  intros Hl0. induction n as [|n IH]; intros Hn.
  - exists l0. cbn [seq fold_left]. split; [reflexivity|]. split; [lia|].
    split; [reflexivity|]. intros j Hj. lia.
  - destruct IH as (l1 & Hfold & Hlen & Hpre & Hlin); [lia|].
    rewrite seq_S, fold_left_app, Hfold. cbn [fold_left].
    replace (1 + n) with (S n) by lia.
    rewrite (init_step_layers dims if_layer_norm params l1 (S n)) by lia.
    eexists. split; [reflexivity|].
    set (mid := [GELU]
                ++ (if if_layer_norm
                    then [LayerNorm (nth (S n) dims 0)
                            (sub (sub params (Name "mlp"))
                               (Idx (List.length l1 + 1)))]
                    else [])).
    assert (Hmid : List.length mid = 1 + Nat.b2n if_layer_norm).
    { unfold mid. destruct if_layer_norm; reflexivity. }
    assert (Hassoc : forall x : module R,
               l1 ++ [GELU]
                 ++ (if if_layer_norm
                     then [LayerNorm (nth (S n) dims 0)
                             (sub (sub params (Name "mlp"))
                                (Idx (List.length l1 + 1)))]
                     else [])
                 ++ [x]
               = (l1 ++ mid) ++ [x]).
    { intros x. unfold mid. rewrite <- !app_assoc. reflexivity. }
    rewrite Hassoc.
    split; [|split].
    + rewrite !length_app, Hmid, Hlen. cbn [List.length]. lia.
    + intros i Hi. rewrite <- app_assoc, nth_error_app1 by lia. apply Hpre.
      exact Hi.
    + intros j Hj. destruct (Nat.eq_dec j (S n)) as [->|Hne].
      * replace (List.length l0 - 1 + S n * (2 + Nat.b2n if_layer_norm))
          with (List.length (l1 ++ mid))
          by (rewrite length_app, Hmid, Hlen; lia).
        assert (E : List.length (l1 ++ mid)
                    = List.length l1 + 1 + Nat.b2n if_layer_norm)
          by (rewrite length_app, Hmid; lia).
        rewrite nth_error_app2 by lia. rewrite Nat.sub_diag. cbn [nth_error].
        rewrite E. reflexivity.
      * rewrite <- app_assoc, nth_error_app1 by nia. apply Hlin. lia.
Qed.

(** X2.  Where the linear layers of a block sit: the linear layer from
    [dims[j]] to [dims[j+1]] is layer number
    [if_inp_norm + j * (2 + if_layer_norm)] of the stack, and reads its
    weight and bias under [mlp.<that number>] of the block's parameters. *)
Theorem X2_linear_layer_positions (dims : list nat)
    (if_inp_norm if_layer_norm : bool) (activation : option (module R))
    (params : state_dict R) (self : NnSeqBnMLP.t) (j : nat) :
  NnSeqBnMLP.init dims if_inp_norm if_layer_norm activation params = Some self ->
  j + 1 < List.length dims ->
  let i := Nat.b2n if_inp_norm + j * (2 + Nat.b2n if_layer_norm) in
  nth_error (NnSeqBnMLP.mlp self) i
    = Some (Linear (nth j dims 0) (nth (j + 1) dims 0)
              (sub (sub params (Name "mlp")) (Idx i))).
Proof.
  intros Hinit Hj i. unfold NnSeqBnMLP.init in Hinit.
  rewrite (nth_error_nth_lt dims 0), (nth_error_nth_lt dims 1) in Hinit by lia.
  set (l0 := NnSeqBnMLP.append params
               (if if_inp_norm
                then NnSeqBnMLP.append params []
                       (BatchNorm1d (nth 0 dims 0) (9, 10))
                else [])
               (Linear (nth 0 dims 0) (nth 1 dims 0))).
  assert (Hl0 : List.length l0 = Nat.b2n if_inp_norm + 1).
  { unfold l0, NnSeqBnMLP.append. destruct if_inp_norm; reflexivity. }
  assert (Hfirst : nth_error l0 (Nat.b2n if_inp_norm)
                   = Some (Linear (nth 0 dims 0) (nth 1 dims 0)
                             (sub (sub params (Name "mlp"))
                                (Idx (Nat.b2n if_inp_norm))))).
  { unfold l0, NnSeqBnMLP.append. destruct if_inp_norm; reflexivity. }
  destruct (init_rounds_layers dims if_layer_norm params l0 ltac:(lia)
              (List.length dims - 1 - 1) ltac:(lia))
    as (l' & Hfold & Hlen & Hpre & Hlin).
  assert (Hmlp : NnSeqBnMLP.mlp self
                 = l' ++ match activation with Some a => [a] | None => [] end).
  { destruct if_inp_norm; cbn [bind] in Hinit; fold l0 in Hinit;
      rewrite Hfold in Hinit; cbn [bind] in Hinit; injection Hinit as <-;
      cbn [NnSeqBnMLP.mlp]; destruct activation;
      rewrite ?app_nil_r; reflexivity. }
  rewrite Hmlp, nth_error_app1 by (unfold i; nia).
  destruct j as [|j].
  - unfold i. rewrite Nat.mul_0_l, Nat.add_0_r.
    rewrite Hpre by lia. exact Hfirst.
  - specialize (Hlin (S j) ltac:(lia)). rewrite Hl0 in Hlin.
    replace (Nat.b2n if_inp_norm + 1 - 1) with (Nat.b2n if_inp_norm) in Hlin
      by lia.
    exact Hlin.
Qed.

End Initialization.

(** ** Calls of the recurrent network *)

Section Shift.
Context {R : Type}.
Variable St : Type.
Variable cell : nat -> vec R -> St -> St.
Variable out : St -> vec R.


End Shift.

Section Tensors3.
Context {R : Type} {SR : Scalar R}.

Lemma teq_slices (x y : tensor R) (a b c : nat) :
  shape x = [a; b; c] ->
  shape y = [a; b; c] ->
  (forall t i, t < a -> i < b -> veq c (slice x t i) (slice y t i)) ->
  teq x y.
Proof.
  intros Hx Hy H. split; [congruence|].
  intros idx Hidx. rewrite Hx in Hidx.
  destruct idx as [|t [|i [|k [|]]]]; simpl in Hidx; try tauto.
  destruct Hidx as (Ht & Hi & Hk & _). apply (H t i Ht Hi k Hk).
Qed.



End Tensors3.

Section RnnCalls.
Context {R : Type} {SR : Scalar R}.
Variables inp_dim mid_dim out_dim num_layers : nat.
Variable params : state_dict R.
Variable rnn : RnnRegNet.t (R := R).
Hypothesis rnn_built :
  RnnRegNet.init inp_dim mid_dim out_dim num_layers params = Some rnn.

Lemma fuse_ext (u1 u2 v1 v2 : vec R) :
  veq mid_dim u1 v1 -> veq mid_dim u2 v2 ->
  veq (mid_dim * 2) (fuse mid_dim u1 u2) (fuse mid_dim v1 v2).
Proof.
  intros H1 H2 k Hk. unfold fuse. destruct (k <? mid_dim) eqn:E.
  - apply H1. apply Nat.ltb_lt. exact E.
  - destruct (k - mid_dim <? mid_dim) eqn:E'; [|reflexivity].
    apply H2. apply Nat.ltb_lt. exact E'.
Qed.

Lemma proj_rows_ext (inp inp' : tensor R) (b b' t t' : nat) :
  veq inp_dim (slice inp t b) (slice inp' t' b') ->
  veq mid_dim (proj_rows rnn inp b t) (proj_rows rnn inp' b' t').
Proof.
  intros H.
  destruct (rnn_fields inp_dim mid_dim out_dim num_layers params rnn rnn_built)
    as (m1 & m2 & mi & mo & Hm1 & Hm2 & Hmi & Hmo & E1 & E2 & Ei & _).
  destruct (init3_widths inp_dim mid_dim mid_dim false GELU _ mi Hmi
              (or_introl eq_refl)) as (Hw & _ & _).
  unfold proj_rows. rewrite Ei.
  apply (seq_row_ext (NnSeqBnMLP.mlp mi) inp_dim mid_dim _ _ Hw). exact H.
Qed.

Lemma lstm_stack_ext (s s' : nat -> vec R * vec R) (u u' : nat -> vec R)
    (n : nat) :
  (forall l, same_lstm mid_dim (s l) (s' l)) ->
  (forall t, t < n -> veq mid_dim (u t) (u' t)) ->
  forall l,
    (forall t, t < n ->
       veq mid_dim
         (nn.layer_input (nn.lstm_cell (RnnRegNet.rnn1 rnn)) fst s u l t)
         (nn.layer_input (nn.lstm_cell (RnnRegNet.rnn1 rnn)) fst s' u' l t)) /\
    (forall t, t <= n ->
       same_lstm mid_dim
         (nn.layer_state (nn.lstm_cell (RnnRegNet.rnn1 rnn)) fst s u l t)
         (nn.layer_state (nn.lstm_cell (RnnRegNet.rnn1 rnn)) fst s' u' l t)).
Proof.
  intros Hs Hu l.
  destruct (rnn_fields inp_dim mid_dim out_dim num_layers params rnn rnn_built)
    as (m1 & m2 & mi & mo & _ & _ & _ & _ & _ & _ & _ & _ & I1 & H1 & _).
  pose proof (stack_ext (vec R * vec R) (nn.lstm_cell (RnnRegNet.rnn1 rnn)) fst
                (same_lstm (nn.hidden_size (RnnRegNet.rnn1 rnn)))
                (nn.in_width (RnnRegNet.rnn1 rnn))
                (nn.hidden_size (RnnRegNet.rnn1 rnn))
                (in_width_S (RnnRegNet.rnn1 rnn))
                (lstm_cell_ext (RnnRegNet.rnn1 rnn))
                (fun a a' H => proj1 H) s s' u u' n) as Hext.
  rewrite H1 in Hext.
  rewrite (rnn_in_width mid_dim (RnnRegNet.rnn1 rnn) 0 I1 H1) in Hext.
  specialize (Hext Hs Hu l).
  rewrite (rnn_in_width mid_dim (RnnRegNet.rnn1 rnn) l I1 H1) in Hext.
  exact Hext.
Qed.

Lemma gru_stack_ext (s s' : nat -> vec R) (u u' : nat -> vec R) (n : nat) :
  (forall l, veq mid_dim (s l) (s' l)) ->
  (forall t, t < n -> veq mid_dim (u t) (u' t)) ->
  forall l,
    (forall t, t < n ->
       veq mid_dim
         (nn.layer_input (nn.gru_cell (RnnRegNet.rnn2 rnn)) (fun h => h) s u l t)
         (nn.layer_input (nn.gru_cell (RnnRegNet.rnn2 rnn)) (fun h => h) s' u' l t)) /\
    (forall t, t <= n ->
       veq mid_dim
         (nn.layer_state (nn.gru_cell (RnnRegNet.rnn2 rnn)) (fun h => h) s u l t)
         (nn.layer_state (nn.gru_cell (RnnRegNet.rnn2 rnn)) (fun h => h) s' u' l t)).
Proof.
  intros Hs Hu l.
  destruct (rnn_fields inp_dim mid_dim out_dim num_layers params rnn rnn_built)
    as (m1 & m2 & mi & mo & _ & _ & _ & _ & _ & _ & _ & _ & _ & _ & _ &
        I2 & H2 & _).
  pose proof (stack_ext (vec R) (nn.gru_cell (RnnRegNet.rnn2 rnn)) (fun h => h)
                (veq (nn.hidden_size (RnnRegNet.rnn2 rnn)))
                (nn.in_width (RnnRegNet.rnn2 rnn))
                (nn.hidden_size (RnnRegNet.rnn2 rnn))
                (in_width_S (RnnRegNet.rnn2 rnn))
                (gru_cell_ext (RnnRegNet.rnn2 rnn))
                (fun a a' H => H) s s' u u' n) as Hext.
  rewrite H2 in Hext.
  rewrite (rnn_in_width mid_dim (RnnRegNet.rnn2 rnn) 0 I2 H2) in Hext.
  specialize (Hext Hs Hu l).
  rewrite (rnn_in_width mid_dim (RnnRegNet.rnn2 rnn) l I2 H2) in Hext.
  exact Hext.
Qed.

(** The output row at time [t] reads the states and the rows up to time
    [t] of its own batch element. *)
Lemma out_rows_ext (s1 s1' : nat -> nat -> vec R * vec R)
    (s2 s2' : nat -> nat -> vec R) (u u' : nat -> nat -> vec R) (b b' t : nat) :
  (forall l, same_lstm mid_dim (s1 b l) (s1' b' l)) ->
  (forall l, veq mid_dim (s2 b l) (s2' b' l)) ->
  (forall t', t' <= t -> veq mid_dim (u b t') (u' b' t')) ->
  veq out_dim (out_rows mid_dim num_layers rnn s1 s2 u b t)
    (out_rows mid_dim num_layers rnn s1' s2' u' b' t).
Proof.
  intros Hs1 Hs2 Hu.
  destruct (rnn_fields inp_dim mid_dim out_dim num_layers params rnn rnn_built)
    as (m1 & m2 & mi & mo & Hm1 & Hm2 & Hmi & Hmo & E1 & E2 & Ei & Eo & _).
  destruct (init3_widths _ _ _ false GELU _ m1 Hm1 (or_introl eq_refl))
    as (W1 & _ & _).
  destruct (init3_widths _ _ _ false GELU _ m2 Hm2 (or_introl eq_refl))
    as (W2 & _ & _).
  destruct (init3_widths _ _ _ false Tanh _ mo Hmo (or_intror eq_refl))
    as (Wo & _ & _).
  unfold out_rows. rewrite E1, E2, Eo.
  apply (seq_row_ext (NnSeqBnMLP.mlp mo) (mid_dim * 2) out_dim _ _ Wo).
  apply fuse_ext.
  - apply (seq_row_ext (NnSeqBnMLP.mlp m1) mid_dim mid_dim _ _ W1).
    apply (proj1 (lstm_stack_ext (s1 b) (s1' b') (u b) (u' b') (S t) Hs1
                    (fun t' Ht' => Hu t' ltac:(lia)) num_layers) t).
    lia.
  - apply (seq_row_ext (NnSeqBnMLP.mlp m2) mid_dim mid_dim _ _ W2).
    apply (proj1 (gru_stack_ext (s2 b) (s2' b') (u b) (u' b') (S t) Hs2
                    (fun t' Ht' => Hu t' ltac:(lia)) num_layers) t).
    lia.
Qed.

Lemma same_lstm_refl (n : nat) (s : vec R * vec R) : same_lstm n s s.
Proof. split; intros k Hk; reflexivity. Qed.

(** What a successful call tells about its arguments and its hidden
    state. *)
Lemma RnnRegNet_forward_inv (training : bool) (inp out : tensor R)
    (hid h : value R) (t_len b_len f : nat) :
  shape inp = [t_len; b_len; f] ->
  RnnRegNet.forward rnn training inp hid = Some (out, h) ->
  f = inp_dim /\ 0 < t_len * b_len /\
  (exists s1 s2, hid_states rnn b_len hid s1 s2) /\
  exists hh cc g,
    h = VTuple [VTuple [VTensor hh; VTensor cc]; VTensor g] /\
    shape hh = [num_layers; b_len; mid_dim] /\
    shape cc = [num_layers; b_len; mid_dim] /\
    shape g = [num_layers; b_len; mid_dim].
Proof.
  intros Hinp Hfw.
  destruct (rnn_fields inp_dim mid_dim out_dim num_layers params rnn rnn_built)
    as (m1 & m2 & mi & mo & Hm1 & Hm2 & Hmi & Hmo &
        E1 & E2 & Ei & Eo & I1 & H1 & L1 & I2 & H2 & L2 & M1 & M2).
  unfold RnnRegNet.forward in Hfw.
  bind_open Hfw as [hid1 hid2] Hhid.
  bind_open Hfw as x Hx. rewrite Ei in Hx.
  destruct (block_forward_shape _ _ _ _ _ _ _ _ _ _ _ _ _ Hmi (or_introl eq_refl)
              Hinp Hx) as (Hf & Sx & Hpos).
  bind_open Hfw as [r1 h1] Hr1.
  bind_open Hfw as tmp1 Ht1.
  bind_open Hfw as [r2 h2] Hr2.
  bind_open Hfw as tmp2 Ht2.
  bind_open Hfw as tmp Htmp.
  bind_open Hfw as o Ho.
  inversion Hfw. subst o h. clear Hfw.
  unfold nn.RNN_forward in Hr1, Hr2. rewrite M1 in Hr1. rewrite M2 in Hr2.
  unfold nn.LSTM_forward in Hr1. unfold nn.GRU_forward in Hr2.
  rewrite Sx in Hr1, Hr2.
  bind_open Hr1 as u1 G1. bind_open Hr1 as [h0 c0] Hhx.
  bind_open Hr2 as u2 G2. bind_open Hr2 as g0 Hgx.
  injection Hr1 as _ Eh1. injection Hr2 as _ Eh2. rewrite <- Eh1, <- Eh2.
  split; [exact Hf|]. split; [exact Hpos|]. split.
  - exists (fun b l => (nn.hidden_row h0 l b, nn.hidden_row c0 l b)),
           (fun b l => nn.hidden_row g0 l b).
    exists hid1, hid2. split; [exact Hhid|]. split.
    + exists h0, c0. split; [exact Hhx|]. intros b l Hb. apply same_lstm_refl.
    + exists g0. split; [exact Hgx|]. intros b l Hb k Hk. reflexivity.
  - eexists. eexists. eexists. split; [reflexivity|].
    cbn [shape]. rewrite L1, H1, L2, H2. repeat split; reflexivity.
Qed.

(** Two calls from hidden states that stand for the same rows, on inputs
    with the same slices, return the same output and the same hidden
    state, whatever the modes. *)
Lemma RnnRegNet_forward_same (training training' : bool) (inp inp' : tensor R)
    (hid hid' : value R) (t_len b_len : nat)
    (s1 : nat -> nat -> vec R * vec R) (s2 : nat -> nat -> vec R) :
  shape inp = [t_len; b_len; inp_dim] ->
  shape inp' = [t_len; b_len; inp_dim] ->
  0 < t_len * b_len ->
  hid_states rnn b_len hid s1 s2 ->
  hid_states rnn b_len hid' s1 s2 ->
  (forall t b, t < t_len -> b < b_len ->
     veq inp_dim (slice inp t b) (slice inp' t b)) ->
  exists out h out' h',
    RnnRegNet.forward rnn training inp hid = Some (out, h) /\
    RnnRegNet.forward rnn training' inp' hid' = Some (out', h') /\
    teq out out' /\
    same_hidden rnn b_len h h'.
Proof.
  intros Hinp Hinp' Hpos Hs Hs' Hsl.
  destruct (rnn_fields inp_dim mid_dim out_dim num_layers params rnn rnn_built)
    as (m1 & m2 & mi & mo & _ & _ & _ & _ & _ & _ & _ & _ & I1 & H1 & _ &
        I2 & H2 & _).
  destruct (RnnRegNet_forward_rows inp_dim mid_dim out_dim num_layers params rnn
              rnn_built training inp hid t_len b_len s1 s2 Hinp Hpos Hs)
    as (out & h & Hfw & So & Ro & Hh).
  destruct (RnnRegNet_forward_rows inp_dim mid_dim out_dim num_layers params rnn
              rnn_built training' inp' hid' t_len b_len s1 s2 Hinp' Hpos Hs')
    as (out' & h' & Hfw' & So' & Ro' & Hh').
  exists out, h, out', h'. split; [exact Hfw|]. split; [exact Hfw'|]. split.
  - apply (teq_slices out out' t_len b_len out_dim So So').
    intros t b Ht Hb k Hk. rewrite (Ro t b Ht Hb k Hk), (Ro' t b Ht Hb k Hk).
    apply out_rows_ext; try exact Hk.
    + intros l. apply same_lstm_refl.
    + intros l k' Hk'. reflexivity.
    + intros t' Ht'. apply proj_rows_ext. apply Hsl; [lia | exact Hb].
  - eexists. eexists. split; [exact Hh|].
    apply (hid_states_same rnn b_len h' _ _ _ _ Hh').
    + intros b l Hb. rewrite H1.
      apply (proj2 (lstm_stack_ext (s1 b) (s1 b) (proj_rows rnn inp' b)
                      (proj_rows rnn inp b) t_len
                      (fun l' => same_lstm_refl _ _)
                      (fun t Ht => proj_rows_ext inp' inp b b t t
                         (fun k Hk => eq_sym (Hsl t b Ht Hb k Hk))) l) t_len).
      lia.
    + intros b l Hb. rewrite H2.
      apply (proj2 (gru_stack_ext (s2 b) (s2 b) (proj_rows rnn inp' b)
                      (proj_rows rnn inp b) t_len
                      (fun l' k Hk => eq_refl)
                      (fun t Ht => proj_rows_ext inp' inp b b t t
                         (fun k Hk => eq_sym (Hsl t b Ht Hb k Hk))) l) t_len).
      lia.
Qed.



(** X15.  A hidden state is tied to its batch size: what a call on a batch
    of [b_len] elements returned is refused by any call on a batch of
    another size. *)
Theorem X15_hidden_state_is_tied_to_batch_size (training training' : bool)
    (inp inp' out : tensor R) (hid h : value R)
    (t_len b_len f t_len' b_len' f' : nat) :
  shape inp = [t_len; b_len; f] ->
  RnnRegNet.forward rnn training inp hid = Some (out, h) ->
  shape inp' = [t_len'; b_len'; f'] ->
  b_len' <> b_len ->
  RnnRegNet.forward rnn training' inp' h = None.
Proof.
  intros Hinp Hfw Hinp' Hne.
  destruct (rnn_fields inp_dim mid_dim out_dim num_layers params rnn rnn_built)
    as (m1 & m2 & mi & mo & Hm1 & Hm2 & Hmi & Hmo &
        E1 & E2 & Ei & Eo & I1 & H1 & L1 & I2 & H2 & L2 & M1 & M2).
  destruct (RnnRegNet_forward_inv training inp out hid h t_len b_len f Hinp Hfw)
    as (_ & _ & _ & hh & cc & g & -> & Shh & Scc & Sg).
  unfold RnnRegNet.forward. cbn [unpack2 bind].
  destruct (NnSeqBnMLP.forward (RnnRegNet.mlp_inp rnn) training' inp')
    as [x|] eqn:Hx; [|reflexivity].
  cbn [bind]. rewrite Ei in Hx.
  destruct (block_forward_shape _ _ _ _ _ _ _ _ _ _ _ _ _ Hmi (or_introl eq_refl)
              Hinp' Hx) as (_ & Sx & _).
  unfold nn.RNN_forward. rewrite M1. unfold nn.LSTM_forward. rewrite Sx.
  rewrite I1, Nat.eqb_refl. cbn [guard bind nn.LSTM_hx].
  assert (Hbad : nn.hidden_ok (RnnRegNet.rnn1 rnn) b_len' hh = false).
  { unfold nn.hidden_ok. rewrite Shh.
    destruct (list_eq_dec Nat.eq_dec [num_layers; b_len; mid_dim]
                [nn.num_layers (RnnRegNet.rnn1 rnn); b_len';
                 nn.hidden_size (RnnRegNet.rnn1 rnn)]) as [E|_];
      [|reflexivity].
    exfalso. apply Hne. congruence. }
  rewrite Hbad. reflexivity.
Qed.

(** X9.  Starting from no hidden state, the recurrent network (of sizes
    [mid_dim, num_layers >= 1], which the recurrent layers need) accepts a
    [(T, B, F)] input exactly when [T, B >= 1] and [F] is [inp_dim]; and
    whatever the hidden-state argument, what a call returns is an output of
    shape [(T, B, out_dim)] and the pair of the LSTM's [(h, c)] and the
    GRU's [h], each of shape [(num_layers, B, mid_dim)]. *)
Theorem X9_RnnRegNet_accepts (training : bool) (inp : tensor R)
    (t_len b_len f : nat) :
  1 <= mid_dim -> 1 <= num_layers ->
  shape inp = [t_len; b_len; f] ->
  ((exists out h, RnnRegNet.forward rnn training inp VNone = Some (out, h)) <->
   0 < t_len * b_len /\ f = inp_dim) /\
  (forall hid out h,
      RnnRegNet.forward rnn training inp hid = Some (out, h) ->
      shape out = [t_len; b_len; out_dim] /\
      exists hh cc g,
        h = VTuple [VTuple [VTensor hh; VTensor cc]; VTensor g] /\
        shape hh = [num_layers; b_len; mid_dim] /\
        shape cc = [num_layers; b_len; mid_dim] /\
        shape g = [num_layers; b_len; mid_dim]).
Proof.
  intros _ _ Hinp. split.
  - split.
    + intros (out & h & Hfw).
      destruct (RnnRegNet_forward_inv training inp out VNone h t_len b_len f
                  Hinp Hfw) as (Hf & Hpos & _).
      split; assumption.
    + intros (Hpos & ->).
      destruct (RnnRegNet_forward_rows inp_dim mid_dim out_dim num_layers params
                  rnn rnn_built training inp VNone t_len b_len _ _ Hinp Hpos
                  (hid_states_None rnn inp b_len)) as (out & h & Hfw & _).
      exists out, h. exact Hfw.
  - intros hid out h Hfw.
    destruct (RnnRegNet_forward_inv training inp out hid h t_len b_len f
                Hinp Hfw) as (_ & _ & _ & Hh).
    split; [|exact Hh].
    apply (RnnRegNet_forward_shape inp_dim mid_dim out_dim num_layers params rnn
             training inp out hid h t_len b_len f rnn_built Hinp Hfw).
Qed.

(** X10.  No hidden state is the zero hidden state: a call with
    [hid=None] and a call with the pair of all-zero tensors of shape
    [(num_layers, B, mid_dim)] return the same output and the same hidden
    state. *)
Theorem X10_None_is_the_zero_state (training : bool) (inp : tensor R)
    (t_len b_len : nat) :
  1 <= mid_dim -> 1 <= num_layers ->
  shape inp = [t_len; b_len; inp_dim] ->
  0 < t_len * b_len ->
  let z := th.zeros [num_layers; b_len; mid_dim] in
  exists out h out' h',
    RnnRegNet.forward rnn training inp VNone = Some (out, h) /\
    RnnRegNet.forward rnn training inp
      (VTuple [VTuple [VTensor z; VTensor z]; VTensor z]) = Some (out', h') /\
    teq out out' /\
    same_hidden rnn b_len h h'.
Proof.
  intros _ _ Hinp Hpos z.
  destruct (rnn_fields inp_dim mid_dim out_dim num_layers params rnn rnn_built)
    as (m1 & m2 & mi & mo & _ & _ & _ & _ & _ & _ & _ & _ & I1 & H1 & L1 &
        I2 & H2 & L2 & _).
  apply (RnnRegNet_forward_same training training inp inp VNone _ t_len b_len
           (lstm_at rnn inp 0) (gru_at rnn inp 0) Hinp Hinp Hpos
           (hid_states_None rnn inp b_len)).
  - exists (VTuple [VTensor z; VTensor z]), (VTensor z).
    split; [reflexivity|]. split.
    + exists z, z. split.
      * cbn [nn.LSTM_hx]. unfold z, th.zeros.
        rewrite <- L1, <- H1 at 1 2. rewrite !hidden_ok_refl. reflexivity.
      * intros b l Hb. split; intros k Hk; reflexivity.
    + exists z. split.
      * cbn [nn.GRU_hx]. unfold z, th.zeros.
        rewrite <- L2, <- H2. rewrite hidden_ok_refl. reflexivity.
      * intros b l Hb k Hk. reflexivity.
  - intros t b Ht Hb k Hk. reflexivity.
Qed.

(** X11.  The mode does not matter to the recurrent network (it has no
    dropout and no batch normalization): a call in training mode and a call
    in evaluation mode on the same arguments return the same output and the
    same hidden state. *)
Theorem X11_RnnRegNet_mode_does_not_matter (inp out : tensor R)
    (hid h : value R) (training : bool) (t_len b_len f : nat) :
  shape inp = [t_len; b_len; f] ->
  RnnRegNet.forward rnn training inp hid = Some (out, h) ->
  exists out' h',
    RnnRegNet.forward rnn (negb training) inp hid = Some (out', h') /\
    teq out out' /\
    same_hidden rnn b_len h h'.
Proof.
  intros Hinp Hfw.
  destruct (RnnRegNet_forward_inv training inp out hid h t_len b_len f Hinp Hfw)
    as (-> & Hpos & (s1 & s2 & Hs) & _).
  destruct (RnnRegNet_forward_same training (negb training) inp inp hid hid
              t_len b_len s1 s2 Hinp Hinp Hpos Hs Hs)
    as (o & g & o' & g' & Ho & Ho' & Hteq & Hsame).
  { intros t b Ht Hb k Hk. reflexivity. }
  assert (o = out) by congruence. assert (g = h) by congruence. subst o g.
  exists o', g'. split; [exact Ho'|]. split; assumption.
Qed.


End RnnCalls.

(** ** The objective with a negative warm-up *)

Section NegativeWarmup.
Context {R : Type} {SR : Scalar R} {TR : Transformer R}.

Lemma slice_start_neg (n k : nat) :
  1 <= k -> th.slice_start n (- Z.of_nat k) = n - k.
Proof.
  intros Hk. unfold th.slice_start.
  destruct (- Z.of_nat k <? 0)%Z eqn:E; [|apply Z.ltb_ge in E; lia]. lia.
Qed.

Lemma objective_tail (loss : R -> R -> R) (out lab : tensor R)
    (t_len b_len f_len k : nat) :
  shape out = [t_len; b_len; f_len] ->
  shape lab = [t_len; b_len; f_len] ->
  1 <= k ->
  exists obj,
    (c <- nn.elementwise loss out lab ;; th.getitem_from c (- Z.of_nat k))
      = Some obj /\
    shape obj = [Nat.min k t_len; b_len; f_len] /\
    forall t b f,
      in_bounds [t; b; f] (shape obj) ->
      get obj [t; b; f]
        = loss (get out [t + (t_len - k); b; f])
               (get lab [t + (t_len - k); b; f]).
Proof.
  intros Hout Hlab Hk. unfold nn.elementwise. rewrite Hout, Hlab.
  destruct (list_eq_dec Nat.eq_dec [t_len; b_len; f_len] [t_len; b_len; f_len])
    as [_|Hne]; [|congruence].
  cbn [guard bind]. unfold th.getitem_from. cbn [shape]. lazy beta iota.
  rewrite slice_start_neg by exact Hk.
  eexists. split; [reflexivity|]. cbn [shape get hd tl].
  replace (t_len - (t_len - k)) with (Nat.min k t_len) by lia.
  split; [reflexivity|]. intros t b f _. reflexivity.
Qed.

(** X16.  With a negative [wup_dim = -k] the slice of [get_obj_value]
    counts from the end: instead of dropping a warm-up it keeps the last
    [k] time steps of the criterion's values (all [T] of them when
    [k >= T]), for each of the three networks. *)
Theorem X16_get_obj_value_negative_warmup (loss : R -> R -> R)
    (out lab : tensor R) (t_len b_len f_len k : nat) :
  shape out = [t_len; b_len; f_len] ->
  shape lab = [t_len; b_len; f_len] ->
  1 <= k ->
  keeps_tail RnnRegNet.get_obj_value loss out lab t_len b_len f_len k /\
  keeps_tail DilatedCNNRegNet.get_obj_value loss out lab t_len b_len f_len k /\
  keeps_tail TransformerRegNet.get_obj_value loss out lab t_len b_len f_len k.
Proof.
  intros Hout Hlab Hk.
  destruct (objective_tail loss out lab t_len b_len f_len k Hout Hlab Hk)
    as (obj & Hobj & Hrest).
  repeat split; exists obj; (split; [|exact Hrest]);
    unfold RnnRegNet.get_obj_value, DilatedCNNRegNet.get_obj_value,
      TransformerRegNet.get_obj_value;
    (destruct (nn.elementwise loss out lab) as [c|]; cbn [bind] in *;
     [destruct (th.getitem_from c (- Z.of_nat k)); cbn [bind] in *; congruence
     | discriminate]).
Qed.

End NegativeWarmup.

(** ** Calls of the convolutional and the transformer network *)

Section ConvolutionalCalls.
Context {R : Type} {SR : Scalar R}.

(** X17.  The two permutations of [DilatedCNNRegNet.forward] are a round
    trip: [permute(1, 2, 0)] takes [(T, B, C)] to [(B, C, T)] and
    [permute(2, 0, 1)] takes it back to the same tensor. *)
Theorem X17_permute_round_trip (x : tensor R) (t_len b_len c : nat) :
  shape x = [t_len; b_len; c] ->
  exists y z,
    th.permute x [1; 2; 0] = Some y /\
    shape y = [b_len; c; t_len] /\
    (forall t b k, get y [b; k; t] = get x [t; b; k]) /\
    th.permute y [2; 0; 1] = Some z /\
    teq z x.
Proof.
  intros Hx.
  destruct (permute_120 x t_len b_len c Hx) as (y & Hy & Sy & Gy).
  destruct (permute_201 y b_len c t_len Sy) as (z & Hz & Sz & Gz).
  exists y, z. split; [exact Hy|]. split; [exact Sy|]. split.
  - intros t b k. apply Gy.
  - split; [exact Hz|]. split; [congruence|].
    intros idx Hidx. rewrite Sz in Hidx.
    destruct idx as [|t [|b [|k [|]]]]; simpl in Hidx; try tauto.
    rewrite Gz, Gy. reflexivity.
Qed.

(** In training mode the batch normalization of a convolutional layer
    refuses a single value per channel. *)
Lemma DilatedCNN_forward_single (mid kernel_size dilation : nat)
    (p : state_dict R) (x : tensor R) (n l : nat) :
  shape x = [n; mid; l] ->
  n * l = 1 ->
  DilatedCNN.forward (DilatedCNN.init mid mid kernel_size dilation p) true x
    = None.
Proof.
  intros Hx Hone. unfold DilatedCNN.forward, nn.Conv1d_forward.
  cbn [DilatedCNN.conv DilatedCNN.bn DilatedCNN.init nn.in_channels
       nn.out_channels nn.kernel_size nn.dilation nn.conv_params].
  rewrite Hx, Nat.eqb_refl. cbn [guard bind].
  unfold nn.module_forward, nn.BatchNorm1d_forward. cbn [shape].
  rewrite Nat.eqb_refl. cbn [guard bind].
  unfold nn.channel. cbn [shape fst]. rewrite Hone. reflexivity.
Qed.

Lemma cnn_branch_runs (mid kernel_size dilation : nat) (training : bool)
    (ps : list (state_dict R)) (x : tensor R) (n l : nat) :
  shape x = [n; mid; l] ->
  training = false \/ ps = [] \/ 1 < n * l ->
  exists y,
    apply_layers (fun layer => DilatedCNN.forward layer training)
      (map (DilatedCNN.init mid mid kernel_size dilation) ps) x = Some y.
Proof.
  intros Hx [Hmode | [-> | Hmode]].
  - apply (cnn_branch_ok mid kernel_size dilation training ps x n l Hx).
    left. exact Hmode.
  - exists x. reflexivity.
  - apply (cnn_branch_ok mid kernel_size dilation training ps x n l Hx).
    right. exact Hmode.
Qed.

(** X18.  The convolutional network (of sizes
    [mid_dim, kernel_size, dilation >= 1]) accepts a [(T, B, F)] input exactly
    when [T, B >= 1], [F] is [inp_dim] and, in training mode with at least
    one convolutional layer, the input is not a single time step of a
    single batch element (the batch normalization of a layer then has one
    value per channel). *)
Theorem X18_DilatedCNNRegNet_accepts
    (inp_dim mid_dim out_dim num_layers kernel_size dilation : nat)
    (params : state_dict R) (self : DilatedCNNRegNet.t) (training : bool)
    (H : Type) (inp : tensor R) (hid : H) (t_len b_len f : nat) :
  DilatedCNNRegNet.init inp_dim mid_dim out_dim num_layers kernel_size dilation
    params = Some self ->
  1 <= mid_dim -> 1 <= kernel_size -> 1 <= dilation ->
  shape inp = [t_len; b_len; f] ->
  (exists out h, DilatedCNNRegNet.forward self training inp hid = Some (out, h)) <->
  0 < t_len * b_len /\ f = inp_dim /\
  (training = true -> 0 < num_layers -> t_len * b_len <> 1).
Proof.
  intros Hinit _ _ _ Hinp. unfold DilatedCNNRegNet.init in Hinit.
  bind_open Hinit as mi Hmi. bind_open Hinit as m1 Hm1.
  bind_open Hinit as m2 Hm2. bind_open Hinit as mo Hmo.
  inversion Hinit. subst self. clear Hinit.
  unfold DilatedCNNRegNet.forward.
  cbn [DilatedCNNRegNet.mlp_inp DilatedCNNRegNet.cnn_branch1
       DilatedCNNRegNet.cnn_branch2 DilatedCNNRegNet.mlp1
       DilatedCNNRegNet.mlp2 DilatedCNNRegNet.mlp_out].
  split.
  - intros (out & h & Hfw).
    bind_open Hfw as x Hx.
    destruct (block_forward_shape _ _ _ _ _ _ _ _ _ _ _ _ _ Hmi (or_introl eq_refl)
                Hinp Hx) as (Hf & Sx & Hpos).
    split; [exact Hpos|]. split; [exact Hf|].
    intros -> Hlayers Hone.
    bind_open Hfw as xp Hxp.
    destruct (permute_120 x _ _ _ Sx) as (xp' & Hxp' & Sxp & _).
    assert (xp' = xp) by congruence. subst xp'.
    bind_open Hfw as o1 Ho1.
    destruct num_layers as [|n]; [lia|].
    cbn [seq map apply_layers] in Ho1.
    rewrite (DilatedCNN_forward_single mid_dim kernel_size dilation _ xp
               b_len t_len Sxp) in Ho1 by lia.
    discriminate.
  - intros (Hpos & -> & Hmode).
    assert (Hmode' : training = false \/ seq 0 num_layers = [] \/
                     1 < b_len * t_len).
    { destruct training; [|left; reflexivity]. right.
      destruct num_layers as [|n]; [left; reflexivity | right].
      specialize (Hmode eq_refl). lia. }
    destruct (block_forward_ok _ _ _ _ _ _ _ training inp _ _ Hmi
                (or_introl eq_refl) Hinp Hpos) as (x & Hx).
    destruct (block_forward_shape _ _ _ _ _ _ _ _ _ _ _ _ _ Hmi (or_introl eq_refl)
                Hinp Hx) as (_ & Sx & _).
    rewrite Hx. cbn [bind].
    destruct (permute_120 x _ _ _ Sx) as (xp & Hxp & Sxp & _).
    rewrite Hxp. cbn [bind].
    assert (Hbranch : forall name : string,
              exists o op,
                apply_layers (fun layer => DilatedCNN.forward layer training)
                  (map (fun i => DilatedCNN.init mid_dim mid_dim kernel_size
                                   dilation (sub (sub params (Name name)) (Idx i)))
                     (seq 0 num_layers)) xp = Some o /\
                th.permute o [2; 0; 1] = Some op /\
                shape op = [t_len; b_len; mid_dim]).
    { intros name.
      destruct (cnn_branch_runs mid_dim kernel_size dilation training
                  (map (fun i => sub (sub params (Name name)) (Idx i))
                     (seq 0 num_layers)) xp b_len t_len Sxp) as (o & Ho).
      { destruct Hmode' as [Hm | [Hm | Hm]]; [left; exact Hm | | right; right; exact Hm].
        right. left. rewrite Hm. reflexivity. }
      rewrite map_map in Ho.
      pose proof (cnn_branch_shape _ _ _ _ _ _ _ _ _ _ Sxp Ho) as So.
      destruct (permute_201 o _ _ _ So) as (op & Hop & Sop & _).
      exists o, op. tauto. }
    destruct (Hbranch "cnn_branch1"%string) as (o1 & o1p & Ho1 & Ho1p & S1).
    rewrite Ho1. cbn [bind]. rewrite Ho1p. cbn [bind].
    destruct (block_forward_ok _ _ _ _ _ _ _ training o1p _ _ Hm1
                (or_introl eq_refl) S1 Hpos) as (tmp1 & Ht1).
    destruct (block_forward_shape _ _ _ _ _ _ _ _ _ _ _ _ _ Hm1 (or_introl eq_refl)
                S1 Ht1) as (_ & St1 & _).
    rewrite Ht1. cbn [bind].
    destruct (Hbranch "cnn_branch2"%string) as (o2 & o2p & Ho2 & Ho2p & S2).
    rewrite Ho2. cbn [bind]. rewrite Ho2p. cbn [bind].
    destruct (block_forward_ok _ _ _ _ _ _ _ training o2p _ _ Hm2
                (or_introl eq_refl) S2 Hpos) as (tmp2 & Ht2).
    destruct (block_forward_shape _ _ _ _ _ _ _ _ _ _ _ _ _ Hm2 (or_introl eq_refl)
                S2 Ht2) as (_ & St2 & _).
    rewrite Ht2. cbn [bind].
    destruct (cat2_ok tmp1 tmp2 t_len b_len mid_dim mid_dim St1 St2) as (tmp & Htmp).
    destruct (cat2_inv tmp1 tmp2 tmp _ _ _ _ _ _ St1 St2 Htmp) as (_ & _ & Stmp & _).
    rewrite Htmp. cbn [bind].
    replace (mid_dim + mid_dim) with (mid_dim * 2) in Stmp by lia.
    destruct (block_forward_ok _ _ _ _ _ _ _ training tmp _ _ Hmo
                (or_intror eq_refl) Stmp Hpos) as (out & Hout).
    rewrite Hout. cbn [bind]. exists out, VNone. reflexivity.
Qed.

End ConvolutionalCalls.

Section TransformerCalls.
Context {R : Type} {SR : Scalar R} {TR : Transformer R}.

(** X20.  The transformer network raises only on a bad input shape or when
    an encoder layer raises: a call on a [(T, B, F)] input succeeds exactly
    when [T, B >= 1], [F] is [inp_dim], and both encoder stacks accept the
    projected input. *)
Theorem X20_TransformerRegNet_accepts
    (inp_dim mid_dim out_dim num_layers nhead : nat)
    (params : state_dict R) (self : TransformerRegNet.t) (training : bool)
    (H : Type) (inp : tensor R) (hid : H) (t_len b_len f : nat) :
  TransformerRegNet.init inp_dim mid_dim out_dim num_layers nhead params
    = Some self ->
  shape inp = [t_len; b_len; f] ->
  (exists out h, TransformerRegNet.forward self training inp hid = Some (out, h)) <->
  0 < t_len * b_len /\ f = inp_dim /\
  exists x y1 y2,
    NnSeqBnMLP.forward (TransformerRegNet.mlp_inp self) training inp = Some x /\
    shape x = [t_len; b_len; mid_dim] /\
    encoder_stack (TransformerRegNet.transformer1 self) training x = Some y1 /\
    encoder_stack (TransformerRegNet.transformer2 self) training x = Some y2.
Proof.
  intros Hinit Hinp. unfold TransformerRegNet.init in Hinit.
  bind_open Hinit as mi Hmi. bind_open Hinit as m1 Hm1.
  bind_open Hinit as m2 Hm2. bind_open Hinit as mo Hmo.
  inversion Hinit. subst self. clear Hinit.
  unfold TransformerRegNet.forward, encoder_stack.
  cbn [TransformerRegNet.mlp_inp TransformerRegNet.transformer1
       TransformerRegNet.transformer2 TransformerRegNet.mlp1
       TransformerRegNet.mlp2 TransformerRegNet.mlp_out].
  split.
  - intros (out & h & Hfw).
    bind_open Hfw as x Hx.
    destruct (block_forward_shape _ _ _ _ _ _ _ _ _ _ _ _ _ Hmi (or_introl eq_refl)
                Hinp Hx) as (Hf & Sx & Hpos).
    bind_open Hfw as e1 He1. bind_open Hfw as tmp1 Ht1.
    bind_open Hfw as e2 He2.
    split; [exact Hpos|]. split; [exact Hf|].
    exists x, e1, e2. tauto.
  - intros (Hpos & -> & x & e1 & e2 & Hx & Sx & He1 & He2).
    rewrite Hx. cbn [bind]. rewrite He1. cbn [bind].
    pose proof (encoder_stack_shape _ _ _ _ He1) as Se1. rewrite Sx in Se1.
    destruct (block_forward_ok _ _ _ _ _ _ _ training e1 _ _ Hm1
                (or_introl eq_refl) Se1 Hpos) as (tmp1 & Ht1).
    destruct (block_forward_shape _ _ _ _ _ _ _ _ _ _ _ _ _ Hm1 (or_introl eq_refl)
                Se1 Ht1) as (_ & St1 & _).
    rewrite Ht1. cbn [bind]. rewrite He2. cbn [bind].
    pose proof (encoder_stack_shape _ _ _ _ He2) as Se2. rewrite Sx in Se2.
    destruct (block_forward_ok _ _ _ _ _ _ _ training e2 _ _ Hm2
                (or_introl eq_refl) Se2 Hpos) as (tmp2 & Ht2).
    destruct (block_forward_shape _ _ _ _ _ _ _ _ _ _ _ _ _ Hm2 (or_introl eq_refl)
                Se2 Ht2) as (_ & St2 & _).
    rewrite Ht2. cbn [bind].
    destruct (cat2_ok tmp1 tmp2 t_len b_len mid_dim mid_dim St1 St2) as (tmp & Htmp).
    destruct (cat2_inv tmp1 tmp2 tmp _ _ _ _ _ _ St1 St2 Htmp) as (_ & _ & Stmp & _).
    rewrite Htmp. cbn [bind].
    replace (mid_dim + mid_dim) with (mid_dim * 2) in Stmp by lia.
    destruct (block_forward_ok _ _ _ _ _ _ _ training tmp _ _ Hmo
                (or_intror eq_refl) Stmp Hpos) as (out & Hout).
    rewrite Hout. cbn [bind]. exists out, VNone. reflexivity.
Qed.

End TransformerCalls.

Section BatchElements.
Context {R : Type} {SR : Scalar R}.

Lemma Conv1d_forward_row (self : nn.Conv1d) (x x' y y' : tensor R)
    (n n' c l b b' t : nat) :
  shape x = [n; c; l] ->
  shape x' = [n'; c; l] ->
  nn.Conv1d_forward self x = Some y ->
  nn.Conv1d_forward self x' = Some y' ->
  (forall s, s < l ->
     in_window (nn.left_pad (nn.kernel_size self) (nn.dilation self))
       (nn.right_pad (nn.kernel_size self) (nn.dilation self)) t s ->
     agree_bct_at c x x' b b' s) ->
  forall co, get y [b; co; t] = get y' [b'; co; t].
Proof.
  intros Hx Hx' Hy Hy' Hwin co.
  unfold nn.Conv1d_forward in Hy, Hy'. rewrite Hx in Hy. rewrite Hx' in Hy'.
  bind_open Hy as u Hc. bind_open Hy' as u' Hc'. apply Nat.eqb_eq in Hc.
  inversion Hy. inversion Hy'. cbn [get nth]. f_equal.
  apply sum_n_ext. intros ci Hci. apply sum_n_ext. intros k Hk. f_equal.
  unfold nn.padded.
  destruct ((nn.left_pad (nn.kernel_size self) (nn.dilation self)
               <=? t + k * nn.dilation self)
            && (t + k * nn.dilation self
                - nn.left_pad (nn.kernel_size self) (nn.dilation self) <? l))
    eqn:E; [|reflexivity].
  apply andb_prop in E. destruct E as [E1 E2].
  apply Nat.leb_le in E1. apply Nat.ltb_lt in E2.
  apply Hwin; [exact E2 | | lia].
  pose proof (pad_split (nn.kernel_size self) (nn.dilation self)) as Hsplit.
  unfold in_window. split; [lia|].
  assert (k * nn.dilation self <= nn.dilation self * (nn.kernel_size self - 1))
    by nia.
  lia.
Qed.

Lemma DilatedCNN_forward_row (mid kernel_size dilation : nat)
    (p : state_dict R) (x x' y y' : tensor R) (n n' l b b' t : nat) :
  shape x = [n; mid; l] ->
  shape x' = [n'; mid; l] ->
  DilatedCNN.forward (DilatedCNN.init mid mid kernel_size dilation p) false x
    = Some y ->
  DilatedCNN.forward (DilatedCNN.init mid mid kernel_size dilation p) false x'
    = Some y' ->
  (forall s, s < l ->
     in_window (nn.left_pad kernel_size dilation)
       (nn.right_pad kernel_size dilation) t s ->
     agree_bct_at mid x x' b b' s) ->
  agree_bct_at mid y y' b b' t.
Proof.
  intros Hx Hx' Hy Hy' Hwin co Hco.
  unfold DilatedCNN.forward in Hy, Hy'.
  bind_open Hy as u Hu. bind_open Hy as v Hv. inversion Hy.
  bind_open Hy' as u' Hu'. bind_open Hy' as v' Hv'. inversion Hy'.
  cbn [DilatedCNN.conv DilatedCNN.bn DilatedCNN.init] in *.
  pose proof (Conv1d_forward_row _ x x' u u' n n' mid l b b' t Hx Hx' Hu Hu'
                Hwin co) as Huu.
  unfold nn.module_forward, nn.BatchNorm1d_forward in Hv, Hv'.
  bind_open Hv as g Hg. bind_open Hv' as g' Hg'.
  inversion Hv. inversion Hv'.
  unfold nn.relu, th.pointwise. cbn [get nth]. rewrite Huu. reflexivity.
Qed.

Lemma cnn_branch_row (mid kernel_size dilation : nat)
    (layers : list DilatedCNN.t) :
  Forall (fun layer =>
            exists p, layer = DilatedCNN.init mid mid kernel_size dilation p)
    layers ->
  forall (x x' y y' : tensor R) (n n' l b b' t : nat),
    shape x = [n; mid; l] ->
    shape x' = [n'; mid; l] ->
    apply_layers (fun layer => DilatedCNN.forward layer false) layers x = Some y ->
    apply_layers (fun layer => DilatedCNN.forward layer false) layers x' = Some y' ->
    (forall s, s < l ->
       in_window (List.length layers * nn.left_pad kernel_size dilation)
         (List.length layers * nn.right_pad kernel_size dilation) t s ->
       agree_bct_at mid x x' b b' s) ->
    t < l ->
    agree_bct_at mid y y' b b' t.
Proof.
  induction layers as [|layer layers IH];
    intros Hall x x' y y' n n' l b b' t Hx Hx' Hy Hy' Hwin Ht.
  - simpl in Hy, Hy'. inversion Hy. inversion Hy'. subst y y'.
    apply Hwin; [exact Ht|]. unfold in_window. simpl. lia.
  - simpl in Hy, Hy'. bind_open Hy as x1 H1. bind_open Hy' as x1' H1'.
    inversion Hall as [|layer0 layers0 (p & Hp) Hrest]. subst layer0 layers0 layer.
    destruct (DilatedCNN_forward_shape mid kernel_size dilation p false x x1
                n mid l Hx H1) as (_ & Hs1).
    destruct (DilatedCNN_forward_shape mid kernel_size dilation p false x' x1'
                n' mid l Hx' H1') as (_ & Hs1').
    apply (IH Hrest x1 x1' y y' n n' l b b' t Hs1 Hs1' Hy Hy'); [|exact Ht].
    intros s Hs (Hlo & Hhi).
    apply (DilatedCNN_forward_row mid kernel_size dilation p x x' x1 x1' n n' l
             b b' s Hx Hx' H1 H1').
    intros s' Hs' (Hlo' & Hhi'). apply Hwin; [exact Hs'|].
    unfold in_window. simpl List.length. split; lia.
Qed.

(** A block of the networks takes equal slices to equal slices, wherever
    they sit. *)
Lemma block_slices (a b c : nat) (if_layer_norm : bool) (act : module R)
    (params : state_dict R) (self : NnSeqBnMLP.t) (training : bool)
    (seq seq' out out' : tensor R) (t_len b_len t_len' b_len' w t i t' i' : nat) :
  NnSeqBnMLP.init [a; b; c] false if_layer_norm (Some act) params = Some self ->
  act = GELU \/ act = Tanh ->
  shape seq = [t_len; b_len; w] ->
  shape seq' = [t_len'; b_len'; w] ->
  NnSeqBnMLP.forward self training seq = Some out ->
  NnSeqBnMLP.forward self training seq' = Some out' ->
  t < t_len -> i < b_len -> t' < t_len' -> i' < b_len' ->
  veq w (slice seq t i) (slice seq' t' i') ->
  veq c (slice out t i) (slice out' t' i').
Proof.
  intros Hinit Hact Hseq Hseq' Hout Hout' Ht Hi Ht' Hi' Hag.
  destruct (init3_widths a b c if_layer_norm act params self Hinit Hact)
    as (_ & _ & Hrow).
  destruct (block_forward_shape a b c if_layer_norm act params self training
              seq out t_len b_len w Hinit Hact Hseq Hout) as (_ & Hso & _).
  apply (NnSeqBnMLP_forward_slices self training seq out seq' out'
           t_len b_len t_len' b_len' w c t i t' i' (Hrow training) Hseq Hout
           Hseq' Hout' Hso Ht Hi Ht' Hi' Hag).
Qed.

(** X19.  In evaluation mode the convolutional network treats every batch
    element on its own: the output at time step [t] of batch element [b]
    depends only on the input of that batch element within the padding
    window of [t], so it is the same in a batch of any size and at any
    position in it. *)
Theorem X19_DilatedCNNRegNet_batch_elements_are_independent
    (inp_dim mid_dim out_dim num_layers kernel_size dilation : nat)
    (params : state_dict R) (self : DilatedCNNRegNet.t)
    (H H' : Type) (hid : H) (hid' : H') (inp inp' out out' : tensor R)
    (h h' : value R) (t_len b_len b_len' t b b' : nat) :
  DilatedCNNRegNet.init inp_dim mid_dim out_dim num_layers kernel_size dilation
    params = Some self ->
  shape inp = [t_len; b_len; inp_dim] ->
  shape inp' = [t_len; b_len'; inp_dim] ->
  DilatedCNNRegNet.forward self false inp hid = Some (out, h) ->
  DilatedCNNRegNet.forward self false inp' hid' = Some (out', h') ->
  t < t_len -> b < b_len -> b' < b_len' ->
  (forall s, s < t_len ->
     in_window (num_layers * nn.left_pad kernel_size dilation)
       (num_layers * nn.right_pad kernel_size dilation) t s ->
     veq inp_dim (slice inp s b) (slice inp' s b')) ->
  veq out_dim (slice out t b) (slice out' t b').
Proof.
  intros Hinit Hinp Hinp' Hfw Hfw' Ht Hb Hb' Hwin.
  unfold DilatedCNNRegNet.init in Hinit.
  bind_open Hinit as mi Hmi. bind_open Hinit as m1 Hm1.
  bind_open Hinit as m2 Hm2. bind_open Hinit as mo Hmo.
  inversion Hinit. subst self. clear Hinit.
  unfold DilatedCNNRegNet.forward in Hfw, Hfw'.
  cbn [DilatedCNNRegNet.mlp_inp DilatedCNNRegNet.cnn_branch1
       DilatedCNNRegNet.cnn_branch2 DilatedCNNRegNet.mlp1
       DilatedCNNRegNet.mlp2 DilatedCNNRegNet.mlp_out] in Hfw, Hfw'.
  (* the projected inputs *)
  bind_open Hfw as x Hx. bind_open Hfw' as x' Hx'.
  destruct (block_forward_shape _ _ _ _ _ _ _ _ _ _ _ _ _ Hmi (or_introl eq_refl)
              Hinp Hx) as (_ & Sx & _).
  destruct (block_forward_shape _ _ _ _ _ _ _ _ _ _ _ _ _ Hmi (or_introl eq_refl)
              Hinp' Hx') as (_ & Sx' & _).
  bind_open Hfw as xp Hxp. bind_open Hfw' as xp' Hxp'.
  destruct (permute_120 x _ _ _ Sx) as (xq & Hxq & Sxp & Gxp).
  assert (xq = xp) by congruence. subst xq.
  destruct (permute_120 x' _ _ _ Sx') as (xq' & Hxq' & Sxp' & Gxp').
  assert (xq' = xp') by congruence. subst xq'.
  assert (Axp : forall s, s < t_len ->
             in_window (num_layers * nn.left_pad kernel_size dilation)
               (num_layers * nn.right_pad kernel_size dilation) t s ->
             agree_bct_at mid_dim xp xp' b b' s).
  { intros s Hs Hw c Hc. rewrite Gxp, Gxp'.
    apply (block_slices _ _ _ _ _ _ _ _ _ _ _ _ _ _ _ _ _ s b s b' Hmi
             (or_introl eq_refl) Hinp Hinp' Hx Hx' Hs Hb Hs Hb'
             (Hwin s Hs Hw) c Hc). }
  (* the two branches *)
  assert (Hbranch : forall (name : string) (o o' op op' : tensor R),
             apply_layers (fun layer => DilatedCNN.forward layer false)
               (map (fun i => DilatedCNN.init mid_dim mid_dim kernel_size dilation
                                (sub (sub params (Name name)) (Idx i)))
                  (seq 0 num_layers)) xp = Some o ->
             apply_layers (fun layer => DilatedCNN.forward layer false)
               (map (fun i => DilatedCNN.init mid_dim mid_dim kernel_size dilation
                                (sub (sub params (Name name)) (Idx i)))
                  (seq 0 num_layers)) xp' = Some o' ->
             th.permute o [2; 0; 1] = Some op ->
             th.permute o' [2; 0; 1] = Some op' ->
             shape op = [t_len; b_len; mid_dim] /\
             shape op' = [t_len; b_len'; mid_dim] /\
             veq mid_dim (slice op t b) (slice op' t b')).
  { intros name o o' op op' Ho Ho' Hop Hop'.
    pose proof (cnn_branch_shape _ _ _ _ _ _ _ _ _ _ Sxp Ho) as So.
    pose proof (cnn_branch_shape _ _ _ _ _ _ _ _ _ _ Sxp' Ho') as So'.
    destruct (permute_201 o _ _ _ So) as (oq & Hoq & Sop & Gop).
    assert (oq = op) by congruence. subst oq.
    destruct (permute_201 o' _ _ _ So') as (oq' & Hoq' & Sop' & Gop').
    assert (oq' = op') by congruence. subst oq'.
    split; [exact Sop|]. split; [exact Sop'|].
    intros c Hc. unfold slice. rewrite Gop, Gop'.
    eapply (cnn_branch_row mid_dim kernel_size dilation);
      [ | exact Sxp | exact Sxp' | exact Ho | exact Ho' | | exact Ht | exact Hc ].
    - apply Forall_forall. intros layer Hin. apply in_map_iff in Hin.
      destruct Hin as (i & <- & _). eexists. reflexivity.
    - rewrite length_map, length_seq. exact Axp. }
  bind_open Hfw as o1 Ho1. bind_open Hfw as o1p Ho1p.
  bind_open Hfw' as o1' Ho1'. bind_open Hfw' as o1p' Ho1p'.
  destruct (Hbranch _ _ _ _ _ Ho1 Ho1' Ho1p Ho1p') as (S1 & S1' & A1).
  bind_open Hfw as tmp1 Ht1. bind_open Hfw' as tmp1' Ht1'.
  destruct (block_forward_shape _ _ _ _ _ _ _ _ _ _ _ _ _ Hm1 (or_introl eq_refl)
              S1 Ht1) as (_ & St1 & _).
  destruct (block_forward_shape _ _ _ _ _ _ _ _ _ _ _ _ _ Hm1 (or_introl eq_refl)
              S1' Ht1') as (_ & St1' & _).
  pose proof (block_slices _ _ _ _ _ _ _ _ _ _ _ _ _ _ _ _ _ t b t b' Hm1
                (or_introl eq_refl) S1 S1' Ht1 Ht1' Ht Hb Ht Hb' A1) as At1.
  bind_open Hfw as o2 Ho2. bind_open Hfw as o2p Ho2p.
  bind_open Hfw' as o2' Ho2'. bind_open Hfw' as o2p' Ho2p'.
  destruct (Hbranch _ _ _ _ _ Ho2 Ho2' Ho2p Ho2p') as (S2 & S2' & A2).
  bind_open Hfw as tmp2 Ht2. bind_open Hfw' as tmp2' Ht2'.
  destruct (block_forward_shape _ _ _ _ _ _ _ _ _ _ _ _ _ Hm2 (or_introl eq_refl)
              S2 Ht2) as (_ & St2 & _).
  destruct (block_forward_shape _ _ _ _ _ _ _ _ _ _ _ _ _ Hm2 (or_introl eq_refl)
              S2' Ht2') as (_ & St2' & _).
  pose proof (block_slices _ _ _ _ _ _ _ _ _ _ _ _ _ _ _ _ _ t b t b' Hm2
                (or_introl eq_refl) S2 S2' Ht2 Ht2' Ht Hb Ht Hb' A2) as At2.
  (* the concatenation and the final block *)
  bind_open Hfw as tmp Htmp. bind_open Hfw' as tmp' Htmp'.
  destruct (cat2_inv tmp1 tmp2 tmp _ _ _ _ _ _ St1 St2 Htmp)
    as (_ & _ & Stmp & Gtmp).
  destruct (cat2_inv tmp1' tmp2' tmp' _ _ _ _ _ _ St1' St2' Htmp')
    as (_ & _ & Stmp' & Gtmp').
  assert (Atmp : veq (mid_dim + mid_dim) (slice tmp t b) (slice tmp' t b')).
  { intros k Hk. unfold slice. rewrite Gtmp, Gtmp'.
    destruct (k <? mid_dim) eqn:E1.
    - apply Nat.ltb_lt in E1. apply (At1 k E1).
    - apply Nat.ltb_ge in E1.
      destruct (k - mid_dim <? mid_dim) eqn:E2; [|reflexivity].
      apply Nat.ltb_lt in E2. apply (At2 (k - mid_dim) E2). }
  bind_open Hfw as o Ho. bind_open Hfw' as o' Ho'.
  inversion Hfw. inversion Hfw'. subst o o' h h'.
  apply (block_slices _ _ _ _ _ _ _ _ _ _ _ _ _ _ _ _ _ t b t b' Hmo
           (or_intror eq_refl) Stmp Stmp' Ho Ho' Ht Hb Ht Hb' Atmp).
Qed.

End BatchElements.

(** ** One convolutional layer *)

Section ConvolutionalLayer.
Context {R : Type} {SR : Scalar R}.

(** X21.  One convolutional layer (sizes [>= 1]) accepts an [(N, C, L)]
    input with [L >= 1] exactly when [C] is [in_channels] and, in training
    mode, [N * L] is not 1; with its 'same' padding it returns
    [(N, out_channels, L)], the time axis unchanged, whatever the kernel
    size and the dilation. *)
Theorem X21_DilatedCNN_accepts
    (in_channels out_channels kernel_size dilation : nat)
    (params : state_dict R) (training : bool) (x : tensor R) (n c l : nat) :
  1 <= in_channels -> 1 <= out_channels ->
  1 <= kernel_size -> 1 <= dilation -> 1 <= l ->
  shape x = [n; c; l] ->
  let self := DilatedCNN.init in_channels out_channels kernel_size dilation
                params in
  ((exists y, DilatedCNN.forward self training x = Some y) <->
   c = in_channels /\ (training = true -> n * l <> 1)) /\
  (forall y, DilatedCNN.forward self training x = Some y ->
             shape y = [n; out_channels; l]).
Proof.
  intros _ _ _ _ _ Hx self. unfold self, DilatedCNN.forward, nn.Conv1d_forward.
  cbn [DilatedCNN.conv DilatedCNN.bn DilatedCNN.init nn.in_channels
       nn.out_channels nn.kernel_size nn.dilation nn.conv_params].
  rewrite Hx.
  destruct (c =? in_channels) eqn:Ec; cbn [guard bind].
  - apply Nat.eqb_eq in Ec.
    unfold nn.module_forward, nn.BatchNorm1d_forward. cbn [shape].
    rewrite Nat.eqb_refl. cbn [guard bind].
    destruct training.
    + unfold nn.channel. cbn [shape fst].
      destruct (n * l =? 1) eqn:En; cbn [negb guard bind].
      * apply Nat.eqb_eq in En. split.
        -- split; [intros (y & Hy); discriminate|].
           intros (_ & Hne). exfalso. apply (Hne eq_refl En).
        -- intros y Hy. discriminate.
      * apply Nat.eqb_neq in En. split.
        -- split; [intros _; split; [exact Ec | intros _; exact En]|].
           intros _. eexists. reflexivity.
        -- intros y Hy. injection Hy as <-. reflexivity.
    + split.
      * split; [intros _; split; [exact Ec | discriminate]|].
        intros _. eexists. reflexivity.
      * intros y Hy. injection Hy as <-. reflexivity.
  - apply Nat.eqb_neq in Ec. split.
    + split; [intros (y & Hy); discriminate|].
      intros (Hc & _). contradiction.
    + intros y Hy. discriminate.
Qed.

End ConvolutionalLayer.

(** * Concrete runs on the integer interpretation *)

#[local] Existing Instance Z_Scalar.
#[local] Existing Instance Z_Transformer.

(** The convolution with 'same' padding looks ahead: with one layer of
    kernel size 3 and dilation 2, two inputs of three time steps that differ
    at the last one only give different outputs at the first one. *)
Lemma C1_counterexample_same_padding_looks_ahead :
  ~ (forall (R : Type) (SR : Scalar R)
            (inp_dim mid_dim out_dim num_layers kernel_size dilation : nat)
            (params : state_dict R) (self : DilatedCNNRegNet.t),
        DilatedCNNRegNet.init inp_dim mid_dim out_dim num_layers kernel_size
          dilation params = Some self ->
        causal self).
Proof.
  intros Hall.
  destruct (DilatedCNNRegNet.init 1 2 1 1 3 2 example_params) as [net|] eqn:Enet;
    [|discriminate].
  pose proof (Hall Z Z_Scalar 1 2 1 1 3 2 example_params net Enet) as Hc.
  assert (E0 : output_at (DilatedCNNRegNet.forward (SR := Z_Scalar) net false
                            (pulse 3 2 0) tt) [0; 0; 0] = Some 0%Z).
  { inversion Enet. vm_compute. reflexivity. }
  assert (E2 : output_at (DilatedCNNRegNet.forward (SR := Z_Scalar) net false
                            (pulse 3 2 2) tt) [0; 0; 0] = Some 1%Z).
  { inversion Enet. vm_compute. reflexivity. }
  destruct (DilatedCNNRegNet.forward net false (pulse 3 2 0) tt)
    as [[o h]|] eqn:F0; [|discriminate].
  destruct (DilatedCNNRegNet.forward net false (pulse 3 2 2) tt)
    as [[o' h']|] eqn:F2; [|discriminate].
  assert (So : shape o = [3; 1; 1]).
  { apply (DilatedCNNRegNet_forward_shape 1 2 1 1 3 2 example_params net false
             unit (pulse 3 2 0) o tt h 3 1 1 Enet eq_refl F0). }
  assert (Hag : agree_tbf 1 1 o o' 0).
  { apply (Hc (pulse 3 2 0) (pulse 3 2 2) o o' h h' 3 1 1 1 1 eq_refl eq_refl
             F0 F2 So); [|lia|lia].
    intros s Hs _ b Hb k Hk. unfold slice, pulse. cbn [get nth].
    destruct s as [|[|s]]; try reflexivity. lia. }
  specialize (Hag 0 Nat.lt_0_1 0 Nat.lt_0_1). unfold slice in Hag.
  cbn [output_at bind] in E0, E2. congruence.
Qed.

(** A run of C1's window: with one layer of kernel size 3 and dilation 2
    the window of time step 0 is the time steps 0 to 2, and two inputs of
    five time steps that differ at the last one only agree at output time
    step 0. *)
Lemma C1_window_witness :
  exists self out out' h h',
    DilatedCNNRegNet.init 1 2 1 1 3 2 example_params = Some self /\
    DilatedCNNRegNet.forward (SR := Z_Scalar) self false (pulse 5 4 0) tt
      = Some (out, h) /\
    DilatedCNNRegNet.forward (SR := Z_Scalar) self false (pulse 5 4 2) tt
      = Some (out', h') /\
    agree_tbf 1 1 out out' 0.
Proof.
  destruct (DilatedCNNRegNet.init 1 2 1 1 3 2 example_params) as [net|] eqn:Enet;
    [|discriminate].
  destruct (DilatedCNNRegNet_forward_ok (SR := Z_Scalar) 1 2 1 1 3 2
              example_params net false unit (pulse 5 4 0) tt 5 1 Enet eq_refl)
    as (o & Ho); [lia | left; reflexivity |].
  destruct (DilatedCNNRegNet_forward_ok (SR := Z_Scalar) 1 2 1 1 3 2
              example_params net false unit (pulse 5 4 2) tt 5 1 Enet eq_refl)
    as (o' & Ho'); [lia | left; reflexivity |].
  exists net, o, o', VNone, VNone.
  split; [reflexivity|]. split; [exact Ho|]. split; [exact Ho'|].
  apply (C1_forward_reads_padding_window (SR := Z_Scalar) 1 2 1 1 3 2
           example_params net unit unit tt tt (pulse 5 4 0) (pulse 5 4 2) o o'
           VNone VNone 5 1 0 Enet eq_refl eq_refl Ho Ho'); [lia|].
  intros s Hs [_ Hhi] b Hb k Hk. unfold slice, pulse. cbn [get nth].
  change (1 * nn.right_pad 3 2) with 2 in Hhi.
  destruct s as [|[|[|s]]]; try reflexivity. lia.
Defined.

(** The input batch normalization in training mode: with two time steps,
    changing the second changes the output at the first. *)
Lemma C4_counterexample_batch_norm_in_training :
  ~ (forall (R : Type) (SR : Scalar R) (self : NnSeqBnMLP.t) (training : bool),
        position_local self training).
Proof.
  intros Hall.
  destruct (NnSeqBnMLP.init [1; 1] true true None example_params)
    as [net|] eqn:Enet; [|discriminate].
  pose proof (Hall Z Z_Scalar net true) as Hc.
  assert (E0 : element_at (NnSeqBnMLP.forward (SR := Z_Scalar) net true
                             (pulse 2 1 2)) [0; 0; 0] = Some (-2)%Z).
  { inversion Enet. vm_compute. reflexivity. }
  assert (E2 : element_at (NnSeqBnMLP.forward (SR := Z_Scalar) net true
                             (pulse 2 1 (-2))) [0; 0; 0] = Some 2%Z).
  { inversion Enet. vm_compute. reflexivity. }
  destruct (NnSeqBnMLP.forward net true (pulse 2 1 2)) as [o|] eqn:F0;
    [|discriminate].
  destruct (NnSeqBnMLP.forward net true (pulse 2 1 (-2))) as [o'|] eqn:F2;
    [|discriminate].
  destruct (NnSeqBnMLP_forward_inv net true (pulse 2 1 2) o 2 1 1 eq_refl F0)
    as (_ & c & Hw & So & _).
  assert (c = 1).
  { inversion Enet. subst net. simpl in Hw. inversion Hw. reflexivity. }
  subst c.
  assert (Hag : veq 1 (slice o 0 0) (slice o' 0 0)).
  { apply (Hc (pulse 2 1 2) (pulse 2 1 (-2)) o o' 2 1 1 1 0 0 eq_refl eq_refl
             F0 F2 So); [lia | lia |].
    intros k Hk. reflexivity. }
  specialize (Hag 0 Nat.lt_0_1). unfold slice in Hag.
  cbn [element_at bind] in E0, E2. congruence.
Qed.

(** A run of C4: a block without batch normalization, in training mode. *)
Lemma C4_per_position_witness :
  exists self out,
    NnSeqBnMLP.init [1; 2; 1] false true (Some Tanh) example_params = Some self /\
    NnSeqBnMLP.forward (SR := Z_Scalar) self true (pulse 2 0 3) = Some out /\
    exists c,
      shape out = [2; 1; c] /\
      (forall t b, t < 2 -> b < 1 ->
         veq c (slice out t b)
           (seq_row (NnSeqBnMLP.mlp self) (slice (pulse 2 0 3) t b))) /\
      (forall seq' out' d0' d1' t b t' b',
         shape seq' = [d0'; d1'; 1] ->
         NnSeqBnMLP.forward self true seq' = Some out' ->
         t < 2 -> b < 1 -> t' < d0' -> b' < d1' ->
         veq 1 (slice (pulse 2 0 3) t b) (slice seq' t' b') ->
         veq c (slice out t b) (slice out' t' b')).
Proof.
  destruct (NnSeqBnMLP.init [1; 2; 1] false true (Some Tanh) example_params)
    as [net|] eqn:Enet; [|discriminate].
  destruct (block_forward_ok (SR := Z_Scalar) 1 2 1 true Tanh example_params net
              true (pulse 2 0 3) 2 1 Enet (or_intror eq_refl) eq_refl)
    as (o & Ho); [lia|].
  exists net, o. split; [reflexivity|]. split; [exact Ho|].
  apply (C4_forward_per_position (SR := Z_Scalar) net true (pulse 2 0 3) o 2 1 1);
    [|reflexivity | exact Ho].
  inversion Enet. reflexivity.
Defined.

(** A run of C3. *)
Lemma C3_init_witness :
  exists self body,
    NnSeqBnMLP.init [3; 4; 5; 2] true true (Some Tanh) example_params
      = Some self /\
    NnSeqBnMLP.mlp self = body ++ [Tanh] /\
    map kind_of body = spec_stack [3; 4; 5; 2] true true.
Proof.
  apply (C3_init_layer_sequence [3; 4; 5; 2] true true (Some Tanh) example_params).
  simpl. lia.
Defined.


(** A run of C9: warm-up of one time step out of three. *)
Lemma C9_drops_warmup_witness :
  drops_warmup RnnRegNet.get_obj_value Z.sub (pulse 3 1 5) (pulse 3 2 1) 3 1 1 1 /\
  drops_warmup DilatedCNNRegNet.get_obj_value Z.sub (pulse 3 1 5) (pulse 3 2 1)
    3 1 1 1 /\
  drops_warmup TransformerRegNet.get_obj_value Z.sub (pulse 3 1 5) (pulse 3 2 1)
    3 1 1 1.
Proof.
  apply (C9_get_obj_value_drops_warmup Z.sub (pulse 3 1 5) (pulse 3 2 1) 3 1 1 1);
    [reflexivity | reflexivity | lia].
Defined.

(** A run of C10: a 2-D input. *)
Lemma C10_two_axes_witness :
  (forall (self : NnSeqBnMLP.t) training,
      NnSeqBnMLP.forward (SR := Z_Scalar) self training
        (Tensor [2; 3] (fun _ => 0%Z)) = None) /\
  (forall (self : RnnRegNet.t) training hid,
      RnnRegNet.forward (SR := Z_Scalar) self training
        (Tensor [2; 3] (fun _ => 0%Z)) hid = None) /\
  (forall (H : Type) (self : DilatedCNNRegNet.t) training (hid : H),
      DilatedCNNRegNet.forward (SR := Z_Scalar) self training
        (Tensor [2; 3] (fun _ => 0%Z)) hid = None) /\
  (forall (H : Type) (self : TransformerRegNet.t) training (hid : H),
      TransformerRegNet.forward (SR := Z_Scalar) (TR := Z_Transformer) self
        training (Tensor [2; 3] (fun _ => 0%Z)) hid = None).
Proof.
  apply (C10_forward_needs_three_axes (SR := Z_Scalar) (TR := Z_Transformer)
           (Tensor [2; 3] (fun _ => 0%Z))).
  simpl. lia.
Defined.

(** A run of C6: each network on two time steps of one batch element. *)
Lemma C6_shapes_witness :
  (exists self out h,
      RnnRegNet.init 1 4 3 1 example_params = Some self /\
      RnnRegNet.forward (SR := Z_Scalar) self false (pulse 2 0 1) VNone
        = Some (out, h) /\
      shape out = [2; 1; 3]) /\
  (exists self out h,
      DilatedCNNRegNet.init 1 4 3 1 3 2 example_params = Some self /\
      DilatedCNNRegNet.forward (SR := Z_Scalar) self false (pulse 2 0 1) tt
        = Some (out, h) /\
      shape out = [2; 1; 3]) /\
  (exists self out h,
      TransformerRegNet.init (TR := Z_Transformer) 1 4 3 1 4 example_params
        = Some self /\
      TransformerRegNet.forward (SR := Z_Scalar) (TR := Z_Transformer) self false
        (pulse 2 0 1) tt = Some (out, h) /\
      shape out = [2; 1; 3]).
Proof.
  destruct (C6_forward_preserves_time_and_batch (SR := Z_Scalar)
              (TR := Z_Transformer) 1 4 3 1 3 2 4 example_params false
              (pulse 2 0 1) 2 1 eq_refl) as (Hrnn & Hcnn & Htr).
  split; [|split].
  - destruct (RnnRegNet.init 1 4 3 1 example_params) as [net|] eqn:Enet;
      [|discriminate].
    assert (Hr : returned (RnnRegNet.forward (SR := Z_Scalar) net false
                             (pulse 2 0 1) VNone) = true).
    { inversion Enet. vm_compute. reflexivity. }
    destruct (RnnRegNet.forward net false (pulse 2 0 1) VNone) as [[o h]|] eqn:F;
      [|discriminate].
    exists net, o, h. split; [reflexivity|]. split; [exact F|].
    apply (Hrnn net VNone o h eq_refl F).
  - destruct (DilatedCNNRegNet.init 1 4 3 1 3 2 example_params) as [net|] eqn:Enet;
      [|discriminate].
    assert (Hr : returned (DilatedCNNRegNet.forward (SR := Z_Scalar) net false
                             (pulse 2 0 1) tt) = true).
    { inversion Enet. vm_compute. reflexivity. }
    destruct (DilatedCNNRegNet.forward net false (pulse 2 0 1) tt)
      as [[o h]|] eqn:F; [|discriminate].
    exists net, o, h. split; [reflexivity|]. split; [exact F|].
    apply (Hcnn net unit tt o h eq_refl F).
  - destruct (TransformerRegNet.init (TR := Z_Transformer) 1 4 3 1 4 example_params)
      as [net|] eqn:Enet; [|discriminate].
    assert (Hr : returned (TransformerRegNet.forward (SR := Z_Scalar)
                             (TR := Z_Transformer) net false (pulse 2 0 1) tt)
                 = true).
    { inversion Enet. vm_compute. reflexivity. }
    destruct (TransformerRegNet.forward net false (pulse 2 0 1) tt)
      as [[o h]|] eqn:F; [|discriminate].
    exists net, o, h. split; [reflexivity|]. split; [exact F|].
    apply (Htr net unit tt o h eq_refl F).
Defined.

(** A run of X2: with input normalization and layer normalization, the
    second linear layer is layer 4 of the stack. *)
Lemma X2_positions_witness :
  exists self,
    NnSeqBnMLP.init [3; 4; 5; 2] true true (Some Tanh) example_params
      = Some self /\
    nth_error (NnSeqBnMLP.mlp self) 4
      = Some (Linear 4 5 (sub (sub example_params (Name "mlp")) (Idx 4))).
Proof.
  destruct (NnSeqBnMLP.init [3; 4; 5; 2] true true (Some Tanh) example_params)
    as [net|] eqn:Enet; [|discriminate].
  exists net. split; [reflexivity|].
  apply (X2_linear_layer_positions [3; 4; 5; 2] true true (Some Tanh)
           example_params net 1 Enet).
  simpl. lia.
Defined.

(** A run of X3. *)
Lemma X3_init_orthogonal_witness :
  exists self pre p self',
    NnSeqBnMLP.init [3; 4; 2] false true (Some Tanh) example_params = Some self /\
    NnSeqBnMLP.mlp self = pre ++ [Linear 4 2 p; Tanh] /\
    NnSeqBnMLP.init_orthogonal self (Some Tanh) (fun _ => 1%Z) = Some self' /\
    NnSeqBnMLP.mlp self'
      = pre ++ [Linear 4 2
                  (nn_init.assign
                     (nn_init.assign p "weight"
                        (nn_init.orthogonal_ (fun _ => 1%Z) (frac 1 10)))
                     "bias" (nn_init.constant_ (frac 1 (10 ^ 6))));
                Tanh].
Proof.
  destruct (NnSeqBnMLP.init [3; 4; 2] false true (Some Tanh) example_params)
    as [net|] eqn:Enet; [|discriminate].
  destruct (X3_init_orthogonal_hits_last_linear [3; 4; 2] false true (Some Tanh)
              example_params net (fun _ => 1%Z) Enet)
    as (pre & p & self' & H1 & H2 & H3).
  exists net, pre, p, self'. split; [reflexivity|].
  split; [exact H1|]. split; [exact H2 | exact H3].
Defined.

(** A run of X4: a block that normalizes its input, in training mode, on
    two rows. *)
Lemma X4_block_accepts_witness :
  exists self,
    NnSeqBnMLP.init [3; 4; 2] true true (Some Tanh) example_params = Some self /\
    ((exists out,
         NnSeqBnMLP.forward self true (Tensor [2; 1; 3] (fun _ => 1%Z))
           = Some out) <->
     0 < 2 * 1 /\ 3 = 3 /\ (true && true = true -> 2 * 1 <> 1)) /\
    (forall out,
        NnSeqBnMLP.forward self true (Tensor [2; 1; 3] (fun _ => 1%Z)) = Some out ->
        shape out = [2; 1; 2]).
Proof.
  destruct (NnSeqBnMLP.init [3; 4; 2] true true (Some Tanh) example_params)
    as [net|] eqn:Enet; [|discriminate].
  exists net. split; [reflexivity|].
  apply (X4_block_accepts [3; 4; 2] true true (Some Tanh) example_params net true
           (Tensor [2; 1; 3] (fun _ => 1%Z)) 2 1 3 Enet).
  - repeat constructor.
  - right. right. reflexivity.
  - reflexivity.
Defined.

(** A run of X5. *)
Lemma X5_round_trip_witness :
  exists inp out,
    th.reshape (ramp 2 3) [D (2 * 3); Infer] = Some inp /\
    shape inp = [2 * 3; 1] /\
    (forall t b, t < 2 -> b < 3 ->
       veq 1 (row inp (t * 3 + b)) (slice (ramp 2 3) t b)) /\
    th.reshape inp [D 2; D 3; Infer] = Some out /\
    teq out (ramp 2 3).
Proof.
  apply (X5_flatten_unflatten_round_trip (ramp 2 3) 2 3 1).
  - reflexivity.
  - simpl. lia.
Defined.

(** A run of X6. *)
Lemma X6_block_mode_witness :
  exists self out out',
    NnSeqBnMLP.init [1; 2; 1] false true (Some Tanh) example_params = Some self /\
    NnSeqBnMLP.forward self true (pulse 2 0 3) = Some out /\
    NnSeqBnMLP.forward self false (pulse 2 0 3) = Some out' /\
    teq out out'.
Proof.
  destruct (NnSeqBnMLP.init [1; 2; 1] false true (Some Tanh) example_params)
    as [net|] eqn:Enet; [|discriminate].
  destruct (block_forward_ok (SR := Z_Scalar) 1 2 1 true Tanh example_params net
              true (pulse 2 0 3) 2 1 Enet (or_intror eq_refl) eq_refl)
    as (o & Ho); [lia|].
  destruct (X6_block_without_input_norm_ignores_mode [1; 2; 1] true (Some Tanh)
              example_params net true (pulse 2 0 3) o 2 1 1 Enet
              (or_intror (or_intror eq_refl)) eq_refl Ho) as (o' & Ho' & Hteq).
  exists net, o, o'. split; [reflexivity|]. split; [exact Ho|].
  split; [exact Ho' | exact Hteq].
Defined.

(** A run of X8: no time step. *)
Lemma X8_empty_sequence_witness :
  (forall (self : NnSeqBnMLP.t) training,
      NnSeqBnMLP.forward (SR := Z_Scalar) self training (ramp 0 3) = None) /\
  (forall (self : RnnRegNet.t) training hid,
      RnnRegNet.forward (SR := Z_Scalar) self training (ramp 0 3) hid = None) /\
  (forall (H : Type) (self : DilatedCNNRegNet.t) training (hid : H),
      DilatedCNNRegNet.forward (SR := Z_Scalar) self training (ramp 0 3) hid
        = None) /\
  (forall (H : Type) (self : TransformerRegNet.t) training (hid : H),
      TransformerRegNet.forward (SR := Z_Scalar) (TR := Z_Transformer) self
        training (ramp 0 3) hid = None).
Proof.
  apply (X8_forward_raises_on_empty_sequence (SR := Z_Scalar)
           (TR := Z_Transformer) (ramp 0 3) 0 3 1); reflexivity.
Defined.

(** A run of X9. *)
Lemma X9_RnnRegNet_accepts_witness :
  exists rnn,
    RnnRegNet.init 1 2 1 1 example_params = Some rnn /\
    ((exists out h,
         RnnRegNet.forward rnn false (pulse 3 1 2) VNone = Some (out, h)) <->
     0 < 3 * 1 /\ 1 = 1) /\
    (forall hid out h,
        RnnRegNet.forward rnn false (pulse 3 1 2) hid = Some (out, h) ->
        shape out = [3; 1; 1] /\
        exists hh cc g,
          h = VTuple [VTuple [VTensor hh; VTensor cc]; VTensor g] /\
          shape hh = [1; 1; 2] /\ shape cc = [1; 1; 2] /\ shape g = [1; 1; 2]).
Proof.
  destruct (RnnRegNet.init 1 2 1 1 example_params) as [rnn|] eqn:Ernn;
    [|discriminate].
  exists rnn. split; [reflexivity|].
  apply (X9_RnnRegNet_accepts (SR := Z_Scalar) 1 2 1 1 example_params rnn Ernn
           false (pulse 3 1 2) 3 1 1 ltac:(lia) ltac:(lia) eq_refl).
Defined.

(** A run of X10. *)
Lemma X10_zero_state_witness :
  exists rnn out h out' h',
    RnnRegNet.init 1 2 1 1 example_params = Some rnn /\
    RnnRegNet.forward rnn false (pulse 3 1 2) VNone = Some (out, h) /\
    RnnRegNet.forward rnn false (pulse 3 1 2)
      (VTuple [VTuple [VTensor (th.zeros [1; 1; 2]); VTensor (th.zeros [1; 1; 2])];
               VTensor (th.zeros [1; 1; 2])]) = Some (out', h') /\
    teq out out' /\
    same_hidden rnn 1 h h'.
Proof.
  destruct (RnnRegNet.init 1 2 1 1 example_params) as [rnn|] eqn:Ernn;
    [|discriminate].
  destruct (X10_None_is_the_zero_state (SR := Z_Scalar) 1 2 1 1 example_params
              rnn Ernn false (pulse 3 1 2) 3 1 ltac:(lia) ltac:(lia) eq_refl)
    as (o & h & o' & h' & H1 & H2 & H3 & H4); [lia|].
  exists rnn, o, h, o', h'. split; [reflexivity|].
  split; [exact H1|]. split; [exact H2|]. split; [exact H3 | exact H4].
Defined.

(** A run of X11. *)
Lemma X11_mode_witness :
  exists rnn out h out' h',
    RnnRegNet.init 1 2 1 1 example_params = Some rnn /\
    RnnRegNet.forward rnn true (pulse 3 1 2) VNone = Some (out, h) /\
    RnnRegNet.forward rnn false (pulse 3 1 2) VNone = Some (out', h') /\
    teq out out' /\
    same_hidden rnn 1 h h'.
Proof.
  destruct (RnnRegNet.init 1 2 1 1 example_params) as [rnn|] eqn:Ernn;
    [|discriminate].
  destruct (RnnRegNet_forward_rows (SR := Z_Scalar) 1 2 1 1 example_params rnn
              Ernn true (pulse 3 1 2) VNone 3 1 _ _ eq_refl ltac:(lia)
              (hid_states_None rnn (pulse 3 1 2) 1))
    as (o & h & Ho & _).
  destruct (X11_RnnRegNet_mode_does_not_matter (SR := Z_Scalar) 1 2 1 1
              example_params rnn Ernn (pulse 3 1 2) o VNone h true 3 1 1 eq_refl
              Ho) as (o' & h' & Ho' & Hteq & Hsame).
  exists rnn, o, h, o', h'. split; [reflexivity|].
  split; [exact Ho|]. split; [exact Ho'|]. split; [exact Hteq | exact Hsame].
Defined.




(** A run of X15: the hidden state of a batch of one, offered to a batch of
    two. *)
Lemma X15_batch_size_witness :
  exists rnn out h,
    RnnRegNet.init 1 2 1 1 example_params = Some rnn /\
    RnnRegNet.forward rnn false (ramp 2 1) VNone = Some (out, h) /\
    RnnRegNet.forward rnn false (ramp 2 2) h = None.
Proof.
  destruct (RnnRegNet.init 1 2 1 1 example_params) as [rnn|] eqn:Ernn;
    [|discriminate].
  destruct (RnnRegNet_forward_rows (SR := Z_Scalar) 1 2 1 1 example_params rnn
              Ernn false (ramp 2 1) VNone 2 1 _ _ eq_refl ltac:(lia)
              (hid_states_None rnn (ramp 2 1) 1))
    as (o & h & Ho & _).
  exists rnn, o, h. split; [reflexivity|]. split; [exact Ho|].
  apply (X15_hidden_state_is_tied_to_batch_size (SR := Z_Scalar) 1 2 1 1
           example_params rnn Ernn false false (ramp 2 1) (ramp 2 2) o VNone h
           2 1 1 2 2 1 eq_refl Ho eq_refl).
  lia.
Defined.

(** A run of X16: the last time step of three. *)
Lemma X16_negative_warmup_witness :
  keeps_tail RnnRegNet.get_obj_value Z.sub (pulse 3 1 5) (pulse 3 2 1) 3 1 1 1 /\
  keeps_tail DilatedCNNRegNet.get_obj_value Z.sub (pulse 3 1 5) (pulse 3 2 1)
    3 1 1 1 /\
  keeps_tail TransformerRegNet.get_obj_value Z.sub (pulse 3 1 5) (pulse 3 2 1)
    3 1 1 1.
Proof.
  apply (X16_get_obj_value_negative_warmup Z.sub (pulse 3 1 5) (pulse 3 2 1)
           3 1 1 1); [reflexivity | reflexivity | lia].
Defined.

(** A run of X17. *)
Lemma X17_permute_witness :
  exists y z,
    th.permute (ramp 3 2) [1; 2; 0] = Some y /\
    shape y = [2; 1; 3] /\
    (forall t b k, get y [b; k; t] = get (ramp 3 2) [t; b; k]) /\
    th.permute y [2; 0; 1] = Some z /\
    teq z (ramp 3 2).
Proof.
  apply (X17_permute_round_trip (ramp 3 2) 3 2 1). reflexivity.
Defined.

(** A run of X18: in training mode, a single time step of a single batch
    element is refused. *)
Lemma X18_DilatedCNNRegNet_accepts_witness :
  exists self,
    DilatedCNNRegNet.init 1 2 1 1 3 2 example_params = Some self /\
    ((exists out h,
         DilatedCNNRegNet.forward self true (pulse 1 0 5) tt = Some (out, h)) <->
     0 < 1 * 1 /\ 1 = 1 /\ (true = true -> 0 < 1 -> 1 * 1 <> 1)).
Proof.
  destruct (DilatedCNNRegNet.init 1 2 1 1 3 2 example_params) as [net|] eqn:Enet;
    [|discriminate].
  exists net. split; [reflexivity|].
  apply (X18_DilatedCNNRegNet_accepts (SR := Z_Scalar) 1 2 1 1 3 2 example_params
           net true unit (pulse 1 0 5) tt 1 1 1 Enet ltac:(lia) ltac:(lia)
           ltac:(lia) eq_refl).
Defined.

(** A run of X19: batch element 1 of a batch of two and batch element 0 of
    a batch of one. *)
Lemma X19_batch_witness :
  exists self out h out' h',
    DilatedCNNRegNet.init 1 2 1 1 3 2 example_params = Some self /\
    DilatedCNNRegNet.forward self false (ramp 3 2) tt = Some (out, h) /\
    DilatedCNNRegNet.forward self false (ramp 3 1) tt = Some (out', h') /\
    veq 1 (slice out 0 1) (slice out' 0 0).
Proof.
  destruct (DilatedCNNRegNet.init 1 2 1 1 3 2 example_params) as [net|] eqn:Enet;
    [|discriminate].
  destruct (DilatedCNNRegNet_forward_ok (SR := Z_Scalar) 1 2 1 1 3 2
              example_params net false unit (ramp 3 2) tt 3 2 Enet eq_refl)
    as (o & Ho); [lia | left; reflexivity |].
  destruct (DilatedCNNRegNet_forward_ok (SR := Z_Scalar) 1 2 1 1 3 2
              example_params net false unit (ramp 3 1) tt 3 1 Enet eq_refl)
    as (o' & Ho'); [lia | left; reflexivity |].
  exists net, o, VNone, o', VNone. split; [reflexivity|].
  split; [exact Ho|]. split; [exact Ho'|].
  apply (X19_DilatedCNNRegNet_batch_elements_are_independent (SR := Z_Scalar)
           1 2 1 1 3 2 example_params net unit unit tt tt (ramp 3 2) (ramp 3 1)
           o o' VNone VNone 3 2 1 0 1 0 Enet eq_refl eq_refl Ho Ho'); try lia.
  intros s Hs Hw k Hk. reflexivity.
Defined.

(** A run of X20. *)
Lemma X20_TransformerRegNet_accepts_witness :
  exists self,
    TransformerRegNet.init (TR := Z_Transformer) 1 4 3 1 4 example_params
      = Some self /\
    ((exists out h,
         TransformerRegNet.forward (TR := Z_Transformer) self false (pulse 2 0 1)
           tt = Some (out, h)) <->
     0 < 2 * 1 /\ 1 = 1 /\
     exists x y1 y2,
       NnSeqBnMLP.forward (TransformerRegNet.mlp_inp self) false (pulse 2 0 1)
         = Some x /\
       shape x = [2; 1; 4] /\
       encoder_stack (TransformerRegNet.transformer1 self) false x = Some y1 /\
       encoder_stack (TransformerRegNet.transformer2 self) false x = Some y2).
Proof.
  destruct (TransformerRegNet.init (TR := Z_Transformer) 1 4 3 1 4 example_params)
    as [net|] eqn:Enet; [|discriminate].
  exists net. split; [reflexivity|].
  apply (X20_TransformerRegNet_accepts (SR := Z_Scalar) (TR := Z_Transformer)
           1 4 3 1 4 example_params net false unit (pulse 2 0 1) tt 2 1 1 Enet
           eq_refl).
Defined.

(** A run of X21: kernel size 3, dilation 2, three time steps, in
    training mode. *)
Lemma X21_DilatedCNN_accepts_witness :
  ((exists y,
       DilatedCNN.forward (DilatedCNN.init 1 2 3 2 example_params) true
         (Tensor [1; 1; 3] (fun idx => Z.of_nat (nth 2 idx 0))) = Some y) <->
   1 = 1 /\ (true = true -> 1 * 3 <> 1)) /\
  (forall y,
      DilatedCNN.forward (DilatedCNN.init 1 2 3 2 example_params) true
        (Tensor [1; 1; 3] (fun idx => Z.of_nat (nth 2 idx 0))) = Some y ->
      shape y = [1; 2; 3]).
Proof.
  apply (X21_DilatedCNN_accepts (SR := Z_Scalar) 1 2 3 2 example_params true
           (Tensor [1; 1; 3] (fun idx => Z.of_nat (nth 2 idx 0))) 1 1 3);
    try lia.
  reflexivity.
Defined.
